(** * Scheduling engine of the trainer calendar: date helpers, month cache,
      conflict detection, weekly recurrence and the create flow.

    The development embeds [lib/date.ts], the storage handlers of the
    calendar screen and the scheduling part of [components/Calendar.tsx].

    Conventions of the embedding.
    - A JavaScript [Date] is its time value: milliseconds since the epoch, a
      [Z].  ISO strings produced by [toISOString] and read back by
      [new Date(iso)] denote the same instant, so the [startISO]/[endISO]
      fields are kept as instants.  Invalid dates are handled where the
      code can produce them (parsing the form's date text).
    - In [DateLib] local time is UTC shifted by an offset [tz]
      (milliseconds east of Greenwich) that never changes, a parameter of
      every function that reads local calendar fields: the host of these
      definitions has no daylight saving, and its dates stay inside the range
      of time values.  [HostDate] has the helpers that move a date by
      setting fields of its local time on a host with any time zone rules,
      with [TimeClip].
    - Texts are read as UTF-8.
    - Promises are modelled by their outcome: [None] is a rejection. *)

From Stdlib Require Import ZArith Lia List Ascii String.
From stdpp Require Import gmap strings list fin_maps pretty sorting.

Local Open Scope Z_scope.

(** ** lib/date.ts *)
Module DateLib.

Definition msPerMinute : Z := 60000.
Definition msPerHour : Z := 3600000.
Definition msPerDay : Z := 86400000.

(** ECMAScript abstract operations on time values. *)
Definition Day (t : Z) : Z := t / msPerDay.
Definition TimeWithinDay (t : Z) : Z := t mod msPerDay.
Definition HourFromTime (t : Z) : Z := (t / msPerHour) mod 24.
Definition MinFromTime (t : Z) : Z := (t / msPerMinute) mod 60.
Definition SecFromTime (t : Z) : Z := (t / 1000) mod 60.
Definition msFromTime (t : Z) : Z := t mod 1000.
Definition MakeTime (hour min sec ms : Z) : Z :=
  hour * msPerHour + min * msPerMinute + sec * 1000 + ms.
Definition MakeDate (day time : Z) : Z := day * msPerDay + time.

(** Proleptic Gregorian calendar: day number (days since 1970-01-01) to
    (year, month 1..12, day of month) and back. *)
Definition civil_from_days (z : Z) : Z * Z * Z :=
  let z' := z + 719468 in
  let era := z' / 146097 in
  let doe := z' - era * 146097 in
  let yoe := (doe - doe / 1460 + doe / 36524 - doe / 146096) / 365 in
  let doy := doe - (365 * yoe + yoe / 4 - yoe / 100) in
  let mp := (5 * doy + 2) / 153 in
  let d := doy - (153 * mp + 2) / 5 + 1 in
  let m := if mp <? 10 then mp + 3 else mp - 9 in
  (yoe + era * 400 + (if m <=? 2 then 1 else 0), m, d).

Definition days_from_civil (y m d : Z) : Z :=
  let y' := y - (if m <=? 2 then 1 else 0) in
  let era := y' / 400 in
  let yoe := y' - era * 400 in
  let doy := (153 * (if 2 <? m then m - 3 else m + 9) + 2) / 5 + d - 1 in
  let doe := yoe * 365 + yoe / 4 - yoe / 100 + doy in
  era * 146097 + doe - 719468.

Definition YearFromTime (t : Z) : Z := (civil_from_days (Day t)).1.1.
(** Month index, 0..11, as JavaScript counts months. *)
Definition MonthFromTime (t : Z) : Z := (civil_from_days (Day t)).1.2 - 1.
Definition DateFromTime (t : Z) : Z := (civil_from_days (Day t)).2.

(** [MakeDay(year, month, date)]: month is an index and may lie outside
    0..11, it carries into the year. *)
Definition MakeDay (year month date : Z) : Z :=
  days_from_civil (year + month / 12) (month mod 12 + 1) 1 + date - 1.

Fixpoint zeros (n : nat) : string :=
  match n with O => EmptyString | S k => String "0"%char (zeros k) end.

(** [s.padStart(n, '0')] *)
Definition padStart0 (n : nat) (s : string) : string :=
  String.append (zeros (n - String.length s)) s.

(** The date key of a day number: year, month and day of month joined by
    dashes, month and day padded to two digits. *)
Definition dateKeyOfDay (day : Z) : string :=
  let c := civil_from_days day in
  pretty c.1.1 +:+ "-" +:+ padStart0 2 (pretty c.1.2) +:+ "-" +:+ padStart0 2 (pretty c.2).

(** A [Date] object: [Some t] with time value [t], or [None] for an
    Invalid Date (time value NaN). *)
Definition JsDate : Type := option Z.

(** [a < b] and [a >= b] on dates compare time values; any comparison with
    NaN is false. *)
Definition date_lt (a b : JsDate) : bool :=
  match a, b with Some x, Some y => x <? y | _, _ => false end.
Definition date_ge (a b : JsDate) : bool :=
  match a, b with Some x, Some y => y <=? x | _, _ => false end.

(** [date.toISOString()]; [None] is the RangeError thrown on an Invalid
    Date.  The ISO text is kept as the instant it denotes. *)
Definition toUTCISO (date : JsDate) : option Z := date.
(** [new Date(utcISO)] of a stored ISO text. *)
Definition toLocal (utcISO : Z) : JsDate := Some utcISO.

Definition dateRangesOverlap (start1 end1 start2 end2 : JsDate) : bool :=
  date_lt start1 end2 && date_lt start2 end1.

(** [isPast(date)]: [date < new Date()], the clock read is [now]. *)
Definition isPast (now : Z) (date : JsDate) : bool := date_lt date (Some now).

Section Host.
(** Offset of local time from UTC, in milliseconds, on a host where this
    offset never changes. *)
Variable tz : Z.

Definition LocalTime (t : Z) : Z := t + tz.
Definition UTC (t : Z) : Z := t - tz.

Definition getFullYear (d : Z) : Z := YearFromTime (LocalTime d).
Definition getMonth (d : Z) : Z := MonthFromTime (LocalTime d).
Definition getDate (d : Z) : Z := DateFromTime (LocalTime d).
Definition getHours (d : Z) : Z := HourFromTime (LocalTime d).
Definition getMinutes (d : Z) : Z := MinFromTime (LocalTime d).

(** [d.setDate(dt)] on a valid date. *)
Definition setDate (d dt : Z) : Z :=
  let t := LocalTime d in
  UTC (MakeDate (MakeDay (YearFromTime t) (MonthFromTime t) dt) (TimeWithinDay t)).

(** [d.setHours(hour, min, sec, ms)] on a valid date. *)
Definition setHours (d hour min sec ms : Z) : Z :=
  let t := LocalTime d in
  UTC (MakeDate (Day t) (MakeTime hour min sec ms)).

(** [new Date(year, monthIndex, day)]; years 0..99 mean 1900..1999. *)
Definition newDate (year monthIndex day : Z) : Z :=
  let yr := if (0 <=? year) && (year <=? 99) then 1900 + year else year in
  UTC (MakeDate (MakeDay yr monthIndex day) 0).

Definition dateKey (date : JsDate) : string :=
  match date with
  | Some t =>
      let year := getFullYear t in
      let month := padStart0 2 (pretty (getMonth t + 1)) in
      let day := padStart0 2 (pretty (getDate t)) in
      pretty year +:+ "-" +:+ month +:+ "-" +:+ day
  | None => "NaN-NaN-NaN"
  end.

Definition getMonthRange (year month weeksPadding : Z) : Z * Z :=
  let startOfMonth := newDate year (month - 1) 1 in
  let endOfMonth := newDate year month 0 in
  let paddingDays := weeksPadding * 7 in
  let start := setDate startOfMonth (getDate startOfMonth - paddingDays) in
  let end_ := setDate endOfMonth (getDate endOfMonth + paddingDays) in
  (start, end_).

(** The loop runs for i = 1, 2, ... while i <= weeks. *)
Definition getWeeklyRepeatDates (startDate weeks : Z) : list Z :=
  (fun i => setDate startDate (getDate startDate + i * 7)) <$> seqZ 1 weeks.

Definition formatTime (date : Z) : string :=
  let hours := getHours date in
  let minutes := getMinutes date in
  let ampm : string := if 12 <=? hours then "PM" else "AM" in
  let displayHours := if hours mod 12 =? 0 then 12 else hours mod 12 in
  let displayMinutes := padStart0 2 (pretty minutes) in
  pretty displayHours +:+ ":" +:+ displayMinutes +:+ " " +:+ ampm.

Definition formatDateRange (start end_ : Z) : string :=
  formatTime start +:+ " - " +:+ formatTime end_.

(** [isToday(date)]; [now] is the clock read. *)
Definition isToday (now : Z) (date : JsDate) : bool :=
  String.eqb (dateKey date) (dateKey (Some now)).
End Host.

End DateLib.

(** ** lib/date.ts on a host with any time zone rules

    [LocalTZA t isUTC] is the offset of local time in milliseconds, as in
    ECMAScript: the offset in force at the instant [t] when [isUTC] holds,
    and otherwise the offset by which the host reads the local time value
    [t] (where a change of offset skips or repeats a local time, the host's
    choice).  Minutes and weeks are whole numbers. *)
Module HostDate.

(** The largest time value of a [Date], and [TimeClip]. *)
Definition maxTime : Z := 8640000000000000.
Definition TimeClip (time : Z) : DateLib.JsDate :=
  if Z.abs time <=? maxTime then Some time else None.

Section Zone.
Variable LocalTZA : Z -> bool -> Z.

Definition LocalTime (t : Z) : Z := t + LocalTZA t true.
Definition UTC (t : Z) : Z := t - LocalTZA t false.

(** Fields of the local time of a valid date. *)
Definition getDate (d : Z) : Z := DateLib.DateFromTime (LocalTime d).
Definition getHours (d : Z) : Z := DateLib.HourFromTime (LocalTime d).
Definition getMinutes (d : Z) : Z := DateLib.MinFromTime (LocalTime d).

(** [d.setDate(dt)], [d.setHours(hour)], [d.setMinutes(min)],
    [d.setSeconds(sec)] and [d.setMilliseconds(ms)] on a valid date, each
    with one argument: the other fields of the local time are kept, and the
    new local time is read back as an instant.  The result is the new value
    of [d]. *)
Definition setDate (d dt : Z) : DateLib.JsDate :=
  let t := LocalTime d in
  TimeClip (UTC (DateLib.MakeDate
                   (DateLib.MakeDay (DateLib.YearFromTime t) (DateLib.MonthFromTime t) dt)
                   (DateLib.TimeWithinDay t))).

Definition setHoursOnly (d hour : Z) : DateLib.JsDate :=
  let t := LocalTime d in
  TimeClip (UTC (DateLib.MakeDate (DateLib.Day t)
                   (DateLib.MakeTime hour (DateLib.MinFromTime t) (DateLib.SecFromTime t)
                      (DateLib.msFromTime t)))).

Definition setMinutes (d min : Z) : DateLib.JsDate :=
  let t := LocalTime d in
  TimeClip (UTC (DateLib.MakeDate (DateLib.Day t)
                   (DateLib.MakeTime (DateLib.HourFromTime t) min (DateLib.SecFromTime t)
                      (DateLib.msFromTime t)))).

Definition setSeconds (d sec : Z) : DateLib.JsDate :=
  let t := LocalTime d in
  TimeClip (UTC (DateLib.MakeDate (DateLib.Day t)
                   (DateLib.MakeTime (DateLib.HourFromTime t) (DateLib.MinFromTime t) sec
                      (DateLib.msFromTime t)))).

Definition setMilliseconds (d ms : Z) : DateLib.JsDate :=
  let t := LocalTime d in
  TimeClip (UTC (DateLib.MakeDate (DateLib.Day t)
                   (DateLib.MakeTime (DateLib.HourFromTime t) (DateLib.MinFromTime t)
                      (DateLib.SecFromTime t) ms))).

(** [nearestHalfHour(date)]; the default argument is the clock read.  On
    an Invalid Date every field read is NaN, both comparisons fail, and every
    setter leaves the date invalid. *)
Definition nearestHalfHour (date : DateLib.JsDate) : DateLib.JsDate :=
  rounded ← date;
  let minutes := getMinutes rounded in
  rounded ← (if minutes <? 15 then setMinutes rounded 0
             else if minutes <? 45 then setMinutes rounded 30
             else
               rounded ← setMinutes rounded 0;
               setHoursOnly rounded (getHours rounded + 1));
  rounded ← setSeconds rounded 0;
  setMilliseconds rounded 0.

Definition addMinutes (date : DateLib.JsDate) (minutes : Z) : DateLib.JsDate :=
  result ← date;
  setMinutes result (getMinutes result + minutes).

(** The loop runs for i = 1, 2, ... while i <= weeks. *)
Definition getWeeklyRepeatDates (startDate : DateLib.JsDate) (weeks : Z)
    : list DateLib.JsDate :=
  (fun i => date ← startDate; setDate date (getDate date + i * 7)) <$> seqZ 1 weeks.
End Zone.

End HostDate.

(** ** Data model ([Session], filters, clients) *)

Inductive Status : Set := booked | completed | cancelled | no_show.

Global Instance Status_eq_dec : EqDecision Status.
Proof. solve_decision. Defined.

Module Session.
(** [Omit<Session, 'id'>] *)
Record data : Type := {
  clientId : string;
  clientName : option string;
  date : string;          (* YYYY-MM-DD in local time *)
  startISO : Z;
  endISO : Z;
  status : Status;
  location : option string;
  notes : option string;
  recurring : option bool }.

(** [Session]: the fields above together with the id. *)
Record t : Type := { id : string; fields : data }.
End Session.

Module SessionFilters.
Record t : Type := {
  status : option (list Status);
  clientId : option string }.
End SessionFilters.

Module Client.
Record t : Type := {
  id : string;
  displayName : option string;
  firstName : option string;
  lastName : option string }.
End Client.

(** The argument of [onCreateSession]: one session or an array of them. *)
Inductive CreateArg : Type :=
| Single (s : Session.data)
| Batch (l : list Session.data).

(** JavaScript truthiness of an optional string, and [a || b]. *)
Definition truthy (o : option string) : bool :=
  match o with Some s => negb (String.eqb s "") | None => false end.
Definition or_else (o : option string) (d : string) : string :=
  match o with Some s => if String.eqb s "" then d else s | None => d end.

(** ** The calendar screen: sessions kept under one storage key *)
Module CalendarScreen.

(** Outcome of [AsyncStorage.getItem(SESSIONS_KEY)] followed by
    [JSON.parse]: the call rejects or the text does not parse, the key is
    absent, or a list of sessions is read. *)
Inductive StoredItem : Type :=
| Unreadable
| Absent
| Stored (l : list Session.t).

Definition status_includes (l : list Status) (x : Status) : bool :=
  existsb (fun y => bool_decide (y = x)) l.

Definition loadSessions (stored : StoredItem) (startISO endISO : Z)
    (filters : option SessionFilters.t) : list Session.t :=
  match stored with
  | Unreadable => []                     (* the catch branch *)
  | _ =>
      let allSessions := match stored with Stored l => l | _ => [] end in
      let filtered :=
        List.filter (fun session =>
          let sessionStart := Session.startISO (Session.fields session) in
          (startISO <=? sessionStart) && (sessionStart <=? endISO)) allSessions in
      let statuses := default [] (filters ≫= SessionFilters.status) in
      let clientId := filters ≫= SessionFilters.clientId in
      if (0 <? length statuses)%nat then
        List.filter (fun s =>
          status_includes statuses (Session.status (Session.fields s))) filtered
      else if truthy clientId then
        List.filter (fun s =>
          bool_decide (Some (Session.clientId (Session.fields s)) = clientId)) filtered
      else filtered
  end.

(** [handleCreateSession]: [sessions] is the screen's list, [newId i] the
    id generated for the i-th new session, [writeOk] whether
    [AsyncStorage.setItem] resolves.  Returns the new list, the text
    written to storage when the write succeeds, and whether the handler
    resolves ([false]: it rethrows). *)
Definition handleCreateSession (sessions : list Session.t) (newId : nat -> string)
    (writeOk : bool) (sessionData : CreateArg)
    : list Session.t * option (list Session.t) * bool :=
  let sessionsToCreate := match sessionData with Single d => [d] | Batch l => l end in
  let newSessions :=
    imap (fun i d => {| Session.id := newId i; Session.fields := d |}) sessionsToCreate in
  let updatedSessions := sessions ++ newSessions in
  (updatedSessions, if writeOk then Some updatedSessions else None, writeOk).

(** [handleEditSession] and [handleDeleteSession], with the same reading of
    the result as [handleCreateSession]. *)
Definition handleEditSession (sessions : list Session.t) (writeOk : bool)
    (updatedSession : Session.t)
    : list Session.t * option (list Session.t) * bool :=
  let updatedSessions :=
    (fun s => if String.eqb (Session.id s) (Session.id updatedSession)
              then updatedSession else s) <$> sessions in
  (updatedSessions, if writeOk then Some updatedSessions else None, writeOk).

Definition handleDeleteSession (sessions : list Session.t) (writeOk : bool)
    (sessionId : string)
    : list Session.t * option (list Session.t) * bool :=
  let updatedSessions :=
    List.filter (fun s => negb (String.eqb (Session.id s) sessionId)) sessions in
  (updatedSessions, if writeOk then Some updatedSessions else None, writeOk).

End CalendarScreen.

(** ** components/Calendar.tsx: the scheduling controller *)
Module Calendar.

Module CreateSessionFormData.
Record t : Type := {
  clientId : string;
  date : string;
  startTime : string;
  endTime : string;
  duration : Z;
  status : Status;
  location : string;
  notes : string;
  repeatWeekly : bool;
  repeatWeeks : Z }.
End CreateSessionFormData.

(** The component state the scheduling code reads and writes. *)
Record CalendarState : Type := {
  visibleMonth : Z * Z;                           (* year, month 1..12 *)
  sessionsByDate : gmap string (list Session.t);
  filters : SessionFilters.t;
  isLoading : bool;
  error : option string;
  cachedMonths : gset string;
  showCreateModal : bool }.

(** Calls that leave the component. *)
Inductive Event : Type :=
| LoadSessions (startISO endISO : Z) (f : SessionFilters.t)
| ConsoleError (msg : string).

(** What a press of Save leads to: the handler returns, shows an alert
    whose buttons each continue with a flow of their own, forwards a session
    to [onSessionPress], or calls [onCreateSession]. *)
Inductive Flow : Type :=
| Returns
| ShowAlert (title message : string) (buttons : list Button)
| PressSession (s : option Session.t)
| CallOnCreateSession (arg : CreateArg)
with Button : Type :=
| button (text : string) (onPress : Flow).

(** The white space and line terminators that [trim] removes, by the bytes
    of their UTF-8 form: U+0009 to U+000D and U+0020 in one byte; U+00A0 in
    two; U+1680, U+2000 to U+200A, U+2028, U+2029, U+202F, U+205F, U+3000
    and U+FEFF in three. *)
Definition is_space (c : ascii) : bool :=
  let n := nat_of_ascii c in
  ((9 <=? n) && (n <=? 13))%nat || (n =? 32)%nat.

Definition is_space2 (a b : ascii) : bool :=
  ((nat_of_ascii a =? 194) && (nat_of_ascii b =? 160))%nat.

Definition is_space3 (a b c : ascii) : bool :=
  let x := nat_of_ascii a in
  let y := nat_of_ascii b in
  let z := nat_of_ascii c in
  ((x =? 225) && (y =? 154) && (z =? 128)
   || (x =? 226) && (y =? 128)
      && ((128 <=? z) && (z <=? 138) || (z =? 168) || (z =? 169) || (z =? 175))
   || (x =? 226) && (y =? 129) && (z =? 159)
   || (x =? 227) && (y =? 128) && (z =? 128)
   || (x =? 239) && (y =? 187) && (z =? 191))%nat.

(** [s.trimStart()] *)
Fixpoint ltrim (s : string) : string :=
  match s with
  | String a r =>
      if is_space a then ltrim r
      else
        match r with
        | String b r2 =>
            if is_space2 a b then ltrim r2
            else
              match r2 with
              | String c r3 => if is_space3 a b c then ltrim r3 else s
              | EmptyString => s
              end
        | EmptyString => s
        end
  | EmptyString => EmptyString
  end.

(** [s.trimEnd()]: [s] is cut where what is left of it is white space
    only. *)
Fixpoint rtrim (s : string) : string :=
  match s with
  | String c r => if String.eqb (ltrim s) "" then EmptyString else String c (rtrim r)
  | EmptyString => EmptyString
  end.

Definition trim (s : string) : string := rtrim (ltrim s).

Definition monthKey (year month : Z) : string :=
  pretty year +:+ "-" +:+ pretty month.

(** The [reduce] of [fetchMonth]: sessions grouped by their [date]. *)
Definition grouped (sessions : list Session.t) : gmap string (list Session.t) :=
  foldl (fun acc session =>
           let key := Session.date (Session.fields session) in
           <[key := default [] (acc !! key) ++ [session]]> acc)
        ∅ sessions.

(** [{ ...prev, ...grouped }] *)
Definition merge (prev g : gmap string (list Session.t)) : gmap string (list Session.t) :=
  g ∪ prev.

Definition with_fetch (st : CalendarState) (byDate : gmap string (list Session.t))
    (months : gset string) (err : option string) : CalendarState :=
  {| visibleMonth := visibleMonth st; sessionsByDate := byDate;
     filters := filters st; isLoading := isLoading st; error := err;
     cachedMonths := months; showCreateModal := showCreateModal st |}.

Definition with_loading (st : CalendarState) (b : bool) : CalendarState :=
  {| visibleMonth := visibleMonth st; sessionsByDate := sessionsByDate st;
     filters := filters st; isLoading := b; error := error st;
     cachedMonths := cachedMonths st; showCreateModal := showCreateModal st |}.

Definition with_month (st : CalendarState) (ym : Z * Z) : CalendarState :=
  {| visibleMonth := ym; sessionsByDate := sessionsByDate st;
     filters := filters st; isLoading := isLoading st; error := error st;
     cachedMonths := cachedMonths st; showCreateModal := showCreateModal st |}.

Definition with_modal (st : CalendarState) (b : bool) : CalendarState :=
  {| visibleMonth := visibleMonth st; sessionsByDate := sessionsByDate st;
     filters := filters st; isLoading := isLoading st; error := error st;
     cachedMonths := cachedMonths st; showCreateModal := b |}.

Section Component.
(** Host: offset of local time, the [Date] read from a text by
    [new Date(text)], and the hour and minute [setHours] receives from
    [text.split(':').map(Number)] ([None] when either is not a finite
    number). *)
Variable tz : Z.
Variable parseDate : string -> DateLib.JsDate.
Variable parseTime : string -> option (Z * Z).

(** The [loadSessions] prop: [None] is a rejected promise. *)
Definition Loader : Type := Z -> Z -> SessionFilters.t -> option (list Session.t).

Definition fetchMonth (loadSessions : Loader) (year month : Z) (withPadding : bool)
    (st : CalendarState) : CalendarState * list Event :=
  let monthKey := monthKey year month in
  if bool_decide (monthKey ∈ cachedMonths st) then (st, [])
  else
    let range := DateLib.getMonthRange tz year month (if withPadding then 2 else 0) in
    let call := LoadSessions range.1 range.2 (filters st) in
    match loadSessions range.1 range.2 (filters st) with
    | Some sessions =>
        (with_fetch st (merge (sessionsByDate st) (grouped sessions))
                    ({[monthKey]} ∪ cachedMonths st) (error st),
         [call])
    | None =>
        (with_fetch st (sessionsByDate st) (cachedMonths st)
                    (Some "Failed to load sessions"),
         [call; ConsoleError "Failed to fetch sessions:"])
    end.

(** The effect run on mount and whenever the visible month changes: the
    month itself with padding, then the two neighbours without.  Each call
    tests the fetched set before its load is issued; the three month keys
    differ, so testing them one after the other gives the same answers.
    The three loads are taken to settle in the order they were issued. *)
Definition monthEffect (loadSessions : Loader) (st : CalendarState)
    : CalendarState * list Event :=
  let '(year, month) := visibleMonth st in
  let st0 := with_loading st true in
  let '(st1, e1) := fetchMonth loadSessions year month true st0 in
  let '(st2, e2) := fetchMonth loadSessions year (month - 1) false st1 in
  let '(st3, e3) := fetchMonth loadSessions year (month + 1) false st2 in
  (with_loading st3 false, e1 ++ e2 ++ e3).

Definition handleMonthChange (loadSessions : Loader) (year month : Z)
    (st : CalendarState) : CalendarState * list Event :=
  monthEffect loadSessions (with_month st (year, month)).

Definition checkConflicts (byDate : gmap string (list Session.t))
    (startDate endDate : DateLib.JsDate) (excludeId : option string)
    : list Session.t :=
  let dateStr := DateLib.dateKey tz startDate in
  let sessions := default [] (byDate !! dateStr) in
  List.filter (fun session =>
    if bool_decide (Some (Session.id session) = excludeId) then false
    else
      let sessionStart := DateLib.toLocal (Session.startISO (Session.fields session)) in
      let sessionEnd := DateLib.toLocal (Session.endISO (Session.fields session)) in
      DateLib.dateRangesOverlap startDate endDate sessionStart sessionEnd) sessions.

(** [d.setHours(hour, min, 0, 0)] on a copy of a possibly invalid date. *)
Definition atTime (d : DateLib.JsDate) (hm : option (Z * Z)) : DateLib.JsDate :=
  match d, hm with
  | Some t, Some (h, m) => Some (DateLib.setHours tz t h m 0 0)
  | _, _ => None
  end.

Definition startDateOf (form : CreateSessionFormData.t) : DateLib.JsDate :=
  atTime (parseDate (CreateSessionFormData.date form))
         (parseTime (CreateSessionFormData.startTime form)).

Definition endDateOf (form : CreateSessionFormData.t) : DateLib.JsDate :=
  atTime (parseDate (CreateSessionFormData.date form))
         (parseTime (CreateSessionFormData.endTime form)).

Definition clientNameOf (clients : list Client.t) (cid : string) : string :=
  let client := List.find (fun c => String.eqb (Client.id c) cid) clients in
  let displayName := client ≫= Client.displayName in
  let firstName := client ≫= Client.firstName in
  let lastName := client ≫= Client.lastName in
  or_else displayName (trim (or_else firstName "" +:+ " " +:+ or_else lastName "")).

Definition nonEmpty (s : string) : option string :=
  if String.eqb s "" then None else Some s.

(** [createSessions]: up to the call of [onCreateSession].  Building the
    base session throws on an invalid start or end date, which the catch
    turns into the failure alert. *)
Definition createSessions (form : CreateSessionFormData.t) (clients : list Client.t)
    : Flow :=
  match DateLib.toUTCISO (startDateOf form), DateLib.toUTCISO (endDateOf form),
        parseTime (CreateSessionFormData.startTime form),
        parseTime (CreateSessionFormData.endTime form) with
  | Some startISO, Some endISO, Some (startHour, startMin), Some (endHour, endMin) =>
      let baseSession :=
        {| Session.clientId := CreateSessionFormData.clientId form;
           Session.clientName :=
             Some (clientNameOf clients (CreateSessionFormData.clientId form));
           Session.date := CreateSessionFormData.date form;
           Session.startISO := startISO;
           Session.endISO := endISO;
           Session.status := CreateSessionFormData.status form;
           Session.location := nonEmpty (CreateSessionFormData.location form);
           Session.notes := nonEmpty (CreateSessionFormData.notes form);
           Session.recurring := None |} in
      if CreateSessionFormData.repeatWeekly form
         && (0 <? CreateSessionFormData.repeatWeeks form) then
        let repeatDates :=
          DateLib.getWeeklyRepeatDates tz startISO (CreateSessionFormData.repeatWeeks form) in
        let sessions :=
          (fun date =>
             (* [date] is mutated by the first [setHours] before the second *)
             let date1 := DateLib.setHours tz date startHour startMin 0 0 in
             let date2 := DateLib.setHours tz date1 endHour endMin 0 0 in
             {| Session.clientId := Session.clientId baseSession;
                Session.clientName := Session.clientName baseSession;
                Session.date := DateLib.dateKey tz (Some date);
                Session.startISO := date1;
                Session.endISO := date2;
                Session.status := Session.status baseSession;
                Session.location := Session.location baseSession;
                Session.notes := Session.notes baseSession;
                Session.recurring := Some true |}) <$> repeatDates in
        CallOnCreateSession (Batch sessions)
      else CallOnCreateSession (Single baseSession)
  | _, _, _, _ => ShowAlert "Error" "Failed to create session" []
  end.

Definition proceedWithCreate (form : CreateSessionFormData.t) (clients : list Client.t)
    (byDate : gmap string (list Session.t)) : Flow :=
  let conflicts := checkConflicts byDate (startDateOf form) (endDateOf form) None in
  if (0 <? length conflicts)%nat then
    ShowAlert "Schedule Conflict"
      ("This time conflicts with " +:+ pretty (length conflicts) +:+ " existing session(s)")
      [button "View Conflict" (PressSession (head conflicts));
       button "Pick Different Time" Returns;
       button "Override" (createSessions form clients)]
  else createSessions form clients.

(** [handleCreateSession]; [hasOnCreateSession] tells whether the
    [onCreateSession] prop is given, [now] is the clock read of [isPast]. *)
Definition handleCreateSession (hasOnCreateSession : bool)
    (form : CreateSessionFormData.t) (clients : list Client.t)
    (byDate : gmap string (list Session.t)) (readOnly : bool) (now : Z) : Flow :=
  if negb hasOnCreateSession then Returns
  else if String.eqb (CreateSessionFormData.clientId form) "" then
    ShowAlert "Error" "Please select a client or add clients first" []
  else if DateLib.date_ge (startDateOf form) (endDateOf form) then
    ShowAlert "Error" "End time must be after start time" []
  else if DateLib.isPast now (startDateOf form) && negb readOnly then
    ShowAlert "Warning" "This session is in the past. Continue?"
      [button "Cancel" Returns;
       button "Continue" (proceedWithCreate form clients byDate)]
  else proceedWithCreate form clients byDate.

(** After [onCreateSession] resolved: the visible month is dropped from
    the fetched set and fetched again, then the modal closes. *)
Definition refreshAfterCreate (loadSessions : Loader) (st : CalendarState)
    : CalendarState * list Event :=
  let '(year, month) := visibleMonth st in
  let st1 := with_fetch st (sessionsByDate st)
               (cachedMonths st ∖ {[monthKey year month]}) (error st) in
  let '(st2, ev) := fetchMonth loadSessions year month true st1 in
  (with_modal st2 false, ev).
End Component.

(** Every [onCreateSession] call a flow can reach without pressing a
    button labelled [avoid]. *)
Fixpoint createsAvoiding (avoid : string) (f : Flow) : list CreateArg :=
  match f with
  | Returns | PressSession _ => []
  | CallOnCreateSession arg => [arg]
  | ShowAlert _ _ buttons =>
      (fix go (bs : list Button) : list CreateArg :=
         match bs with
         | [] => []
         | button text k :: rest =>
             (if String.eqb text avoid then [] else createsAvoiding avoid k) ++ go rest
         end) buttons
  end.

(** Every [onCreateSession] call a flow can reach at all. *)
Fixpoint creates (f : Flow) : list CreateArg :=
  match f with
  | Returns | PressSession _ => []
  | CallOnCreateSession arg => [arg]
  | ShowAlert _ _ buttons =>
      (fix go (bs : list Button) : list CreateArg :=
         match bs with
         | [] => []
         | button _ k :: rest => creates k ++ go rest
         end) buttons
  end.

(** [a.sort((x, y) => key(x) - key(y))]: the sort is stable, so the result
    is the one of any stable sort; insertion from the right is used here.
    (The source sorts the bucket array in place; the order in which a bucket
    is stored is not tracked in [sessionsByDate] here.) *)
Fixpoint insertByKey {A} (key : A -> Z) (x : A) (l : list A) : list A :=
  match l with
  | [] => [x]
  | y :: ys => if key x <=? key y then x :: y :: ys else y :: insertByKey key x ys
  end.

Fixpoint sortByKey {A} (key : A -> Z) (l : list A) : list A :=
  match l with
  | [] => []
  | x :: xs => insertByKey key x (sortByKey key xs)
  end.

(** The memo [selectedSessions]: the agenda of the selected day. *)
Definition selectedSessions (selectedDate : string)
    (byDate : gmap string (list Session.t)) : list Session.t :=
  if String.eqb selectedDate "" then []
  else
    let sessions := default [] (byDate !! selectedDate) in
    sortByKey (fun a => Session.startISO (Session.fields a)) sessions.

Module MarkedDate.
Record t : Type := {
  selected : option bool;
  marked : option bool;
  selectedColor : option string;
  dotColor : option string;
  today : option bool }.

(** The empty object, which spreading [undefined] gives. *)
Definition empty : t :=
  {| selected := None; marked := None; selectedColor := None;
     dotColor := None; today := None |}.
End MarkedDate.

(** The memo [markedDates]. *)
Definition markedDates (today selectedDate : string)
    (byDate : gmap string (list Session.t)) : gmap string MarkedDate.t :=
  let marked : gmap string MarkedDate.t :=
    {[ today := {| MarkedDate.selected := None; MarkedDate.marked := None;
                   MarkedDate.selectedColor := None; MarkedDate.dotColor := None;
                   MarkedDate.today := Some true |} ]} in
  let marked :=
    if String.eqb selectedDate "" then marked
    else
      let old := default MarkedDate.empty (marked !! selectedDate) in
      <[selectedDate :=
          {| MarkedDate.selected := Some true;
             MarkedDate.marked := MarkedDate.marked old;
             MarkedDate.selectedColor := Some "#2196F3"%string;
             MarkedDate.dotColor := MarkedDate.dotColor old;
             MarkedDate.today := MarkedDate.today old |}]> marked in
  map_fold (fun date sessions (marked : gmap string MarkedDate.t) =>
              if (0 <? length sessions)%nat then
                let old := default MarkedDate.empty (marked !! date) in
                <[date :=
                    {| MarkedDate.selected := MarkedDate.selected old;
                       MarkedDate.marked := Some true;
                       MarkedDate.selectedColor := MarkedDate.selectedColor old;
                       MarkedDate.dotColor := Some "#4CAF50"%string;
                       MarkedDate.today := MarkedDate.today old |}]> marked
              else marked)
           marked byDate.

(** [h.toString().padStart(2, '0') + ':' + m.toString().padStart(2, '0')] *)
Definition clockText (hours minutes : Z) : string :=
  DateLib.padStart0 2 (pretty hours) +:+ ":" +:+ DateLib.padStart0 2 (pretty minutes).

(** The hour and minute of a date as [resetCreateForm] prints them; the
    fields of an Invalid Date are NaN, which [padStart] leaves as it is. *)
Definition clockOf (LocalTZA : Z -> bool -> Z) (d : DateLib.JsDate) : string :=
  match d with
  | Some t => clockText (HostDate.getHours LocalTZA t) (HostDate.getMinutes LocalTZA t)
  | None => "NaN:NaN"
  end.

(** [resetCreateForm]; [now] is the clock read of [nearestHalfHour()]. *)
Definition resetCreateForm (LocalTZA : Z -> bool -> Z) (now : Z) (selectedDate : string)
    : CreateSessionFormData.t :=
  let nextHalfHour := HostDate.nearestHalfHour LocalTZA (Some now) in
  {| CreateSessionFormData.clientId := "";
     CreateSessionFormData.date := selectedDate;
     CreateSessionFormData.startTime := clockOf LocalTZA nextHalfHour;
     CreateSessionFormData.endTime :=
       clockOf LocalTZA (HostDate.addMinutes LocalTZA nextHalfHour 60);
     CreateSessionFormData.duration := 60;
     CreateSessionFormData.status := booked;
     CreateSessionFormData.location := "";
     CreateSessionFormData.notes := "";
     CreateSessionFormData.repeatWeekly := false;
     CreateSessionFormData.repeatWeeks := 1 |}.

(** [setCreateForm({ ...createForm, clientId: client.id })] *)
Definition pickClient (form : CreateSessionFormData.t) (cid : string)
    : CreateSessionFormData.t :=
  {| CreateSessionFormData.clientId := cid;
     CreateSessionFormData.date := CreateSessionFormData.date form;
     CreateSessionFormData.startTime := CreateSessionFormData.startTime form;
     CreateSessionFormData.endTime := CreateSessionFormData.endTime form;
     CreateSessionFormData.duration := CreateSessionFormData.duration form;
     CreateSessionFormData.status := CreateSessionFormData.status form;
     CreateSessionFormData.location := CreateSessionFormData.location form;
     CreateSessionFormData.notes := CreateSessionFormData.notes form;
     CreateSessionFormData.repeatWeekly := CreateSessionFormData.repeatWeekly form;
     CreateSessionFormData.repeatWeeks := CreateSessionFormData.repeatWeeks form |}.

End Calendar.

(** ** The session tracking tab *)
Module SessionsTab.

Definition getFullName (client : Client.t) : string :=
  if truthy (Client.displayName client) then or_else (Client.displayName client) ""
  else
    let name := Calendar.trim (or_else (Client.firstName client) "" +:+ " "
                               +:+ or_else (Client.lastName client) "") in
    if String.eqb name "" then "Unnamed Client" else name.

End SessionsTab.

(** A host for concrete runs: date-only texts [YYYY-MM-DD] are read as UTC
    midnight (the ECMAScript date-only form) and times as [H:M] in decimal
    digits, as JavaScript reads them.  Any other text is read as invalid
    here; JavaScript reads some of them as numbers (blanks, signs, fractions,
    hexadecimal), and no statement below runs this host on such a text. *)
Module SampleHost.

Definition digit (c : ascii) : option Z :=
  let n := nat_of_ascii c in
  if ((48 <=? n) && (n <=? 57))%nat then Some (Z.of_nat (n - 48)) else None.

Fixpoint digits (s : string) (acc : Z) : option Z :=
  match s with
  | EmptyString => Some acc
  | String c r => match digit c with Some d => digits r (10 * acc + d) | None => None end
  end.

Definition number (s : string) : option Z :=
  match s with EmptyString => None | _ => digits s 0 end.

Fixpoint splitColon (s : string) (cur : string) : list string :=
  match s with
  | EmptyString => [cur]
  | String c r =>
      if Ascii.eqb c ":"%char then cur :: splitColon r EmptyString
      else splitColon r (cur +:+ String c EmptyString)
  end.

Definition parseTime (s : string) : option (Z * Z) :=
  match splitColon s EmptyString with
  | h :: m :: _ =>
      match number h, number m with Some a, Some b => Some (a, b) | _, _ => None end
  | _ => None
  end.

Definition parseDate (s : string) : DateLib.JsDate :=
  if (String.length s =? 10)%nat then
    match number (substring 0 4 s), number (substring 5 2 s), number (substring 8 2 s) with
    | Some y, Some m, Some d =>
        if String.eqb (substring 4 1 s) "-" && String.eqb (substring 7 1 s) "-"
           && (1 <=? m) && (m <=? 12) && (1 <=? d) && (d <=? 31)
        then Some (DateLib.MakeDate (DateLib.days_from_civil y m d) 0)
        else None
    | _, _, _ => None
    end
  else None.

End SampleHost.

(** ** Vocabulary of the statements and sample data *)

Import DateLib.

(** The sessions of one day as the component reads them:
    [sessionsByDate[key] || []]. *)
Definition bucket (byDate : gmap string (list Session.t)) (key : string)
    : list Session.t :=
  default [] (byDate !! key).

(** The sessions of a list that carry a given date key, in list order. *)
Definition sessionsOn (key : string) (sessions : list Session.t) : list Session.t :=
  List.filter (fun s => String.eqb (Session.date (Session.fields s)) key) sessions.

(** A merge that keeps every session already present in a bucket, or
    replaces it by one with the same id. *)
Definition merge_keeps_present (prev g : gmap string (list Session.t)) : Prop :=
  forall key s, s ∈ bucket prev key ->
    exists s', s' ∈ bucket (Calendar.merge prev g) key /\ Session.id s' = Session.id s.

(** The three filters of a load request taken together. *)
Definition matches_all (startISO endISO : Z) (statuses : list Status) (cid : string)
    (s : Session.t) : bool :=
  (startISO <=? Session.startISO (Session.fields s))
  && (Session.startISO (Session.fields s) <=? endISO)
  && CalendarScreen.status_includes statuses (Session.status (Session.fields s))
  && String.eqb (Session.clientId (Session.fields s)) cid.

(** Month and day of month as the date key prints them. *)
Definition pad2 (n : Z) : string := padStart0 2 (pretty n).

(** Day number of the first day of a month (1..12), and of the first day
    of the month after it. *)
Definition firstDayOfMonth (year month : Z) : Z := days_from_civil year month 1.
Definition firstDayOfNextMonth (year month : Z) : Z :=
  if month =? 12 then days_from_civil (year + 1) 1 1
  else days_from_civil year (month + 1) 1.

(** Local midnight at the start of a day number, as an instant. *)
Definition localMidnight (tz day : Z) : Z := UTC tz (MakeDate day 0).

(** The [loadSessions] prop as the calendar screen hands it to the
    component: the screen's [loadSessions] over the item in storage; its
    promise always resolves. *)
Definition screenLoader (stored : CalendarScreen.StoredItem) : Calendar.Loader :=
  fun startISO endISO filters =>
    Some (CalendarScreen.loadSessions stored startISO endISO (Some filters)).

(** Start of a session, the key of the agenda's sort. *)
Definition startOf (s : Session.t) : Z := Session.startISO (Session.fields s).

(** Texts that consist of white space and line terminators only. *)
Inductive blank : string -> Prop :=
| blank_empty : blank ""
| blank_1 a r : Calendar.is_space a = true -> blank r -> blank (String a r)
| blank_2 a b r :
    Calendar.is_space2 a b = true -> blank r -> blank (String a (String b r))
| blank_3 a b c r :
    Calendar.is_space3 a b c = true -> blank r ->
    blank (String a (String b (String c r))).

(** A host whose offset from UTC never changes. *)
Definition fixedOffset (tz : Z) : Z -> bool -> Z := fun _ _ => tz.

Module Samples.

(** 2024-03-04 at 09:00, 09:30, 10:00 and 10:30 UTC. *)
Definition T0900 : Z := 1709542800000.
Definition T0930 : Z := 1709544600000.
Definition T1000 : Z := 1709546400000.
Definition T1030 : Z := 1709548200000.

Definition mkSession (id cid date : string) (st : Status) (a b : Z) : Session.t :=
  {| Session.id := id;
     Session.fields :=
       {| Session.clientId := cid; Session.clientName := None;
          Session.date := date; Session.startISO := a; Session.endISO := b;
          Session.status := st; Session.location := None;
          Session.notes := None; Session.recurring := None |} |}.

Definition booked0900 : Session.t := mkSession "s1" "c1" "2024-03-04" booked T0900 T1000.
Definition other1100 : Session.t :=
  mkSession "s2" "c2" "2024-03-04" booked (T1000 + 3600000) (T1000 + 7200000).

Definition mkForm (cid date startTime endTime : string) (repeatWeekly : bool)
    (repeatWeeks : Z) : Calendar.CreateSessionFormData.t :=
  {| Calendar.CreateSessionFormData.clientId := cid;
     Calendar.CreateSessionFormData.date := date;
     Calendar.CreateSessionFormData.startTime := startTime;
     Calendar.CreateSessionFormData.endTime := endTime;
     Calendar.CreateSessionFormData.duration := 60;
     Calendar.CreateSessionFormData.status := booked;
     Calendar.CreateSessionFormData.location := "";
     Calendar.CreateSessionFormData.notes := "";
     Calendar.CreateSessionFormData.repeatWeekly := repeatWeekly;
     Calendar.CreateSessionFormData.repeatWeeks := repeatWeeks |}.

Definition noFilters : SessionFilters.t :=
  {| SessionFilters.status := None; SessionFilters.clientId := None |}.

(** The component right after mounting on a given month. *)
Definition mounted (year month : Z) : Calendar.CalendarState :=
  {| Calendar.visibleMonth := (year, month);
     Calendar.sessionsByDate := ∅;
     Calendar.filters := noFilters;
     Calendar.isLoading := false;
     Calendar.error := None;
     Calendar.cachedMonths := ∅;
     Calendar.showCreateModal := false |}.

(** The rules of New York in 2024: four hours west of Greenwich from
    2024-03-10T07:00Z until 2024-11-03T06:00Z, five hours otherwise.  A
    local time is read with the offset from before the change when the
    change skips or repeats it: local times from 03:00 on 03-10 until 02:00
    on 11-03 are read as daylight time. *)
Definition newYork2024 : Z -> bool -> Z := fun t isUTC =>
  if isUTC then
    if (1710054000000 <=? t) && (t <? 1730613600000) then -14400000 else -18000000
  else
    if (1710039600000 <=? t) && (t <? 1730599200000) then -14400000 else -18000000.

Definition failingLoader : Calendar.Loader := fun _ _ _ => None.
Definition emptyLoader : Calendar.Loader := fun _ _ _ => Some [].

End Samples.

(** * Properties of the date helpers *)

Import DateLib.

Lemma civil_from_days_spec z :
  1 <= (civil_from_days z).1.2 <= 12 /\
  days_from_civil (civil_from_days z).1.1 (civil_from_days z).1.2 (civil_from_days z).2 = z.
Proof.
  unfold civil_from_days, days_from_civil. cbn [fst snd].
  set (z' := z + 719468).
  set (era := z' / 146097).
  set (doe := z' - era * 146097).
  assert (Hdoe : 0 <= doe < 146097).
  { subst doe era. pose proof (Z.mod_pos_bound z' 146097 ltac:(lia)) as H.
    rewrite Z.mod_eq in H by lia. lia. }
  set (yoe := (doe - doe / 1460 + doe / 36524 - doe / 146096) / 365).
  assert (Hyoe : 0 <= yoe < 400) by (subst yoe; Z.div_mod_to_equations; lia).
  set (doy := doe - (365 * yoe + yoe / 4 - yoe / 100)).
  assert (Hdoy : 0 <= doy < 366) by (subst doy yoe; Z.div_mod_to_equations; lia).
  set (mp := (5 * doy + 2) / 153).
  assert (Hmp : 0 <= mp < 12) by (subst mp; Z.div_mod_to_equations; lia).
  assert (Hera : forall c, (yoe + era * 400 + c - c) / 400 = era).
  { intros c. replace (yoe + era * 400 + c - c) with (yoe + era * 400) by lia.
    rewrite Z.div_add by lia. rewrite Z.div_small by lia. lia. }
  destruct (Z.ltb_spec mp 10) as [Hlt|Hge].
  - replace (mp + 3 <=? 2) with false by (symmetry; apply Z.leb_gt; lia).
    replace (2 <? mp + 3) with true by (symmetry; apply Z.ltb_lt; lia).
    split; [lia|]. rewrite Hera.
    replace (mp + 3 - 3) with mp by lia.
    replace (yoe + era * 400 + 0 - 0 - era * 400) with yoe by lia.
    subst doy doe z'. lia.
  - replace (mp - 9 <=? 2) with true by (symmetry; apply Z.leb_le; lia).
    replace (2 <? mp - 9) with false by (symmetry; apply Z.ltb_ge; lia).
    split; [lia|]. rewrite Hera.
    replace (mp - 9 + 9) with mp by lia.
    replace (yoe + era * 400 + 1 - 1 - era * 400) with yoe by lia.
    subst doy doe z'. lia.
Qed.

(** [MakeDay] on the year and month of [t] counts days from the first day
    of [t]'s month. *)
Lemma MakeDay_of_time t dt :
  MakeDay (YearFromTime t) (MonthFromTime t) dt = Day t + (dt - DateFromTime t).
Proof.
  unfold MakeDay, YearFromTime, MonthFromTime, DateFromTime.
  destruct (civil_from_days_spec (Day t)) as [Hm Hd].
  set (c := civil_from_days (Day t)) in *.
  replace ((c.1.2 - 1) / 12) with 0 by (symmetry; apply Z.div_small; lia).
  replace ((c.1.2 - 1) mod 12 + 1) with (c.1.2) by (rewrite Z.mod_small; lia).
  rewrite Z.add_0_r.
  assert (Hlin : forall y m d, days_from_civil y m d = days_from_civil y m 1 + d - 1)
    by (intros; unfold days_from_civil; lia).
  rewrite (Hlin _ _ (c.2)) in Hd. lia.
Qed.

(** [d.setDate(d.getDate() + k)] moves [d] by [k] whole days. *)
Lemma setDate_getDate tz d k :
  setDate tz d (getDate tz d + k) = d + k * msPerDay.
Proof.
  unfold setDate, getDate, UTC, MakeDate, LocalTime.
  rewrite MakeDay_of_time. unfold Day, TimeWithinDay.
  pose proof (Z.div_mod (d + tz) msPerDay ltac:(unfold msPerDay; lia)). lia.
Qed.

Lemma Day_LocalTime_shift tz d k :
  Day (LocalTime tz (d + k * msPerDay)) = Day (LocalTime tz d) + k.
Proof.
  unfold Day, LocalTime.
  replace (d + k * msPerDay + tz) with (d + tz + k * msPerDay) by lia.
  apply Z.div_add. unfold msPerDay. lia.
Qed.

Lemma dateKey_dateKeyOfDay tz t :
  dateKey tz (Some t) = dateKeyOfDay (Day (LocalTime tz t)).
Proof.
  unfold dateKey, dateKeyOfDay, getFullYear, getMonth, getDate,
    YearFromTime, MonthFromTime, DateFromTime.
  by replace ((civil_from_days (Day (LocalTime tz t))).1.2 - 1 + 1)
    with ((civil_from_days (Day (LocalTime tz t))).1.2) by lia.
Qed.

(** The local hour and minute after [setHours(h, m, 0, 0)] depend on [h]
    and [m] only, not on the day. *)
Lemma getHours_setHours tz t h m :
  getHours tz (setHours tz t h m 0 0) = (MakeTime h m 0 0 / msPerHour) mod 24.
Proof.
  unfold getHours, setHours, HourFromTime, LocalTime, UTC, MakeDate.
  set (D := Day (t + tz)). set (X := MakeTime h m 0 0).
  replace (D * msPerDay + X - tz + tz) with (X + (D * 24) * msPerHour)
    by (unfold msPerDay, msPerHour; lia).
  rewrite Z.div_add by (unfold msPerHour; lia).
  rewrite Z.add_mod by lia. rewrite Z.mod_mul by lia.
  rewrite Z.add_0_r. apply Z.mod_mod. lia.
Qed.

Lemma getMinutes_setHours tz t h m :
  getMinutes tz (setHours tz t h m 0 0) = (MakeTime h m 0 0 / msPerMinute) mod 60.
Proof.
  unfold getMinutes, setHours, MinFromTime, LocalTime, UTC, MakeDate.
  set (D := Day (t + tz)). set (X := MakeTime h m 0 0).
  replace (D * msPerDay + X - tz + tz) with (X + (D * 1440) * msPerMinute)
    by (unfold msPerDay, msPerMinute; lia).
  rewrite Z.div_add by (unfold msPerMinute; lia).
  replace (D * 1440) with ((D * 24) * 60) by lia.
  rewrite Z.add_mod by lia. rewrite Z.mod_mul by lia.
  rewrite Z.add_0_r. apply Z.mod_mod. lia.
Qed.

Lemma getWeeklyRepeatDates_eq tz startDate weeks :
  getWeeklyRepeatDates tz startDate weeks
  = (fun i => startDate + (i * 7) * msPerDay) <$> seqZ 1 weeks.
Proof.
  unfold getWeeklyRepeatDates. apply list_fmap_ext.
  intros _ i _. apply setDate_getDate.
Qed.

Lemma getWeeklyRepeatDates_length tz startDate weeks :
  length (getWeeklyRepeatDates tz startDate weeks) = Z.to_nat weeks.
Proof. unfold getWeeklyRepeatDates. by rewrite length_fmap, length_seqZ. Qed.

(** * The repository of the calendar screen *)

(** With a status filter in force the client filter is never consulted. *)
Lemma loadSessions_status_shadows_client stored a b statuses cid cid' :
  statuses <> [] ->
  CalendarScreen.loadSessions stored a b
    (Some {| SessionFilters.status := Some statuses; SessionFilters.clientId := cid |})
  = CalendarScreen.loadSessions stored a b
    (Some {| SessionFilters.status := Some statuses; SessionFilters.clientId := cid' |}).
Proof.
  intros Hne. destruct statuses as [|x xs]; [congruence|].
  destruct stored; reflexivity.
Qed.

(** C1 (evaluation at the failing input): with the status filter [booked]
    and the client filter [c1], a stored booked session of client [c2] inside
    the range is returned, although it does not match the client filter. *)
Theorem C1_loadSessions_ignores_clientId :
  let s := Samples.other1100 in
  let filters := Some {| SessionFilters.status := Some [booked];
                         SessionFilters.clientId := Some "c1"%string |} in
  CalendarScreen.loadSessions (CalendarScreen.Stored [s]) Samples.T0900
    (Samples.T0900 + 86400000) filters = [s]
  /\ matches_all Samples.T0900 (Samples.T0900 + 86400000) [booked] "c1" s = false.
Proof. split; vm_compute; reflexivity. Qed.

(** * Overlap of two ranges *)

(** C5: [dateRangesOverlap] holds exactly when each range starts before the
    other ends; it is symmetric in the two ranges, and ranges that touch at
    an end point do not overlap. *)
Theorem C5_dateRangesOverlap_spec :
  (forall start1 end1 start2 end2 : Z,
     dateRangesOverlap (Some start1) (Some end1) (Some start2) (Some end2) = true
     <-> start1 < end2 /\ start2 < end1)
  /\ (forall start1 end1 start2 end2 : JsDate,
        dateRangesOverlap start1 end1 start2 end2
        = dateRangesOverlap start2 end2 start1 end1)
  /\ (forall start1 touch end2 : JsDate,
        dateRangesOverlap start1 touch touch end2 = false)
  /\ (forall touch end1 start2 : JsDate,
        dateRangesOverlap touch end1 start2 touch = false).
Proof.
  assert (Hirr : forall d : JsDate, date_lt d d = false).
  { intros [t|]; simpl; [apply Z.ltb_irrefl | reflexivity]. }
  split; [|split; [|split]].
  - intros start1 end1 start2 end2. unfold dateRangesOverlap; simpl.
    rewrite andb_true_iff, !Z.ltb_lt. tauto.
  - intros. unfold dateRangesOverlap. apply andb_comm.
  - intros. unfold dateRangesOverlap. rewrite Hirr. apply andb_false_r.
  - intros. unfold dateRangesOverlap. rewrite Hirr. reflexivity.
Qed.

(** * The month cache *)

Lemma foldl_grouped_lookup (sessions : list Session.t)
    (acc : gmap string (list Session.t)) (key : string) :
  foldl (fun acc session =>
           let key := Session.date (Session.fields session) in
           <[key := default [] (acc !! key) ++ [session]]> acc) acc sessions !! key
  = match sessionsOn key sessions with
    | [] => acc !! key
    | b => Some (default [] (acc !! key) ++ b)
    end.
Proof.
  revert acc. induction sessions as [|x l IH]; intros acc; [reflexivity|].
  cbn [foldl]. rewrite IH. unfold sessionsOn. cbn [List.filter].
  destruct (String.eqb_spec (Session.date (Session.fields x)) key) as [->|Hne].
  - rewrite lookup_insert_eq. cbn [default from_option id].
    destruct (List.filter _ l); [reflexivity|]. by rewrite <- app_assoc.
  - by rewrite lookup_insert_ne.
Qed.

(** The group built by [fetchMonth] holds, under each date that occurs,
    the fetched sessions of that date in fetch order. *)
Lemma grouped_lookup sessions key :
  Calendar.grouped sessions !! key
  = match sessionsOn key sessions with [] => None | b => Some b end.
Proof.
  unfold Calendar.grouped. rewrite foldl_grouped_lookup.
  rewrite lookup_empty. reflexivity.
Qed.

Lemma merge_lookup (prev g : gmap string (list Session.t)) key :
  Calendar.merge prev g !! key
  = match g !! key with Some b => Some b | None => prev !! key end.
Proof.
  unfold Calendar.merge. rewrite lookup_union.
  destruct (g !! key), (prev !! key); reflexivity.
Qed.

Lemma merge_idempotent (prev g : gmap string (list Session.t)) :
  Calendar.merge (Calendar.merge prev g) g = Calendar.merge prev g.
Proof.
  apply map_eq. intros key. rewrite !merge_lookup. by destruct (g !! key).
Qed.

(** C3 (counterexample): a bucket holding session [s1] loses it when a
    fetch returns only [s2] for the same date. *)
Lemma C3_merge_drops_present :
  ~ merge_keeps_present {[ "2024-03-04"%string := [Samples.booked0900] ]}
      (Calendar.grouped [Samples.other1100]).
Proof.
  intros H.
  destruct (H "2024-03-04"%string Samples.booked0900) as (s' & Hin & Hid).
  - unfold bucket. rewrite lookup_singleton_eq. apply list_elem_of_singleton. reflexivity.
  - unfold bucket in Hin. rewrite merge_lookup, grouped_lookup in Hin.
    cbn in Hin. apply list_elem_of_singleton in Hin. subst s'. discriminate Hid.
Qed.

(** C3 (amended): merging the group of a fetched list replaces the bucket
    of every date that occurs in the list by the fetched sessions of that
    date, leaves the buckets of all other dates as they were, and merging the
    same group twice gives the same buckets as merging it once. *)
Theorem C3_merge_replaces_buckets :
  forall (prev : gmap string (list Session.t)) (sessions : list Session.t),
    let g := Calendar.grouped sessions in
    (forall key,
       Calendar.merge prev g !! key
       = match sessionsOn key sessions with
         | [] => prev !! key
         | fetched => Some fetched
         end)
    /\ (forall key,
          bucket (Calendar.merge prev g) key
          = match sessionsOn key sessions with
            | [] => bucket prev key
            | fetched => fetched
            end)
    /\ Calendar.merge (Calendar.merge prev g) g = Calendar.merge prev g.
Proof.
  intros prev sessions g. subst g. repeat split.
  - intros key. rewrite merge_lookup, grouped_lookup.
    by destruct (sessionsOn key sessions).
  - intros key. unfold bucket. rewrite merge_lookup, grouped_lookup.
    by destruct (sessionsOn key sessions).
  - apply merge_idempotent.
Qed.

(** * Fetching a month *)

Section FetchFacts.
Variable tz : Z.
Implicit Types (loadSessions : Calendar.Loader) (st : Calendar.CalendarState).
Implicit Types (year month : Z) (withPadding : bool).

Lemma fetchMonth_hit loadSessions year month withPadding st :
  Calendar.monthKey year month ∈ Calendar.cachedMonths st ->
  Calendar.fetchMonth tz loadSessions year month withPadding st = (st, []).
Proof.
  unfold Calendar.fetchMonth.
  generalize (getMonthRange tz year month (if withPadding then 2 else 0)).
  generalize (Calendar.monthKey year month). intros key range Hin.
  rewrite bool_decide_eq_true_2 by assumption. reflexivity.
Qed.

Lemma fetchMonth_failure loadSessions year month withPadding st :
  Calendar.monthKey year month ∉ Calendar.cachedMonths st ->
  loadSessions (getMonthRange tz year month (if withPadding then 2 else 0)).1
               (getMonthRange tz year month (if withPadding then 2 else 0)).2
               (Calendar.filters st) = None ->
  Calendar.fetchMonth tz loadSessions year month withPadding st
  = (Calendar.with_fetch st (Calendar.sessionsByDate st) (Calendar.cachedMonths st)
       (Some "Failed to load sessions"%string),
     [Calendar.LoadSessions
        (getMonthRange tz year month (if withPadding then 2 else 0)).1
        (getMonthRange tz year month (if withPadding then 2 else 0)).2
        (Calendar.filters st);
      Calendar.ConsoleError "Failed to fetch sessions:"]).
Proof.
  unfold Calendar.fetchMonth.
  generalize (getMonthRange tz year month (if withPadding then 2 else 0)).
  generalize (Calendar.monthKey year month). intros key range Hnotin Hfail.
  rewrite bool_decide_eq_false_2 by assumption. rewrite Hfail. reflexivity.
Qed.

Lemma fetchMonth_success loadSessions year month withPadding st sessions :
  Calendar.monthKey year month ∉ Calendar.cachedMonths st ->
  loadSessions (getMonthRange tz year month (if withPadding then 2 else 0)).1
               (getMonthRange tz year month (if withPadding then 2 else 0)).2
               (Calendar.filters st) = Some sessions ->
  Calendar.fetchMonth tz loadSessions year month withPadding st
  = (Calendar.with_fetch st
       (Calendar.merge (Calendar.sessionsByDate st) (Calendar.grouped sessions))
       ({[Calendar.monthKey year month]} ∪ Calendar.cachedMonths st)
       (Calendar.error st),
     [Calendar.LoadSessions
        (getMonthRange tz year month (if withPadding then 2 else 0)).1
        (getMonthRange tz year month (if withPadding then 2 else 0)).2
        (Calendar.filters st)]).
Proof.
  unfold Calendar.fetchMonth.
  generalize (getMonthRange tz year month (if withPadding then 2 else 0)).
  generalize (Calendar.monthKey year month). intros key range Hnotin Hok.
  rewrite bool_decide_eq_false_2 by assumption. rewrite Hok. reflexivity.
Qed.

(** A fetch adds at most its own month key and removes none. *)
Lemma fetchMonth_cached_bounds loadSessions year month withPadding st :
  Calendar.cachedMonths st
  ⊆ Calendar.cachedMonths (Calendar.fetchMonth tz loadSessions year month withPadding st).1
  /\ Calendar.cachedMonths (Calendar.fetchMonth tz loadSessions year month withPadding st).1
     ⊆ {[Calendar.monthKey year month]} ∪ Calendar.cachedMonths st.
Proof.
  unfold Calendar.fetchMonth.
  generalize (getMonthRange tz year month (if withPadding then 2 else 0)).
  generalize (Calendar.monthKey year month). intros key range.
  case_bool_decide; [cbn [fst]; set_solver|].
  destruct (loadSessions _ _ _);
    cbn [fst Calendar.cachedMonths Calendar.with_fetch]; set_solver.
Qed.

(** With a loader that resolves, the month is marked after the fetch. *)
Lemma fetchMonth_cached_success loadSessions year month withPadding st :
  (forall a b f, loadSessions a b f <> None) ->
  Calendar.monthKey year month
  ∈ Calendar.cachedMonths (Calendar.fetchMonth tz loadSessions year month withPadding st).1.
Proof.
  intros Hok. unfold Calendar.fetchMonth.
  generalize (getMonthRange tz year month (if withPadding then 2 else 0)).
  generalize (Calendar.monthKey year month). intros key range.
  case_bool_decide; [cbn [fst]; assumption|].
  pose proof (Hok range.1 range.2 (Calendar.filters st)) as Hsome.
  destruct (loadSessions _ _ _);
    cbn [fst Calendar.cachedMonths Calendar.with_fetch]; [set_solver|].
  congruence.
Qed.

Lemma fetchMonth_filters loadSessions year month withPadding st :
  Calendar.filters (Calendar.fetchMonth tz loadSessions year month withPadding st).1
  = Calendar.filters st.
Proof.
  unfold Calendar.fetchMonth.
  generalize (getMonthRange tz year month (if withPadding then 2 else 0)).
  generalize (Calendar.monthKey year month). intros key range.
  case_bool_decide; [reflexivity|].
  destruct (loadSessions _ _ _); reflexivity.
Qed.
End FetchFacts.

(** C6: when the month is not yet marked and the repository load fails,
    the fetch records the error and leaves every date bucket, and the set of
    fetched months, exactly as they were. *)
Theorem C6_fetch_failure_keeps_cache :
  forall (tz : Z) (loadSessions : Calendar.Loader) (year month : Z)
         (withPadding : bool) (st : Calendar.CalendarState),
    let range := getMonthRange tz year month (if withPadding then 2 else 0) in
    let st' := (Calendar.fetchMonth tz loadSessions year month withPadding st).1 in
    Calendar.monthKey year month ∉ Calendar.cachedMonths st ->
    loadSessions range.1 range.2 (Calendar.filters st) = None ->
    Calendar.error st' = Some "Failed to load sessions"%string
    /\ Calendar.sessionsByDate st' = Calendar.sessionsByDate st
    /\ (forall key, bucket (Calendar.sessionsByDate st') key
                    = bucket (Calendar.sessionsByDate st) key)
    /\ Calendar.cachedMonths st' = Calendar.cachedMonths st.
Proof.
  intros tz loadSessions year month withPadding st range st' Hnotin Hfail.
  subst st'. rewrite (fetchMonth_failure tz loadSessions year month withPadding st Hnotin Hfail).
  cbn [fst Calendar.with_fetch Calendar.error Calendar.sessionsByDate Calendar.cachedMonths].
  auto.
Qed.

(** C6 at a freshly mounted component whose loader rejects. *)
Lemma C6_witness :
  let st := Samples.mounted 2024 3 in
  let st' := (Calendar.fetchMonth 0 Samples.failingLoader 2024 3 true st).1 in
  Calendar.error st' = Some "Failed to load sessions"%string
  /\ Calendar.sessionsByDate st' = Calendar.sessionsByDate st
  /\ (forall key, bucket (Calendar.sessionsByDate st') key
                  = bucket (Calendar.sessionsByDate st) key)
  /\ Calendar.cachedMonths st' = Calendar.cachedMonths st.
Proof.
  apply (C6_fetch_failure_keeps_cache 0 Samples.failingLoader 2024 3 true
           (Samples.mounted 2024 3)).
  - apply not_elem_of_empty.
  - reflexivity.
Defined.

(** C9: a fetch of a month not yet marked marks it only if the load
    resolved, and then the loaded sessions have been merged; it marks no
    other month; and if the load failed the month stays unmarked, so the next
    fetch of that month calls the repository again. *)
Theorem C9_marked_only_after_success :
  forall (tz : Z) (loadSessions : Calendar.Loader) (year month : Z)
         (withPadding : bool) (st : Calendar.CalendarState),
    let key := Calendar.monthKey year month in
    let range := getMonthRange tz year month (if withPadding then 2 else 0) in
    let st' := (Calendar.fetchMonth tz loadSessions year month withPadding st).1 in
    key ∉ Calendar.cachedMonths st ->
    (key ∈ Calendar.cachedMonths st' ->
       exists sessions,
         loadSessions range.1 range.2 (Calendar.filters st) = Some sessions
         /\ Calendar.sessionsByDate st'
            = Calendar.merge (Calendar.sessionsByDate st) (Calendar.grouped sessions))
    /\ (Calendar.cachedMonths st' ⊆ {[key]} ∪ Calendar.cachedMonths st)
    /\ (loadSessions range.1 range.2 (Calendar.filters st) = None ->
          (key ∉ Calendar.cachedMonths st')
          /\ forall again : Calendar.Loader,
               exists rest,
                 (Calendar.fetchMonth tz again year month withPadding st').2
                 = Calendar.LoadSessions range.1 range.2 (Calendar.filters st) :: rest).
Proof.
  intros tz loadSessions year month withPadding st key range st' Hnotin.
  split; [|split].
  - destruct (loadSessions range.1 range.2 (Calendar.filters st)) as [sessions|] eqn:E.
    + intros _. exists sessions. split; [done|]. subst st'.
      by rewrite (fetchMonth_success tz loadSessions year month withPadding st sessions Hnotin E).
    + subst st'.
      rewrite (fetchMonth_failure tz loadSessions year month withPadding st Hnotin E).
      cbn [fst Calendar.with_fetch Calendar.cachedMonths]. intros Hin. by destruct Hnotin.
  - apply fetchMonth_cached_bounds.
  - intros E. subst st'.
    rewrite (fetchMonth_failure tz loadSessions year month withPadding st Hnotin E).
    cbn [fst]. split; [done|]. intros again.
    unfold Calendar.fetchMonth. cbn [Calendar.cachedMonths Calendar.with_fetch Calendar.filters].
    rewrite bool_decide_eq_false_2 by done. fold range.
    destruct (again _ _ _); eauto.
Qed.

(** C9 at a freshly mounted component whose loader rejects. *)
Lemma C9_witness :
  let st := Samples.mounted 2024 3 in
  let key := Calendar.monthKey 2024 3 in
  let range := getMonthRange 0 2024 3 2 in
  let st' := (Calendar.fetchMonth 0 Samples.failingLoader 2024 3 true st).1 in
  (key ∈ Calendar.cachedMonths st' ->
     exists sessions,
       Samples.failingLoader range.1 range.2 (Calendar.filters st) = Some sessions
       /\ Calendar.sessionsByDate st'
          = Calendar.merge (Calendar.sessionsByDate st) (Calendar.grouped sessions))
  /\ (Calendar.cachedMonths st' ⊆ {[key]} ∪ Calendar.cachedMonths st)
  /\ (Samples.failingLoader range.1 range.2 (Calendar.filters st) = None ->
        (key ∉ Calendar.cachedMonths st')
        /\ forall again : Calendar.Loader,
             exists rest,
               (Calendar.fetchMonth 0 again 2024 3 true st').2
               = Calendar.LoadSessions range.1 range.2 (Calendar.filters st) :: rest).
Proof.
  apply (C9_marked_only_after_success 0 Samples.failingLoader 2024 3 true
           (Samples.mounted 2024 3)).
  apply not_elem_of_empty.
Defined.

(** * Month keys and the prefetch of the neighbouring months *)

Lemma list_ascii_of_string_app (a b : string) :
  list_ascii_of_string (a +:+ b) = list_ascii_of_string a ++ list_ascii_of_string b.
Proof. induction a as [|c a IH]; [reflexivity|]. simpl. f_equal. exact IH. Qed.

Lemma monthKey_chars year month :
  list_ascii_of_string (Calendar.monthKey year month)
  = list_ascii_of_string (pretty year) ++ "-"%char :: list_ascii_of_string (pretty month).
Proof.
  unfold Calendar.monthKey. by rewrite !list_ascii_of_string_app.
Qed.

Lemma snoc_ne {A} (x y : list A) (a b : A) : a <> b -> x ++ [a] <> y ++ [b].
Proof. intros Hne Heq. apply app_inj_tail in Heq. tauto. Qed.

(** The key of December differs from the keys the January visit marks. *)
Lemma december_key_fresh Y month :
  month = 0 \/ month = 1 \/ month = 2 ->
  Calendar.monthKey Y month <> Calendar.monthKey (Y - 1) 12.
Proof.
  intros Hm Heq. apply (f_equal list_ascii_of_string) in Heq.
  rewrite !monthKey_chars in Heq.
  generalize dependent (list_ascii_of_string (pretty Y)).
  generalize (list_ascii_of_string (pretty (Y - 1))). intros lb la.
  replace (list_ascii_of_string (pretty 12)) with ["1"; "2"]%char
    by (vm_compute; reflexivity).
  change (lb ++ ["-"; "1"; "2"]%char) with (lb ++ ["-"; "1"]%char ++ ["2"]%char).
  rewrite (app_assoc lb).
  destruct Hm as [-> | [-> | ->]].
  - replace (list_ascii_of_string (pretty 0)) with ["0"]%char by (vm_compute; reflexivity).
    change (la ++ ["-"; "0"]%char) with (la ++ ["-"]%char ++ ["0"]%char).
    rewrite (app_assoc la). by apply snoc_ne.
  - replace (list_ascii_of_string (pretty 1)) with ["1"]%char by (vm_compute; reflexivity).
    change (la ++ ["-"; "1"]%char) with (la ++ ["-"]%char ++ ["1"]%char).
    rewrite (app_assoc la). by apply snoc_ne.
  - replace (list_ascii_of_string (pretty 2)) with ["2"]%char by (vm_compute; reflexivity).
    change (la ++ ["-"; "2"]%char) with (la ++ ["-"]%char ++ ["2"]%char).
    rewrite (app_assoc la). intros Heq. apply app_inj_tail in Heq as [Heq _].
    change (lb ++ ["-"; "1"]%char) with (lb ++ ["-"]%char ++ ["1"]%char) in Heq.
    rewrite (app_assoc lb) in Heq. revert Heq. by apply snoc_ne.
Qed.

Section EffectFacts.
Variable tz : Z.
Implicit Types (loadSessions : Calendar.Loader) (st : Calendar.CalendarState).

(** The effect marks at most the visible month and its two neighbours. *)
Lemma monthEffect_cached_bounds loadSessions st :
  Calendar.cachedMonths (Calendar.monthEffect tz loadSessions st).1
  ⊆ {[Calendar.monthKey (Calendar.visibleMonth st).1 (Calendar.visibleMonth st).2;
      Calendar.monthKey (Calendar.visibleMonth st).1 ((Calendar.visibleMonth st).2 - 1);
      Calendar.monthKey (Calendar.visibleMonth st).1 ((Calendar.visibleMonth st).2 + 1)]}
    ∪ Calendar.cachedMonths st.
Proof.
  unfold Calendar.monthEffect. destruct (Calendar.visibleMonth st) as [year month].
  cbn [fst snd].
  pose proof (fetchMonth_cached_bounds tz loadSessions year month true
                (Calendar.with_loading st true)) as [_ Hb1].
  destruct (Calendar.fetchMonth tz loadSessions year month true _) as [st1 e1].
  pose proof (fetchMonth_cached_bounds tz loadSessions year (month - 1) false st1) as [_ Hb2].
  destruct (Calendar.fetchMonth tz loadSessions year (month - 1) false st1) as [st2 e2].
  pose proof (fetchMonth_cached_bounds tz loadSessions year (month + 1) false st2) as [_ Hb3].
  destruct (Calendar.fetchMonth tz loadSessions year (month + 1) false st2) as [st3 e3].
  cbn [fst Calendar.cachedMonths Calendar.with_loading] in *.
  generalize dependent (Calendar.monthKey year month).
  generalize dependent (Calendar.monthKey year (month - 1)).
  generalize dependent (Calendar.monthKey year (month + 1)).
  intros k3 Hb3 k2 Hb2 k1 Hb1 x Hx.
  rewrite !elem_of_union, !elem_of_singleton.
  apply Hb3 in Hx. rewrite elem_of_union, elem_of_singleton in Hx.
  destruct Hx as [->|Hx]; [auto|].
  apply Hb2 in Hx. rewrite elem_of_union, elem_of_singleton in Hx.
  destruct Hx as [->|Hx]; [auto|].
  apply Hb1 in Hx. rewrite elem_of_union, elem_of_singleton in Hx.
  destruct Hx as [->|Hx]; auto.
Qed.

(** With a loader that resolves, the previous month is marked. *)
Lemma monthEffect_marks_previous loadSessions st :
  (forall a b f, loadSessions a b f <> None) ->
  Calendar.monthKey (Calendar.visibleMonth st).1 ((Calendar.visibleMonth st).2 - 1)
  ∈ Calendar.cachedMonths (Calendar.monthEffect tz loadSessions st).1.
Proof.
  intros Hok. unfold Calendar.monthEffect.
  destruct (Calendar.visibleMonth st) as [year month]. cbn [fst snd].
  destruct (Calendar.fetchMonth tz loadSessions year month true _) as [st1 e1].
  pose proof (fetchMonth_cached_success tz loadSessions year (month - 1) false st1 Hok) as H2.
  destruct (Calendar.fetchMonth tz loadSessions year (month - 1) false st1) as [st2 e2].
  pose proof (fetchMonth_cached_bounds tz loadSessions year (month + 1) false st2) as [H3 _].
  destruct (Calendar.fetchMonth tz loadSessions year (month + 1) false st2) as [st3 e3].
  cbn [fst Calendar.cachedMonths Calendar.with_loading] in *.
  apply H3. exact H2.
Qed.

(** A visible month that is not marked is loaded first, with padding. *)
Lemma monthEffect_loads_visible loadSessions st :
  Calendar.monthKey (Calendar.visibleMonth st).1 (Calendar.visibleMonth st).2
  ∉ Calendar.cachedMonths st ->
  exists rest,
    (Calendar.monthEffect tz loadSessions st).2
    = Calendar.LoadSessions
        (getMonthRange tz (Calendar.visibleMonth st).1 (Calendar.visibleMonth st).2 2).1
        (getMonthRange tz (Calendar.visibleMonth st).1 (Calendar.visibleMonth st).2 2).2
        (Calendar.filters st) :: rest.
Proof.
  unfold Calendar.monthEffect.
  destruct (Calendar.visibleMonth st) as [year month]. cbn [fst snd].
  intros Hnotin.
  assert (Hfirst : exists rest,
    (Calendar.fetchMonth tz loadSessions year month true (Calendar.with_loading st true)).2
    = Calendar.LoadSessions (getMonthRange tz year month 2).1
        (getMonthRange tz year month 2).2 (Calendar.filters st) :: rest).
  { destruct (loadSessions (getMonthRange tz year month 2).1
                (getMonthRange tz year month 2).2 (Calendar.filters st)) as [l|] eqn:E.
    - rewrite (fetchMonth_success tz loadSessions year month true _ l); eauto.
    - rewrite (fetchMonth_failure tz loadSessions year month true _); eauto. }
  destruct Hfirst as [rest Hfirst].
  destruct (Calendar.fetchMonth tz loadSessions year month true _) as [st1 e1].
  destruct (Calendar.fetchMonth tz loadSessions year (month - 1) false st1) as [st2 e2].
  destruct (Calendar.fetchMonth tz loadSessions year (month + 1) false st2) as [st3 e3].
  cbn [snd] in *. subst e1. eexists. reflexivity.
Qed.
Lemma monthKey_month_inj year m1 m2 :
  Calendar.monthKey year m1 = Calendar.monthKey year m2 -> m1 = m2.
Proof.
  unfold Calendar.monthKey. intros Heq.
  apply (inj (String.app (pretty year))) in Heq.
  apply (inj (String.app "-")) in Heq.
  by apply (inj pretty) in Heq.
Qed.

(** A previous month that is not marked is loaded, without padding. *)
Lemma monthEffect_prefetches_previous loadSessions st :
  Calendar.monthKey (Calendar.visibleMonth st).1 ((Calendar.visibleMonth st).2 - 1)
  ∉ Calendar.cachedMonths st ->
  In (Calendar.LoadSessions
        (getMonthRange tz (Calendar.visibleMonth st).1 ((Calendar.visibleMonth st).2 - 1) 0).1
        (getMonthRange tz (Calendar.visibleMonth st).1 ((Calendar.visibleMonth st).2 - 1) 0).2
        (Calendar.filters st))
     (Calendar.monthEffect tz loadSessions st).2.
Proof.
  unfold Calendar.monthEffect.
  destruct (Calendar.visibleMonth st) as [year month]. cbn [fst snd].
  intros Hnotin.
  pose proof (fetchMonth_cached_bounds tz loadSessions year month true
                (Calendar.with_loading st true)) as [_ Hb1].
  pose proof (fetchMonth_filters tz loadSessions year month true
                (Calendar.with_loading st true)) as Hf1.
  destruct (Calendar.fetchMonth tz loadSessions year month true _) as [st1 e1].
  cbn [fst Calendar.cachedMonths Calendar.filters Calendar.with_loading] in Hb1, Hf1.
  assert (Hnotin1 : Calendar.monthKey year (month - 1) ∉ Calendar.cachedMonths st1).
  { intros Hin. apply Hb1 in Hin. rewrite elem_of_union, elem_of_singleton in Hin.
    destruct Hin as [Hin|Hin]; [|by apply Hnotin].
    apply monthKey_month_inj in Hin. lia. }
  assert (Hsecond : exists rest,
    (Calendar.fetchMonth tz loadSessions year (month - 1) false st1).2
    = Calendar.LoadSessions (getMonthRange tz year (month - 1) 0).1
        (getMonthRange tz year (month - 1) 0).2 (Calendar.filters st) :: rest).
  { rewrite <- Hf1.
    destruct (loadSessions (getMonthRange tz year (month - 1) 0).1
                (getMonthRange tz year (month - 1) 0).2 (Calendar.filters st1)) as [l|] eqn:E.
    - rewrite (fetchMonth_success tz loadSessions year (month - 1) false _ l); eauto.
    - rewrite (fetchMonth_failure tz loadSessions year (month - 1) false _); eauto. }
  destruct Hsecond as [rest Hsecond].
  destruct (Calendar.fetchMonth tz loadSessions year (month - 1) false st1) as [st2 e2].
  destruct (Calendar.fetchMonth tz loadSessions year (month + 1) false st2) as [st3 e3].
  cbn [snd] in *. subst e2. apply in_or_app. right. left. reflexivity.
Qed.
End EffectFacts.

(** Month index 0 of year [Y] and month 12 of year [Y - 1] are the same
    calendar month: the prefetch without padding asks for the range of
    December.  (Years 0 and 100 are excluded, where the two-digit year rule
    of [new Date(year, ...)] applies to one side only.) *)
Lemma prefetch_range_is_december tz Y :
  Y <> 0 -> Y <> 100 ->
  getMonthRange tz Y 0 0 = getMonthRange tz (Y - 1) 12 0.
Proof.
  intros H0 H100.
  assert (Hs : newDate tz Y (0 - 1) 1 = newDate tz (Y - 1) (12 - 1) 1).
  { unfold newDate, MakeDay.
    replace ((0 - 1) / 12) with (-1) by reflexivity.
    replace ((0 - 1) mod 12) with 11 by reflexivity.
    replace ((12 - 1) / 12) with 0 by reflexivity.
    replace ((12 - 1) mod 12) with 11 by reflexivity.
    destruct (Z.leb_spec 0 Y), (Z.leb_spec Y 99), (Z.leb_spec 0 (Y - 1)),
      (Z.leb_spec (Y - 1) 99); cbn [andb]; try lia;
      repeat (f_equal; try lia). }
  assert (He : newDate tz Y 0 0 = newDate tz (Y - 1) 12 0).
  { unfold newDate, MakeDay.
    replace (0 / 12) with 0 by reflexivity.
    replace (0 mod 12) with 0 by reflexivity.
    replace (12 / 12) with 1 by reflexivity.
    replace (12 mod 12) with 0 by reflexivity.
    destruct (Z.leb_spec 0 Y), (Z.leb_spec Y 99), (Z.leb_spec 0 (Y - 1)),
      (Z.leb_spec (Y - 1) 99); cbn [andb]; try lia;
      repeat (f_equal; try lia). }
  unfold getMonthRange. rewrite Hs, He. reflexivity.
Qed.

(** C10: the prefetch of the month before January marks the key
    [Y-0], the selection of December of the year before looks for the key
    [(Y-1)-12]; the two keys differ, so after a visit of January on a fresh
    component December is not marked, and selecting it calls the repository
    for December although the prefetch has asked for month index 0 of [Y],
    which is that month. *)
Theorem C10_prefetch_key_never_hit :
  forall (tz : Z) (loadSessions again : Calendar.Loader) (Y : Z)
         (st : Calendar.CalendarState),
    (forall a b f, loadSessions a b f <> None) ->
    Calendar.cachedMonths st = ∅ ->
    let january := (Calendar.handleMonthChange tz loadSessions Y 1 st).1 in
    let december := getMonthRange tz (Y - 1) 12 2 in
    Calendar.monthKey Y 0 <> Calendar.monthKey (Y - 1) 12
    /\ (Calendar.monthKey Y 0 ∈ Calendar.cachedMonths january)
    /\ (Calendar.monthKey (Y - 1) 12 ∉ Calendar.cachedMonths january)
    /\ In (Calendar.LoadSessions (getMonthRange tz Y 0 0).1 (getMonthRange tz Y 0 0).2
             (Calendar.filters st))
          (Calendar.handleMonthChange tz loadSessions Y 1 st).2
    /\ exists rest,
         (Calendar.handleMonthChange tz again (Y - 1) 12 january).2
         = Calendar.LoadSessions december.1 december.2 (Calendar.filters january) :: rest.
Proof.
  intros tz loadSessions again Y st Hok Hfresh january december.
  assert (Hne : Calendar.monthKey Y 0 <> Calendar.monthKey (Y - 1) 12)
    by (apply december_key_fresh; auto).
  assert (Hnotin : Calendar.monthKey (Y - 1) 12 ∉ Calendar.cachedMonths january).
  { subst january. unfold Calendar.handleMonthChange. intros Hin.
    apply monthEffect_cached_bounds in Hin.
    cbn [fst snd Calendar.visibleMonth Calendar.cachedMonths Calendar.with_month] in Hin.
    rewrite Hfresh in Hin.
    rewrite !elem_of_union, !elem_of_singleton in Hin.
    destruct Hin as [[[Hin|Hin]|Hin]|Hin].
    - symmetry in Hin. revert Hin. apply december_key_fresh. auto.
    - symmetry in Hin. revert Hin. replace (1 - 1) with 0 by lia.
      apply december_key_fresh. auto.
    - symmetry in Hin. revert Hin. replace (1 + 1) with 2 by lia.
      apply december_key_fresh. auto.
    - by apply not_elem_of_empty in Hin. }
  split; [exact Hne|]. split; [|split; [exact Hnotin|split]].
  - subst january. unfold Calendar.handleMonthChange.
    pose proof (monthEffect_marks_previous tz loadSessions
                  (Calendar.with_month st (Y, 1)) Hok) as Hin.
    cbn [fst snd Calendar.visibleMonth Calendar.with_month] in Hin.
    replace (1 - 1) with 0 in Hin by lia. exact Hin.
  - unfold Calendar.handleMonthChange.
    pose proof (monthEffect_prefetches_previous tz loadSessions
                  (Calendar.with_month st (Y, 1))) as Hpre.
    cbn [fst snd Calendar.visibleMonth Calendar.cachedMonths Calendar.filters
         Calendar.with_month] in Hpre.
    replace (1 - 1) with 0 in Hpre by lia.
    apply Hpre. rewrite Hfresh. apply not_elem_of_empty.
  - unfold Calendar.handleMonthChange.
    pose proof (monthEffect_loads_visible tz again
                  (Calendar.with_month january (Y - 1, 12))) as Hload.
    cbn [fst snd Calendar.visibleMonth Calendar.cachedMonths Calendar.filters
         Calendar.with_month] in Hload.
    apply Hload. exact Hnotin.
Qed.

(** C10 for the year 2024 and a loader that returns no sessions. *)
Lemma C10_witness :
  let january := (Calendar.handleMonthChange 0 Samples.emptyLoader 2024 1
                    (Samples.mounted 2024 3)).1 in
  let december := getMonthRange 0 (2024 - 1) 12 2 in
  Calendar.monthKey 2024 0 <> Calendar.monthKey (2024 - 1) 12
  /\ (Calendar.monthKey 2024 0 ∈ Calendar.cachedMonths january)
  /\ (Calendar.monthKey (2024 - 1) 12 ∉ Calendar.cachedMonths january)
  /\ In (Calendar.LoadSessions (getMonthRange 0 2024 0 0).1 (getMonthRange 0 2024 0 0).2
           (Calendar.filters (Samples.mounted 2024 3)))
        (Calendar.handleMonthChange 0 Samples.emptyLoader 2024 1 (Samples.mounted 2024 3)).2
  /\ exists rest,
       (Calendar.handleMonthChange 0 Samples.emptyLoader (2024 - 1) 12 january).2
       = Calendar.LoadSessions december.1 december.2 (Calendar.filters january) :: rest.
Proof.
  apply (C10_prefetch_key_never_hit 0 Samples.emptyLoader Samples.emptyLoader 2024
           (Samples.mounted 2024 3)).
  - intros a b f. discriminate.
  - reflexivity.
Defined.

(** * Creating sessions *)

Section CreateFacts.
Variable tz : Z.
Variable parseDate : string -> JsDate.
Variable parseTime : string -> option (Z * Z).

Lemma atTime_Some d hm s :
  Calendar.atTime tz d hm = Some s ->
  exists t h m, d = Some t /\ hm = Some (h, m) /\ s = setHours tz t h m 0 0.
Proof.
  unfold Calendar.atTime. destruct d as [t|]; [|discriminate].
  destruct hm as [[h m]|]; [|discriminate].
  intros [= <-]. eauto 6.
Qed.

(** The validation alerts reach no [onCreateSession] call. *)
Lemma handleCreateSession_rejects hasOnCreateSession form clients byDate readOnly now :
  Calendar.CreateSessionFormData.clientId form = ""%string
  \/ date_ge (Calendar.startDateOf tz parseDate parseTime form)
             (Calendar.endDateOf tz parseDate parseTime form) = true ->
  Calendar.handleCreateSession tz parseDate parseTime hasOnCreateSession
    form clients byDate readOnly now
  = if hasOnCreateSession then
      Calendar.ShowAlert "Error"
        (if String.eqb (Calendar.CreateSessionFormData.clientId form) ""
         then "Please select a client or add clients first"
         else "End time must be after start time") []
    else Calendar.Returns.
Proof.
  unfold Calendar.handleCreateSession.
  generalize (Calendar.proceedWithCreate tz parseDate parseTime form clients byDate).
  generalize (Calendar.startDateOf tz parseDate parseTime form).
  generalize (Calendar.endDateOf tz parseDate parseTime form).
  intros e s k Hrej.
  destruct hasOnCreateSession; cbn [negb]; [|reflexivity].
  destruct (String.eqb_spec (Calendar.CreateSessionFormData.clientId form) "") as [Hc|Hc];
    [reflexivity|].
  destruct Hrej as [Hrej|Hrej]; [contradiction|]. rewrite Hrej. reflexivity.
Qed.
(** The form's date text names the local day of the computed start when
    the text is read as UTC midnight of that day, the host is not west of
    Greenwich and the start time lies within the day. *)
Lemma form_date_is_start_key form n h m :
  parseDate (Calendar.CreateSessionFormData.date form) = Some (MakeDate n 0) ->
  parseTime (Calendar.CreateSessionFormData.startTime form) = Some (h, m) ->
  Calendar.CreateSessionFormData.date form = dateKeyOfDay n ->
  0 <= tz < msPerDay ->
  0 <= MakeTime h m 0 0 < msPerDay ->
  dateKey tz (Calendar.startDateOf tz parseDate parseTime form)
  = Calendar.CreateSessionFormData.date form.
Proof.
  intros Hd Ht Hkey Htz Htime. unfold Calendar.startDateOf.
  rewrite Hd, Ht. cbn [Calendar.atTime].
  rewrite dateKey_dateKeyOfDay, Hkey. f_equal.
  unfold setHours, LocalTime, UTC, MakeDate, Day.
  generalize dependent (MakeTime h m 0 0). intros X HX.
  assert (Hms : 0 < msPerDay) by (unfold msPerDay; lia).
  replace (n * msPerDay + 0 + tz) with (tz + n * msPerDay) by lia.
  rewrite Z.div_add by lia. rewrite (Z.div_small tz) by lia.
  replace ((0 + n) * msPerDay + X - tz + tz) with (X + n * msPerDay) by lia.
  rewrite Z.div_add by lia. rewrite (Z.div_small X) by lia. lia.
Qed.
End CreateFacts.

(** C8: a create request without a selected client, or whose computed
    start is not before its computed end, is answered by the validation
    alert: no [onCreateSession] call can follow from it, and the outcome does
    not depend on the day buckets, which are never searched for conflicts. *)
Theorem C8_validation_precedes_io :
  forall (tz : Z) (parseDate : string -> JsDate) (parseTime : string -> option (Z * Z))
         (hasOnCreateSession : bool) (form : Calendar.CreateSessionFormData.t)
         (clients : list Client.t) (byDate : gmap string (list Session.t))
         (readOnly : bool) (now : Z),
    Calendar.CreateSessionFormData.clientId form = ""%string
    \/ date_ge (Calendar.startDateOf tz parseDate parseTime form)
               (Calendar.endDateOf tz parseDate parseTime form) = true ->
    let outcome :=
      Calendar.handleCreateSession tz parseDate parseTime hasOnCreateSession
        form clients byDate readOnly now in
    Calendar.creates outcome = []
    /\ (hasOnCreateSession = true ->
        exists message, outcome = Calendar.ShowAlert "Error" message [])
    /\ (forall byDate',
          Calendar.handleCreateSession tz parseDate parseTime hasOnCreateSession
            form clients byDate' readOnly now = outcome).
Proof.
  intros tz parseDate parseTime hasOnCreateSession form clients byDate readOnly now
    Hrej outcome.
  subst outcome. rewrite !handleCreateSession_rejects by exact Hrej.
  split; [|split].
  - destruct hasOnCreateSession; reflexivity.
  - intros ->. eauto.
  - intros byDate'. apply handleCreateSession_rejects. exact Hrej.
Qed.

(** C8 at a form whose end time lies before its start time. *)
Lemma C8_witness :
  let form := Samples.mkForm "c1" "2024-03-04" "10:30" "09:30" false 1 in
  let byDate : gmap string (list Session.t) :=
    {[ "2024-03-04"%string := [Samples.booked0900] ]} in
  let outcome :=
    Calendar.handleCreateSession 0 SampleHost.parseDate SampleHost.parseTime true
      form [] byDate false 0 in
  Calendar.creates outcome = []
  /\ (true = true -> exists message, outcome = Calendar.ShowAlert "Error" message [])
  /\ (forall byDate',
        Calendar.handleCreateSession 0 SampleHost.parseDate SampleHost.parseTime true
          form [] byDate' false 0 = outcome).
Proof.
  apply (C8_validation_precedes_io 0 SampleHost.parseDate SampleHost.parseTime true
           (Samples.mkForm "c1" "2024-03-04" "10:30" "09:30" false 1) []
           {[ "2024-03-04"%string := [Samples.booked0900] ]} false 0).
  right. vm_compute. reflexivity.
Defined.

(** C4: with the bucket of 2024-03-04 holding one session booked from
    09:00Z to 10:00Z, a request for 09:30Z to 10:30Z on that day finds
    exactly that session as its conflict and is answered by the conflict
    alert; whatever the clock and the flags, no [onCreateSession] call is
    reached unless the button Override is pressed. *)
Theorem C4_conflict_blocks_create :
  forall (tz : Z) (parseDate : string -> JsDate) (parseTime : string -> option (Z * Z))
         (form : Calendar.CreateSessionFormData.t) (clients : list Client.t)
         (byDate : gmap string (list Session.t)) (original : Session.t),
    byDate !! "2024-03-04"%string = Some [original] ->
    Session.startISO (Session.fields original) = Samples.T0900 ->
    Session.endISO (Session.fields original) = Samples.T1000 ->
    Calendar.startDateOf tz parseDate parseTime form = Some Samples.T0930 ->
    Calendar.endDateOf tz parseDate parseTime form = Some Samples.T1030 ->
    dateKey tz (Some Samples.T0930) = "2024-03-04"%string ->
    Calendar.checkConflicts tz byDate (Some Samples.T0930) (Some Samples.T1030) None
    = [original]
    /\ Calendar.proceedWithCreate tz parseDate parseTime form clients byDate
       = Calendar.ShowAlert "Schedule Conflict"
           "This time conflicts with 1 existing session(s)"
           [Calendar.button "View Conflict" (Calendar.PressSession (Some original));
            Calendar.button "Pick Different Time" Calendar.Returns;
            Calendar.button "Override"
              (Calendar.createSessions tz parseDate parseTime form clients)]
    /\ (forall hasOnCreateSession readOnly now,
          Calendar.createsAvoiding "Override"
            (Calendar.handleCreateSession tz parseDate parseTime hasOnCreateSession
               form clients byDate readOnly now) = [])
    /\ (forall readOnly now,
          Calendar.CreateSessionFormData.clientId form <> ""%string ->
          Calendar.handleCreateSession tz parseDate parseTime true
            form clients byDate readOnly now
          = if isPast now (Some Samples.T0930) && negb readOnly then
              Calendar.ShowAlert "Warning" "This session is in the past. Continue?"
                [Calendar.button "Cancel" Calendar.Returns;
                 Calendar.button "Continue"
                   (Calendar.proceedWithCreate tz parseDate parseTime form clients byDate)]
            else Calendar.proceedWithCreate tz parseDate parseTime form clients byDate).
Proof.
  intros tz parseDate parseTime form clients byDate original
    Hbucket Hstart Hend Hs He Hkey.
  assert (Hconf : Calendar.checkConflicts tz byDate (Some Samples.T0930)
                    (Some Samples.T1030) None = [original]).
  { unfold Calendar.checkConflicts. rewrite Hkey, Hbucket.
    cbn [default from_option id List.filter].
    rewrite bool_decide_eq_false_2 by discriminate.
    unfold toLocal. rewrite Hstart, Hend. reflexivity. }
  assert (Hproceed :
    Calendar.proceedWithCreate tz parseDate parseTime form clients byDate
    = Calendar.ShowAlert "Schedule Conflict"
        "This time conflicts with 1 existing session(s)"
        [Calendar.button "View Conflict" (Calendar.PressSession (Some original));
         Calendar.button "Pick Different Time" Calendar.Returns;
         Calendar.button "Override"
           (Calendar.createSessions tz parseDate parseTime form clients)]).
  { unfold Calendar.proceedWithCreate. rewrite Hs, He, Hconf. reflexivity. }
  split; [exact Hconf|]. split; [exact Hproceed|]. split.
  - intros hasOnCreateSession readOnly now. unfold Calendar.handleCreateSession.
    rewrite Hproceed, Hs, He.
    generalize (Calendar.createSessions tz parseDate parseTime form clients). intros k.
    destruct hasOnCreateSession; cbn [negb]; [|reflexivity].
    destruct (String.eqb _ ""); [reflexivity|].
    destruct (date_ge _ _); [reflexivity|].
    destruct (isPast now _ && negb readOnly); reflexivity.
  - intros readOnly now Hclient. unfold Calendar.handleCreateSession.
    rewrite Hs, He. cbn [negb].
    destruct (String.eqb_spec (Calendar.CreateSessionFormData.clientId form) "");
      [contradiction|].
    reflexivity.
Qed.

(** C4 on a UTC host, the request typed as 09:30 to 10:30 on 2024-03-04. *)
Lemma C4_witness :
  let form := Samples.mkForm "c1" "2024-03-04" "09:30" "10:30" false 1 in
  let byDate : gmap string (list Session.t) :=
    {[ "2024-03-04"%string := [Samples.booked0900] ]} in
  Calendar.checkConflicts 0 byDate (Some Samples.T0930) (Some Samples.T1030) None
  = [Samples.booked0900]
  /\ Calendar.createsAvoiding "Override"
       (Calendar.handleCreateSession 0 SampleHost.parseDate SampleHost.parseTime true
          form [] byDate false 0) = [].
Proof.
  pose proof (C4_conflict_blocks_create 0 SampleHost.parseDate SampleHost.parseTime
                (Samples.mkForm "c1" "2024-03-04" "09:30" "10:30" false 1) []
                {[ "2024-03-04"%string := [Samples.booked0900] ]} Samples.booked0900)
    as H.
  destruct H as (Hconf & _ & Hsafe & _).
  - apply lookup_singleton_eq.
  - reflexivity.
  - reflexivity.
  - vm_compute. reflexivity.
  - vm_compute. reflexivity.
  - vm_compute. reflexivity.
  - split; [exact Hconf | apply Hsafe].
Defined.

Section RepeatFacts.
Variable tz : Z.
Variable parseDate : string -> JsDate.
Variable parseTime : string -> option (Z * Z).

(** With weekly repeat the call receives one session per week and no
    more: every element is marked recurring, so the base session, which is
    not, is none of them. *)
Lemma createSessions_repeat_batch form clients s e :
  Calendar.CreateSessionFormData.repeatWeekly form = true ->
  0 < Calendar.CreateSessionFormData.repeatWeeks form ->
  Calendar.startDateOf tz parseDate parseTime form = Some s ->
  Calendar.endDateOf tz parseDate parseTime form = Some e ->
  exists batch,
    Calendar.createSessions tz parseDate parseTime form clients
    = Calendar.CallOnCreateSession (Batch batch)
    /\ length batch = Z.to_nat (Calendar.CreateSessionFormData.repeatWeeks form)
    /\ Forall (fun i => Session.recurring i = Some true) batch.
Proof.
  intros Hrepeat Hweeks Hs He.
  unfold Calendar.createSessions. rewrite Hs, He. unfold toUTCISO.
  unfold Calendar.startDateOf in Hs. unfold Calendar.endDateOf in He.
  apply atTime_Some in Hs as (t & sh & sm & _ & -> & _).
  apply atTime_Some in He as (t' & eh & em & _ & -> & _).
  rewrite Hrepeat. replace (0 <? _) with true by (symmetry; by apply Z.ltb_lt).
  cbn [andb]. eexists. split; [reflexivity|]. split.
  - rewrite length_fmap. apply getWeeklyRepeatDates_length.
  - apply Forall_fmap. apply Forall_forall. intros. reflexivity.
Qed.
End RepeatFacts.

(** C2 (evaluation at the failing input): a request for 2024-03-04,
    09:30 to 10:30, repeated weekly for 2 weeks on a UTC host hands the
    repository a batch of exactly the 2 expanded sessions, dated 03-11 and
    03-18; after the screen has stored the batch into an empty list, 2
    sessions are stored and none of them is the session of 03-04. *)
Theorem C2_repeat_batch_omits_base :
  let form := Samples.mkForm "c1" "2024-03-04" "09:30" "10:30" true 2 in
  let outcome :=
    Calendar.handleCreateSession 0 SampleHost.parseDate SampleHost.parseTime true
      form [] ∅ false 0 in
  exists a b stored,
    outcome = Calendar.CallOnCreateSession (Batch [a; b])
    /\ Session.date a = "2024-03-11"%string
    /\ Session.date b = "2024-03-18"%string
    /\ (CalendarScreen.handleCreateSession [] pretty true (Batch [a; b])).1.2 = Some stored
    /\ length stored = 2%nat
    /\ sessionsOn "2024-03-04" stored = [].
Proof.
  intros form outcome. vm_compute in outcome.
  match eval cbv delta [outcome] in outcome with
  | Calendar.CallOnCreateSession (Batch [?a; ?b]) =>
      exists a, b; eexists; split; [reflexivity|]
  end.
  split; [reflexivity|]. split; [reflexivity|].
  split; [vm_compute; reflexivity|]. split; reflexivity.
Qed.

(** On a host whose offset never changes, a weekly repeat for 3 weeks
    hands over exactly 3 sessions; their date keys are those of the days 7,
    14 and 21 after the local day of the computed start, and the local hour
    and minute of every start and end are those of the computed start and
    end. *)
Lemma weekly_expansion_from_start_day :
  forall (tz : Z) (parseDate : string -> JsDate) (parseTime : string -> option (Z * Z))
         (form : Calendar.CreateSessionFormData.t) (clients : list Client.t)
         (s e : Z),
    Calendar.CreateSessionFormData.repeatWeekly form = true ->
    Calendar.CreateSessionFormData.repeatWeeks form = 3 ->
    Calendar.startDateOf tz parseDate parseTime form = Some s ->
    Calendar.endDateOf tz parseDate parseTime form = Some e ->
    exists i1 i2 i3,
      Calendar.createSessions tz parseDate parseTime form clients
      = Calendar.CallOnCreateSession (Batch [i1; i2; i3])
      /\ dateKey tz (Some s) = dateKeyOfDay (Day (LocalTime tz s))
      /\ Session.date i1 = dateKeyOfDay (Day (LocalTime tz s) + 7)
      /\ Session.date i2 = dateKeyOfDay (Day (LocalTime tz s) + 14)
      /\ Session.date i3 = dateKeyOfDay (Day (LocalTime tz s) + 21)
      /\ Forall (fun i =>
                   getHours tz (Session.startISO i) = getHours tz s
                   /\ getMinutes tz (Session.startISO i) = getMinutes tz s
                   /\ getHours tz (Session.endISO i) = getHours tz e
                   /\ getMinutes tz (Session.endISO i) = getMinutes tz e)
                [i1; i2; i3].
Proof.
  intros tz parseDate parseTime form clients s e Hrepeat Hweeks Hs He.
  unfold Calendar.createSessions. rewrite Hs, He. unfold toUTCISO.
  unfold Calendar.startDateOf in Hs. unfold Calendar.endDateOf in He.
  apply atTime_Some in Hs as (t & sh & sm & _ & -> & ->).
  apply atTime_Some in He as (t' & eh & em & _ & -> & ->).
  rewrite Hrepeat, Hweeks. cbn [andb Z.ltb Z.compare].
  rewrite getWeeklyRepeatDates_eq. change (seqZ 1 3) with [1; 2; 3].
  cbn [fmap list_fmap].
  do 3 eexists. split; [reflexivity|].
  cbn [Session.date Session.startISO Session.endISO].
  rewrite !dateKey_dateKeyOfDay, !Day_LocalTime_shift.
  do 4 (split; [reflexivity|]).
  repeat (apply List.Forall_cons;
          [cbn [Session.startISO Session.endISO];
           rewrite !getHours_setHours, !getMinutes_setHours; auto|]).
  apply List.Forall_nil.
Qed.

(** C7 (evaluation at the failing input): on a host that is five hours
    west of Greenwich all year, a request for 2024-03-04, 09:30 to 10:30,
    repeated weekly for 3 weeks hands over exactly 3 sessions, and the local
    hour and minute of their starts and ends are those of the base session;
    but the base session carries the date key 2024-03-04, and the date keys
    of the three sessions are 2024-03-10, 03-17 and 03-24, which lie 6, 13
    and 20 days after it, not 7, 14 and 21.  The base session is the one the
    same request hands over without the repeat. *)
Theorem C7_expansion_counts_from_start_day :
  let tz := -18000000 in
  let create repeatWeekly :=
    Calendar.handleCreateSession tz SampleHost.parseDate SampleHost.parseTime true
      (Samples.mkForm "c1" "2024-03-04" "09:30" "10:30" repeatWeekly 3) [] ∅ false 0 in
  exists base i1 i2 i3,
    create false = Calendar.CallOnCreateSession (Single base)
    /\ create true = Calendar.CallOnCreateSession (Batch [i1; i2; i3])
    /\ Session.date base = "2024-03-04"%string
    /\ Session.date base = dateKeyOfDay 19786
    /\ (Session.date i1 = "2024-03-10"%string /\ Session.date i1 = dateKeyOfDay (19786 + 6)
        /\ Session.date i1 <> dateKeyOfDay (19786 + 7))
    /\ (Session.date i2 = "2024-03-17"%string /\ Session.date i2 = dateKeyOfDay (19786 + 13)
        /\ Session.date i2 <> dateKeyOfDay (19786 + 14))
    /\ (Session.date i3 = "2024-03-24"%string /\ Session.date i3 = dateKeyOfDay (19786 + 20)
        /\ Session.date i3 <> dateKeyOfDay (19786 + 21))
    /\ dateKey tz (Some (Session.startISO base)) = "2024-03-03"%string
    /\ Forall (fun i =>
                 getHours tz (Session.startISO i) = getHours tz (Session.startISO base)
                 /\ getMinutes tz (Session.startISO i)
                    = getMinutes tz (Session.startISO base)
                 /\ getHours tz (Session.endISO i) = getHours tz (Session.endISO base)
                 /\ getMinutes tz (Session.endISO i) = getMinutes tz (Session.endISO base))
              [i1; i2; i3].
Proof.
  intros tz create.
  pose (single := create false). pose (batch := create true).
  vm_compute in single. vm_compute in batch.
  match eval cbv delta [single] in single with
  | Calendar.CallOnCreateSession (Single ?b) =>
      match eval cbv delta [batch] in batch with
      | Calendar.CallOnCreateSession (Batch [?a1; ?a2; ?a3]) => exists b, a1, a2, a3
      end
  end.
  split; [vm_compute; reflexivity|]. split; [vm_compute; reflexivity|].
  split; [reflexivity|]. split; [vm_compute; reflexivity|].
  do 3 (split; [split; [reflexivity|]; split; [vm_compute; reflexivity|];
                vm_compute; discriminate|]).
  split; [vm_compute; reflexivity|].
  repeat (apply List.Forall_cons; [vm_compute; auto|]).
  apply List.Forall_nil.
Qed.

(** * Further properties of the date helpers *)

Lemma time_split t :
  t = MakeDate (Day t)
        (MakeTime (HourFromTime t) (MinFromTime t) (SecFromTime t) (msFromTime t)).
Proof.
  unfold MakeDate, MakeTime, Day, HourFromTime, MinFromTime, SecFromTime, msFromTime,
    msPerDay, msPerHour, msPerMinute.
  Z.div_mod_to_equations; lia.
Qed.

Lemma TimeClip_Some t : Z.abs t <= HostDate.maxTime -> HostDate.TimeClip t = Some t.
Proof.
  intros H. unfold HostDate.TimeClip.
  by replace (Z.abs t <=? HostDate.maxTime) with true by (symmetry; by apply Z.leb_le).
Qed.

Lemma TimeClip_inv t r : HostDate.TimeClip t = Some r -> r = t /\ Z.abs t <= HostDate.maxTime.
Proof.
  unfold HostDate.TimeClip. destruct (Z.leb_spec (Z.abs t) HostDate.maxTime); [|discriminate].
  intros [= <-]. by split.
Qed.

Section AnyHost.
Variable LocalTZA : Z -> bool -> Z.

(** Setting one field of the local time moves the local clock reading by
    the change of that field, whatever the rules of the host; the host then
    reads the new clock reading back as an instant. *)
Lemma setMinutes_local d m :
  HostDate.setMinutes LocalTZA d m
  = HostDate.TimeClip
      (HostDate.UTC LocalTZA
         (HostDate.LocalTime LocalTZA d
          + (m - HostDate.getMinutes LocalTZA d) * msPerMinute)).
Proof.
  unfold HostDate.setMinutes, HostDate.getMinutes.
  generalize (HostDate.LocalTime LocalTZA d). intros t. do 2 f_equal.
  pose proof (time_split t) as Hs.
  unfold MakeDate, MakeTime, msPerDay, msPerHour, msPerMinute in *. lia.
Qed.

Lemma setHoursOnly_local d h :
  HostDate.setHoursOnly LocalTZA d h
  = HostDate.TimeClip
      (HostDate.UTC LocalTZA
         (HostDate.LocalTime LocalTZA d + (h - HostDate.getHours LocalTZA d) * msPerHour)).
Proof.
  unfold HostDate.setHoursOnly, HostDate.getHours.
  generalize (HostDate.LocalTime LocalTZA d). intros t. do 2 f_equal.
  pose proof (time_split t) as Hs.
  unfold MakeDate, MakeTime, msPerDay, msPerHour, msPerMinute in *. lia.
Qed.

Lemma setSeconds_local d s :
  HostDate.setSeconds LocalTZA d s
  = HostDate.TimeClip
      (HostDate.UTC LocalTZA
         (HostDate.LocalTime LocalTZA d
          + (s - SecFromTime (HostDate.LocalTime LocalTZA d)) * 1000)).
Proof.
  unfold HostDate.setSeconds.
  generalize (HostDate.LocalTime LocalTZA d). intros t. do 2 f_equal.
  pose proof (time_split t) as Hs.
  unfold MakeDate, MakeTime, msPerDay, msPerHour, msPerMinute in *. lia.
Qed.

Lemma setMilliseconds_local d ms :
  HostDate.setMilliseconds LocalTZA d ms
  = HostDate.TimeClip
      (HostDate.UTC LocalTZA
         (HostDate.LocalTime LocalTZA d + (ms - msFromTime (HostDate.LocalTime LocalTZA d)))).
Proof.
  unfold HostDate.setMilliseconds.
  generalize (HostDate.LocalTime LocalTZA d). intros t. do 2 f_equal.
  pose proof (time_split t) as Hs.
  unfold MakeDate, MakeTime, msPerDay, msPerHour, msPerMinute in *. lia.
Qed.

Lemma setDate_local d k :
  HostDate.setDate LocalTZA d (HostDate.getDate LocalTZA d + k)
  = HostDate.TimeClip
      (HostDate.UTC LocalTZA (HostDate.LocalTime LocalTZA d + k * msPerDay)).
Proof.
  unfold HostDate.setDate, HostDate.getDate.
  generalize (HostDate.LocalTime LocalTZA d). intros t. do 2 f_equal.
  rewrite MakeDay_of_time. unfold MakeDate, Day, TimeWithinDay.
  pose proof (Z.div_mod t msPerDay ltac:(unfold msPerDay; lia)). lia.
Qed.

Lemma addMinutes_local d a :
  HostDate.addMinutes LocalTZA (Some d) a
  = HostDate.TimeClip
      (HostDate.UTC LocalTZA (HostDate.LocalTime LocalTZA d + a * msPerMinute)).
Proof.
  unfold HostDate.addMinutes. cbn [mbind option_bind]. rewrite setMinutes_local.
  do 2 f_equal. lia.
Qed.

Lemma getWeeklyRepeatDates_local startDate weeks :
  HostDate.getWeeklyRepeatDates LocalTZA (Some startDate) weeks
  = (fun i => HostDate.TimeClip
                (HostDate.UTC LocalTZA
                   (HostDate.LocalTime LocalTZA startDate + (i * 7) * msPerDay)))
    <$> seqZ 1 weeks.
Proof.
  unfold HostDate.getWeeklyRepeatDates. apply list_fmap_ext.
  intros _ i _. cbn [mbind option_bind]. apply setDate_local.
Qed.

Lemma getWeeklyRepeatDates_count startDate weeks :
  length (HostDate.getWeeklyRepeatDates LocalTZA startDate weeks) = Z.to_nat weeks.
Proof. unfold HostDate.getWeeklyRepeatDates. by rewrite length_fmap, length_seqZ. Qed.
End AnyHost.

(** On a host whose offset never changes. *)
Section FixedOffsetHost.
Variable LocalTZA : Z -> bool -> Z.
Variable tz : Z.
Hypothesis Hfix : forall t isUTC, LocalTZA t isUTC = tz.

Lemma LocalTime_fixed d : HostDate.LocalTime LocalTZA d = d + tz.
Proof. unfold HostDate.LocalTime. by rewrite Hfix. Qed.

Lemma UTC_fixed t : HostDate.UTC LocalTZA t = t - tz.
Proof. unfold HostDate.UTC. by rewrite Hfix. Qed.

Lemma getHours_fixed d : HostDate.getHours LocalTZA d = getHours tz d.
Proof. unfold HostDate.getHours, getHours. by rewrite LocalTime_fixed. Qed.

Lemma getMinutes_fixed d : HostDate.getMinutes LocalTZA d = getMinutes tz d.
Proof. unfold HostDate.getMinutes, getMinutes. by rewrite LocalTime_fixed. Qed.

Lemma setMinutes_fixed d m :
  HostDate.setMinutes LocalTZA d m
  = HostDate.TimeClip (d + (m - getMinutes tz d) * msPerMinute).
Proof.
  rewrite setMinutes_local, UTC_fixed, LocalTime_fixed, getMinutes_fixed. f_equal. lia.
Qed.

Lemma setHoursOnly_fixed d h :
  HostDate.setHoursOnly LocalTZA d h
  = HostDate.TimeClip (d + (h - getHours tz d) * msPerHour).
Proof.
  rewrite setHoursOnly_local, UTC_fixed, LocalTime_fixed, getHours_fixed. f_equal. lia.
Qed.

Lemma setSeconds_fixed d s :
  HostDate.setSeconds LocalTZA d s
  = HostDate.TimeClip (d + (s - SecFromTime (d + tz)) * 1000).
Proof. rewrite setSeconds_local, UTC_fixed, LocalTime_fixed. f_equal. lia. Qed.

Lemma setMilliseconds_fixed d ms :
  HostDate.setMilliseconds LocalTZA d ms
  = HostDate.TimeClip (d + (ms - msFromTime (d + tz))).
Proof. rewrite setMilliseconds_local, UTC_fixed, LocalTime_fixed. f_equal. lia. Qed.

Lemma addMinutes_fixed d a :
  HostDate.addMinutes LocalTZA (Some d) a = HostDate.TimeClip (d + a * msPerMinute).
Proof. rewrite addMinutes_local, UTC_fixed, LocalTime_fixed. f_equal. lia. Qed.

(** Clearing seconds and milliseconds cuts the local time down to the
    minute. *)
Lemma truncate_to_minute r :
  Z.abs r + msPerMinute <= HostDate.maxTime ->
  (rounded ← HostDate.setSeconds LocalTZA r 0; HostDate.setMilliseconds LocalTZA rounded 0)
  = Some ((r + tz) / 60000 * 60000 - tz).
Proof.
  intros Hr. unfold msPerMinute, HostDate.maxTime in Hr.
  rewrite setSeconds_fixed.
  assert (Hsec : 0 <= SecFromTime (r + tz) < 60)
    by (unfold SecFromTime; apply Z.mod_pos_bound; lia).
  rewrite TimeClip_Some by (unfold HostDate.maxTime; lia).
  cbn [mbind option_bind]. rewrite setMilliseconds_fixed.
  set (r1 := r + (0 - SecFromTime (r + tz)) * 1000).
  assert (Hms : 0 <= msFromTime (r1 + tz) < 1000)
    by (unfold msFromTime; apply Z.mod_pos_bound; lia).
  rewrite TimeClip_Some by (unfold HostDate.maxTime; subst r1; lia).
  f_equal.
  assert (H1 : r1 + tz = (r + tz) - SecFromTime (r + tz) * 1000) by (subst r1; lia).
  assert (r1 + (0 - msFromTime (r1 + tz)) + tz = (r + tz) / 60000 * 60000); [|lia].
  replace (r1 + (0 - msFromTime (r1 + tz)) + tz)
    with (r1 + tz - msFromTime (r1 + tz)) by lia.
  rewrite H1. unfold SecFromTime, msFromTime.
  generalize (r + tz). intros T. Z.div_mod_to_equations; lia.
Qed.

(** The rounding as a closed form: the local clock reading is rounded to
    the nearest multiple of half an hour, a reading halfway between two of
    them going up. *)
Lemma nearestHalfHour_fixed_offset d :
  Z.abs d + msPerHour <= HostDate.maxTime ->
  HostDate.nearestHalfHour LocalTZA (Some d)
  = Some ((d + tz + 900000) / 1800000 * 1800000 - tz).
Proof.
  intros Hd. unfold msPerHour, HostDate.maxTime in Hd.
  unfold HostDate.nearestHalfHour. cbn [mbind option_bind].
  rewrite getMinutes_fixed.
  assert (Hmin : 0 <= getMinutes tz d < 60)
    by (unfold getMinutes, MinFromTime; apply Z.mod_pos_bound; lia).
  assert (Hstage : forall r,
            Z.abs r + msPerMinute <= HostDate.maxTime ->
            (r + tz) / 60000 * 60000 = (d + tz + 900000) / 1800000 * 1800000 ->
            (rounded ← Some r;
             rounded ← HostDate.setSeconds LocalTZA rounded 0;
             HostDate.setMilliseconds LocalTZA rounded 0)
            = Some ((d + tz + 900000) / 1800000 * 1800000 - tz)).
  { intros r Hr Heq. cbn [mbind option_bind].
    rewrite (truncate_to_minute r Hr), Heq. reflexivity. }
  destruct (Z.ltb_spec (getMinutes tz d) 15) as [H15|H15];
    [|destruct (Z.ltb_spec (getMinutes tz d) 45) as [H45|H45]].
  - rewrite setMinutes_fixed.
    rewrite TimeClip_Some by (unfold HostDate.maxTime, msPerMinute; lia).
    apply Hstage; [unfold HostDate.maxTime, msPerMinute; lia|].
    unfold getMinutes, MinFromTime, LocalTime, msPerMinute in *.
    replace (d + (0 - (d + tz) / 60000 mod 60) * 60000 + tz)
      with (d + tz - (d + tz) / 60000 mod 60 * 60000) by lia.
    generalize dependent (d + tz). intros T _ H15.
    Z.div_mod_to_equations; lia.
  - rewrite setMinutes_fixed.
    rewrite TimeClip_Some by (unfold HostDate.maxTime, msPerMinute; lia).
    apply Hstage; [unfold HostDate.maxTime, msPerMinute; lia|].
    unfold getMinutes, MinFromTime, LocalTime, msPerMinute in *.
    replace (d + (30 - (d + tz) / 60000 mod 60) * 60000 + tz)
      with (d + tz + (30 - (d + tz) / 60000 mod 60) * 60000) by lia.
    generalize dependent (d + tz). intros T _ H15 H45.
    Z.div_mod_to_equations; lia.
  - rewrite setMinutes_fixed.
    rewrite TimeClip_Some by (unfold HostDate.maxTime, msPerMinute; lia).
    cbn [mbind option_bind]. rewrite setHoursOnly_fixed, getHours_fixed.
    replace (getHours tz (d + (0 - getMinutes tz d) * msPerMinute) + 1
             - getHours tz (d + (0 - getMinutes tz d) * msPerMinute)) with 1 by lia.
    rewrite TimeClip_Some by (unfold HostDate.maxTime, msPerMinute, msPerHour; lia).
    apply Hstage; [unfold HostDate.maxTime, msPerMinute, msPerHour; lia|].
    unfold getMinutes, MinFromTime, LocalTime, msPerMinute, msPerHour in *.
    replace (d + (0 - (d + tz) / 60000 mod 60) * 60000 + 1 * 3600000 + tz)
      with (d + tz - (d + tz) / 60000 mod 60 * 60000 + 3600000) by lia.
    generalize dependent (d + tz). intros T _ H15 H45.
    Z.div_mod_to_equations; lia.
Qed.
End FixedOffsetHost.

(** X1: on a host whose offset from UTC never changes, and for a date
    more than two hours inside the range of time values,
    [nearestHalfHour] returns a valid date on a full or half hour of local
    time (minute 0 or 30, seconds and milliseconds 0), at most 15 minutes
    away from its argument, and rounding a second time changes nothing. *)
Theorem X1_nearestHalfHour_rounds :
  forall (LocalTZA : Z -> bool -> Z) (tz d : Z),
    (forall t isUTC, LocalTZA t isUTC = tz) ->
    Z.abs d + 2 * msPerHour <= HostDate.maxTime ->
    exists r,
      HostDate.nearestHalfHour LocalTZA (Some d) = Some r
      /\ (HostDate.LocalTime LocalTZA r) mod 1800000 = 0
      /\ (HostDate.getMinutes LocalTZA r = 0 \/ HostDate.getMinutes LocalTZA r = 30)
      /\ SecFromTime (HostDate.LocalTime LocalTZA r) = 0
      /\ msFromTime (HostDate.LocalTime LocalTZA r) = 0
      /\ -900000 < r - d <= 900000
      /\ HostDate.nearestHalfHour LocalTZA (Some r) = Some r.
Proof.
  intros LocalTZA tz d Hfix Hd. unfold msPerHour, HostDate.maxTime in Hd.
  exists ((d + tz + 900000) / 1800000 * 1800000 - tz).
  split; [apply (nearestHalfHour_fixed_offset LocalTZA tz Hfix);
          unfold msPerHour, HostDate.maxTime; lia|].
  set (r := (d + tz + 900000) / 1800000 * 1800000 - tz).
  assert (Hhalf : (r + tz) mod 1800000 = 0)
    by (subst r; generalize (d + tz); intros T; Z.div_mod_to_equations; lia).
  assert (Hnear : -900000 < r - d <= 900000).
  { assert (-900000 < (r + tz) - (d + tz) <= 900000); [|lia].
    subst r. replace ((d + tz + 900000) / 1800000 * 1800000 - tz + tz)
      with ((d + tz + 900000) / 1800000 * 1800000) by lia.
    generalize (d + tz). intros T. Z.div_mod_to_equations; lia. }
  unfold HostDate.getMinutes. rewrite (LocalTime_fixed LocalTZA tz Hfix).
  split; [exact Hhalf|]. split; [|split; [|split; [|split; [exact Hnear|]]]].
  - unfold MinFromTime, msPerMinute. generalize dependent (r + tz). intros T Hhalf.
    Z.div_mod_to_equations; lia.
  - unfold SecFromTime. generalize dependent (r + tz). intros T Hhalf.
    Z.div_mod_to_equations; lia.
  - unfold msFromTime. generalize dependent (r + tz). intros T Hhalf.
    Z.div_mod_to_equations; lia.
  - rewrite (nearestHalfHour_fixed_offset LocalTZA tz Hfix)
      by (unfold msPerHour, HostDate.maxTime; lia).
    f_equal. assert ((r + tz + 900000) / 1800000 * 1800000 = r + tz); [|lia].
    generalize dependent (r + tz). intros T Hhalf. Z.div_mod_to_equations; lia.
Qed.

(** X1 on a UTC host, at 09:10:05 on 2024-03-04. *)
Lemma X1_witness :
  exists r,
    HostDate.nearestHalfHour (fixedOffset 0) (Some (Samples.T0900 + 605000)) = Some r
    /\ (HostDate.LocalTime (fixedOffset 0) r) mod 1800000 = 0
    /\ (HostDate.getMinutes (fixedOffset 0) r = 0 \/ HostDate.getMinutes (fixedOffset 0) r = 30)
    /\ SecFromTime (HostDate.LocalTime (fixedOffset 0) r) = 0
    /\ msFromTime (HostDate.LocalTime (fixedOffset 0) r) = 0
    /\ -900000 < r - (Samples.T0900 + 605000) <= 900000
    /\ HostDate.nearestHalfHour (fixedOffset 0) (Some r) = Some r.
Proof.
  apply (X1_nearestHalfHour_rounds (fixedOffset 0) 0 (Samples.T0900 + 605000)).
  - intros t isUTC. reflexivity.
  - vm_compute. discriminate.
Defined.

(** In the hour that the end of daylight saving repeats, the rounding goes
    further: 01:10 standard time on 2024-11-03 in New York (06:10Z) becomes
    01:00 daylight time (05:00Z), 70 minutes earlier. *)
Example nearestHalfHour_in_repeated_hour :
  HostDate.nearestHalfHour Samples.newYork2024 (Some 1730614200000) = Some 1730610000000.
Proof. vm_compute. reflexivity. Qed.

(** X2: on any host [addMinutes] moves the local clock reading of a valid
    date by exactly the given whole number of minutes, also across hours and
    days and for negative numbers, and the result is that reading as the
    host reads it back; an Invalid Date stays invalid.  On a host whose
    offset never changes the date itself moves by exactly that many minutes
    (and is invalid outside the range of time values), adding twice adds the
    sum, and adding the opposite number comes back. *)
Theorem X2_addMinutes_exact :
  forall (LocalTZA : Z -> bool -> Z) (d a b : Z),
    HostDate.addMinutes LocalTZA (Some d) a
    = HostDate.TimeClip
        (HostDate.UTC LocalTZA (HostDate.LocalTime LocalTZA d + a * 60000))
    /\ HostDate.addMinutes LocalTZA None a = None
    /\ (forall tz,
          (forall t isUTC, LocalTZA t isUTC = tz) ->
          HostDate.addMinutes LocalTZA (Some d) a = HostDate.TimeClip (d + a * 60000)
          /\ (Z.abs (d + a * 60000) <= HostDate.maxTime ->
              HostDate.addMinutes LocalTZA (HostDate.addMinutes LocalTZA (Some d) a) b
              = HostDate.addMinutes LocalTZA (Some d) (a + b))
          /\ (Z.abs d <= HostDate.maxTime ->
              Z.abs (d + a * 60000) <= HostDate.maxTime ->
              HostDate.addMinutes LocalTZA (HostDate.addMinutes LocalTZA (Some d) a) (- a)
              = Some d)).
Proof.
  intros LocalTZA d a b. split; [apply addMinutes_local|]. split; [reflexivity|].
  intros tz Hfix. rewrite !(addMinutes_fixed LocalTZA tz Hfix). unfold msPerMinute.
  split; [reflexivity|]. split.
  - intros Hr. rewrite TimeClip_Some by exact Hr.
    rewrite (addMinutes_fixed LocalTZA tz Hfix). unfold msPerMinute. f_equal. lia.
  - intros Hd Hr. rewrite TimeClip_Some by exact Hr.
    rewrite (addMinutes_fixed LocalTZA tz Hfix). unfold msPerMinute.
    replace (d + a * 60000 + - a * 60000) with d by lia.
    by apply TimeClip_Some.
Qed.

(** X2 on a UTC host: 90 minutes after 09:00 on 2024-03-04. *)
Lemma X2_witness :
  HostDate.addMinutes (fixedOffset 0) (Some Samples.T0900) 90
  = HostDate.TimeClip (Samples.T0900 + 90 * 60000)
  /\ HostDate.addMinutes (fixedOffset 0)
       (HostDate.addMinutes (fixedOffset 0) (Some Samples.T0900) 90) (- 90)
     = Some Samples.T0900.
Proof.
  destruct (X2_addMinutes_exact (fixedOffset 0) Samples.T0900 90 0) as (_ & _ & H).
  destruct (H 0) as (H1 & _ & H3).
  - intros t isUTC. reflexivity.
  - split; [exact H1|]. apply H3; vm_compute; discriminate.
Defined.

(** Across the end of daylight saving the date moves by more: in New York,
    60 minutes added to 01:30 daylight time on 2024-11-03 (05:30Z) give
    02:30 standard time (07:30Z), 120 minutes later. *)
Example addMinutes_across_fall_back :
  HostDate.addMinutes Samples.newYork2024 (Some 1730611800000) 60 = Some 1730619000000.
Proof. vm_compute. reflexivity. Qed.

(** X3: for a whole number of weeks [getWeeklyRepeatDates] returns as
    many dates as weeks asked for, none when the number is zero or negative;
    on any host the date at index i (from 0) is the local clock reading of
    the start moved by 7 (i + 1) days, as the host reads it back; on a host
    whose offset never changes it lies exactly 7 (i + 1) days after the
    start. *)
Theorem X3_getWeeklyRepeatDates_spacing :
  forall (LocalTZA : Z -> bool -> Z) (startDate weeks : Z),
    (forall start : JsDate,
       length (HostDate.getWeeklyRepeatDates LocalTZA start weeks) = Z.to_nat weeks)
    /\ (forall i : nat,
          (i < Z.to_nat weeks)%nat ->
          HostDate.getWeeklyRepeatDates LocalTZA (Some startDate) weeks !! i
          = Some (HostDate.TimeClip
                    (HostDate.UTC LocalTZA
                       (HostDate.LocalTime LocalTZA startDate
                        + 7 * (Z.of_nat i + 1) * msPerDay))))
    /\ (forall start : JsDate,
          weeks <= 0 -> HostDate.getWeeklyRepeatDates LocalTZA start weeks = [])
    /\ (forall (tz : Z) (i : nat),
          (forall t isUTC, LocalTZA t isUTC = tz) ->
          (i < Z.to_nat weeks)%nat ->
          HostDate.getWeeklyRepeatDates LocalTZA (Some startDate) weeks !! i
          = Some (HostDate.TimeClip (startDate + 7 * (Z.of_nat i + 1) * msPerDay))).
Proof.
  intros LocalTZA startDate weeks.
  assert (Hi : forall i : nat,
            (i < Z.to_nat weeks)%nat ->
            HostDate.getWeeklyRepeatDates LocalTZA (Some startDate) weeks !! i
            = Some (HostDate.TimeClip
                      (HostDate.UTC LocalTZA
                         (HostDate.LocalTime LocalTZA startDate
                          + 7 * (Z.of_nat i + 1) * msPerDay)))).
  { intros i Hlt. rewrite getWeeklyRepeatDates_local, list_lookup_fmap.
    rewrite lookup_seqZ_lt by lia. cbn [fmap option_fmap option_map].
    do 4 f_equal. lia. }
  split; [intros start; apply getWeeklyRepeatDates_count|]. split; [exact Hi|]. split.
  - intros start Hle. apply nil_length_inv. rewrite getWeeklyRepeatDates_count. lia.
  - intros tz i Hfix Hlt. rewrite (Hi i Hlt).
    rewrite (UTC_fixed LocalTZA tz Hfix), (LocalTime_fixed LocalTZA tz Hfix).
    do 2 f_equal. lia.
Qed.

(** X3 on a UTC host: the second of three weekly dates after 09:00 on
    2024-03-04. *)
Lemma X3_witness :
  HostDate.getWeeklyRepeatDates (fixedOffset 0) (Some Samples.T0900) 3 !! 1%nat
  = Some (HostDate.TimeClip (Samples.T0900 + 7 * (Z.of_nat 1 + 1) * msPerDay)).
Proof.
  destruct (X3_getWeeklyRepeatDates_spacing (fixedOffset 0) Samples.T0900 3)
    as (_ & _ & _ & H).
  apply (H 0 1%nat).
  - intros t isUTC. reflexivity.
  - vm_compute. lia.
Defined.

(** Across the end of daylight saving the next week starts 169 hours
    later: in New York the date one week after 09:30 on 2024-10-28 (13:30Z)
    is 09:30 on 2024-11-04 (14:30Z). *)
Example getWeeklyRepeatDates_across_fall_back :
  HostDate.getWeeklyRepeatDates Samples.newYork2024 (Some 1730122200000) 1
  = [Some 1730730600000].
Proof. vm_compute. reflexivity. Qed.

(** X4: for a month 1..12 of a year outside 0..99, the range of
    [getMonthRange] starts at local midnight of the first day of the month
    moved back by the padding, and ends at local midnight at the start of the
    month's last day moved forward by the padding: the last day itself, after
    its first instant, lies outside the range without padding. *)
Theorem X4_getMonthRange_bounds :
  forall tz year month weeksPadding : Z,
    1 <= month <= 12 ->
    year < 0 \/ 99 < year ->
    getMonthRange tz year month weeksPadding
    = (localMidnight tz (firstDayOfMonth year month - 7 * weeksPadding),
       localMidnight tz (firstDayOfNextMonth year month - 1 + 7 * weeksPadding)).
Proof.
  intros tz year month weeksPadding Hmonth Hyear.
  unfold getMonthRange.
  replace (getDate tz (newDate tz year (month - 1) 1) - weeksPadding * 7)
    with (getDate tz (newDate tz year (month - 1) 1) + (- (weeksPadding * 7))) by lia.
  rewrite !setDate_getDate.
  assert (Hyr : (0 <=? year) && (year <=? 99) = false).
  { destruct (Z.leb_spec 0 year), (Z.leb_spec year 99); cbn [andb]; lia. }
  assert (Hfirst : newDate tz year (month - 1) 1
                   = localMidnight tz (firstDayOfMonth year month)).
  { unfold newDate, localMidnight, firstDayOfMonth, MakeDay. rewrite Hyr.
    replace ((month - 1) / 12) with 0 by (symmetry; apply Z.div_small; lia).
    replace ((month - 1) mod 12 + 1) with month by (rewrite Z.mod_small; lia).
    replace (year + 0) with year by lia. do 2 f_equal. lia. }
  assert (Hlast : newDate tz year month 0
                  = localMidnight tz (firstDayOfNextMonth year month - 1)).
  { unfold newDate, localMidnight, firstDayOfNextMonth, MakeDay. rewrite Hyr.
    destruct (Z.eqb_spec month 12) as [->|Hne].
    - change (12 / 12) with 1. change (12 mod 12 + 1) with 1. do 2 f_equal. lia.
    - replace (month / 12) with 0 by (symmetry; apply Z.div_small; lia).
      replace (month mod 12) with month by (rewrite Z.mod_small; lia).
      replace (year + 0) with year by lia. do 2 f_equal. lia. }
  rewrite Hfirst, Hlast. unfold localMidnight, UTC, MakeDate, msPerDay.
  f_equal; lia.
Qed.

(** X4 for March 2024 with two weeks of padding, on a UTC host. *)
Lemma X4_witness :
  getMonthRange 0 2024 3 2
  = (localMidnight 0 (firstDayOfMonth 2024 3 - 7 * 2),
     localMidnight 0 (firstDayOfNextMonth 2024 3 - 1 + 7 * 2)).
Proof.
  apply (X4_getMonthRange_bounds 0 2024 3 2); lia.
Defined.

Lemma civil_day_bounds z : 1 <= (civil_from_days z).2 <= 31.
Proof.
  unfold civil_from_days. cbn [fst snd].
  set (z' := z + 719468).
  set (era := z' / 146097).
  set (doe := z' - era * 146097).
  assert (Hdoe : 0 <= doe < 146097).
  { subst doe era. pose proof (Z.mod_pos_bound z' 146097 ltac:(lia)) as H.
    rewrite Z.mod_eq in H by lia. lia. }
  set (yoe := (doe - doe / 1460 + doe / 36524 - doe / 146096) / 365).
  set (doy := doe - (365 * yoe + yoe / 4 - yoe / 100)).
  assert (Hdoy : 0 <= doy < 366) by (subst doy yoe; Z.div_mod_to_equations; lia).
  clearbody doy. Z.div_mod_to_equations; lia.
Qed.

Lemma civil_from_days_inj a b : civil_from_days a = civil_from_days b -> a = b.
Proof.
  intros H. destruct (civil_from_days_spec a) as [_ Ha].
  destruct (civil_from_days_spec b) as [_ Hb]. rewrite H in Ha. congruence.
Qed.

(** A property checked on every number of a short range holds on it. *)
Lemma small_range_ind (P : Z -> Prop) (lo : Z) (n : nat) :
  Forall P (seqZ lo (Z.of_nat n)) -> forall k, lo <= k < lo + Z.of_nat n -> P k.
Proof.
  intros HF k Hk. rewrite Forall_forall in HF. apply HF.
  apply elem_of_seqZ. lia.
Qed.

Lemma pad2_length n : 1 <= n <= 31 -> String.length (pad2 n) = 2%nat.
Proof.
  intros Hn.
  apply (small_range_ind (fun n => String.length (pad2 n) = 2%nat) 1 31); [|lia].
  vm_compute. repeat constructor.
Qed.

Lemma pad2_read n : 1 <= n <= 31 -> SampleHost.number (pad2 n) = Some n.
Proof.
  intros Hn.
  apply (small_range_ind (fun n => SampleHost.number (pad2 n) = Some n) 1 31); [|lia].
  vm_compute. repeat constructor.
Qed.

Lemma pad2_inj n m : 1 <= n <= 31 -> 1 <= m <= 31 -> pad2 n = pad2 m -> n = m.
Proof.
  intros Hn Hm H. apply (f_equal SampleHost.number) in H.
  rewrite !pad2_read in H by assumption. congruence.
Qed.

Lemma list_ascii_of_string_inj a b :
  list_ascii_of_string a = list_ascii_of_string b -> a = b.
Proof.
  intros H. apply (f_equal string_of_list_ascii) in H.
  by rewrite !string_of_list_ascii_of_string in H.
Qed.

Lemma length_list_ascii s : length (list_ascii_of_string s) = String.length s.
Proof. induction s; simpl; congruence. Qed.

(** The characters of a date key: the year, then six characters for the
    dash, the month, the dash and the day. *)
Lemma dateKeyOfDay_chars n :
  exists tail,
    list_ascii_of_string (dateKeyOfDay n)
    = list_ascii_of_string (pretty (civil_from_days n).1.1)
      ++ "-"%char :: tail
    /\ length tail = 5%nat.
Proof.
  unfold dateKeyOfDay.
  pose proof (civil_from_days_spec n) as [Hm _].
  pose proof (civil_day_bounds n) as Hd.
  destruct (civil_from_days n) as [[y m] d]. cbn [fst snd] in *.
  change (padStart0 2 (pretty m)) with (pad2 m).
  change (padStart0 2 (pretty d)) with (pad2 d).
  rewrite !list_ascii_of_string_app. eexists. split; [reflexivity|].
  rewrite length_app. cbn [length app list_ascii_of_string].
  rewrite !length_list_ascii, !pad2_length by lia. reflexivity.
Qed.

Lemma dateKeyOfDay_inj a b : dateKeyOfDay a = dateKeyOfDay b -> a = b.
Proof.
  intros H. apply civil_from_days_inj.
  unfold dateKeyOfDay in H.
  pose proof (civil_from_days_spec a) as [Hma _].
  pose proof (civil_from_days_spec b) as [Hmb _].
  pose proof (civil_day_bounds a) as Hda.
  pose proof (civil_day_bounds b) as Hdb.
  destruct (civil_from_days a) as [[ya ma] da].
  destruct (civil_from_days b) as [[yb mb] db]. cbn [fst snd] in *.
  change (padStart0 2 (pretty ma)) with (pad2 ma) in H.
  change (padStart0 2 (pretty mb)) with (pad2 mb) in H.
  change (padStart0 2 (pretty da)) with (pad2 da) in H.
  change (padStart0 2 (pretty db)) with (pad2 db) in H.
  assert (Lma := pad2_length ma ltac:(lia)). assert (Lmb := pad2_length mb ltac:(lia)).
  assert (Lda := pad2_length da Hda). assert (Ldb := pad2_length db Hdb).
  apply (f_equal list_ascii_of_string) in H.
  rewrite !list_ascii_of_string_app in H.
  apply app_inj_2 in H as [Hy H];
    [|rewrite !length_app, !length_list_ascii; simpl; lia].
  apply list_ascii_of_string_inj in Hy. apply (inj pretty) in Hy.
  apply app_inj_1 in H as [_ H]; [|reflexivity].
  apply app_inj_1 in H as [Hm H]; [|rewrite !length_list_ascii; lia].
  apply list_ascii_of_string_inj in Hm. apply pad2_inj in Hm; [|lia|lia].
  apply app_inj_1 in H as [_ Hd]; [|reflexivity].
  apply list_ascii_of_string_inj in Hd. apply pad2_inj in Hd; [|lia|lia].
  congruence.
Qed.

Lemma dateKey_same_day tz a b :
  dateKey tz (Some a) = dateKey tz (Some b)
  <-> Day (LocalTime tz a) = Day (LocalTime tz b).
Proof.
  rewrite !dateKey_dateKeyOfDay. split; [apply dateKeyOfDay_inj | congruence].
Qed.

(** The key of an invalid date is the key of no valid date. *)
Lemma dateKey_valid_not_NaN tz a : dateKey tz (Some a) <> dateKey tz None.
Proof.
  rewrite dateKey_dateKeyOfDay. cbn [dateKey]. intros H.
  apply (f_equal list_ascii_of_string) in H.
  destruct (dateKeyOfDay_chars (Day (LocalTime tz a))) as (tail & Hchars & Hlen).
  rewrite Hchars in H.
  change (list_ascii_of_string "NaN-NaN-NaN")
    with (list_ascii_of_string "NaN-N" ++ list_ascii_of_string "aN-NaN") in H.
  apply app_inj_2 in H as [_ H]; [discriminate H|].
  cbn [length list_ascii_of_string]. rewrite Hlen. reflexivity.
Qed.

(** X5: two valid dates get the same date key exactly when they fall on
    the same local day, and the key of an invalid date is shared with no
    valid date. *)
Theorem X5_dateKey_names_local_day :
  forall tz a b : Z,
    (dateKey tz (Some a) = dateKey tz (Some b)
     <-> Day (LocalTime tz a) = Day (LocalTime tz b))
    /\ dateKey tz (Some a) <> dateKey tz None.
Proof.
  intros tz a b. split; [apply dateKey_same_day | apply dateKey_valid_not_NaN].
Qed.

(** X6: [isToday] holds exactly for the valid dates on the local day of
    the clock read. *)
Theorem X6_isToday_same_local_day :
  forall (tz now : Z) (date : JsDate),
    isToday tz now date = true
    <-> exists t, date = Some t /\ Day (LocalTime tz t) = Day (LocalTime tz now).
Proof.
  intros tz now date. unfold isToday. rewrite String.eqb_eq.
  destruct date as [t|].
  - rewrite dateKey_same_day. split.
    + intros H. exists t. auto.
    + intros (t' & [= <-] & H). exact H.
  - split.
    + intros H. symmetry in H. by apply dateKey_valid_not_NaN in H.
    + intros (t' & Hd & _). discriminate Hd.
Qed.

(** * Further properties of the calendar screen's storage handlers *)

Lemma sublist_filter {A} (f : A -> bool) (l : list A) : sublist (List.filter f l) l.
Proof.
  induction l as [|x l IH]; cbn [List.filter]; [constructor|].
  destruct (f x); by constructor.
Qed.

(** X7: whatever the filters, [loadSessions] returns stored sessions
    only, in the order in which they are stored, and each of them starts
    inside the requested range; an unreadable or absent item gives the empty
    list. *)
Theorem X7_loadSessions_within_range :
  forall (stored : CalendarScreen.StoredItem) (startISO endISO : Z)
         (filters : option SessionFilters.t),
    let result := CalendarScreen.loadSessions stored startISO endISO filters in
    sublist result (match stored with CalendarScreen.Stored l => l | _ => [] end)
    /\ Forall (fun s => startISO <= Session.startISO (Session.fields s) <= endISO) result
    /\ (stored = CalendarScreen.Unreadable \/ stored = CalendarScreen.Absent ->
        result = []).
Proof.
  intros stored startISO endISO filters result. subst result.
  unfold CalendarScreen.loadSessions.
  set (inRange := fun session : Session.t =>
         (startISO <=? Session.startISO (Session.fields session))
         && (Session.startISO (Session.fields session) <=? endISO)).
  assert (Hrange : forall l, Forall (fun s =>
            startISO <= Session.startISO (Session.fields s) <= endISO)
            (List.filter inRange l)).
  { intros l. apply Forall_forall. intros s Hs.
    apply list_elem_of_In, filter_In in Hs as [_ Hs]. subst inRange. cbn in Hs.
    apply andb_true_iff in Hs as [H1 H2]. apply Z.leb_le in H1, H2. lia. }
  assert (Hsub : forall (f : Session.t -> bool) l,
            Forall (fun s => startISO <= Session.startISO (Session.fields s) <= endISO)
              (List.filter f (List.filter inRange l))).
  { intros f l. apply Forall_forall. intros s Hs.
    apply list_elem_of_In, filter_In in Hs as [Hs _]. apply list_elem_of_In in Hs.
    revert s Hs. apply Forall_forall, Hrange. }
  destruct stored as [| |l].
  - split; [constructor|]. split; [constructor|]. reflexivity.
  - cbn [List.filter].
    assert (Hnil : (if (0 <? length (default [] (filters ≫= SessionFilters.status)))%nat
                    then @nil Session.t
                    else if truthy (filters ≫= SessionFilters.clientId)
                         then [] else []) = [])
      by (destruct (0 <? length _)%nat; [|destruct (truthy _)]; reflexivity).
    cbv zeta. rewrite Hnil. split; [constructor|]. split; [constructor|]. reflexivity.
  - cbv zeta. fold inRange. split; [|split].
    + destruct (0 <? length _)%nat; [|destruct (truthy _)];
        repeat (etrans; [apply sublist_filter|]); reflexivity.
    + destruct (0 <? length _)%nat; [|destruct (truthy _)]; auto.
    + intros [H|H]; discriminate H.
Qed.

(** X8: with no status filter in force and a client filter given,
    [loadSessions] returns exactly the stored sessions of that client that
    start inside the range. *)
Theorem X8_loadSessions_client_filter :
  forall (l : list Session.t) (startISO endISO : Z)
         (statuses : option (list Status)) (cid : string) (s : Session.t),
    statuses = None \/ statuses = Some [] ->
    cid <> ""%string ->
    s ∈ CalendarScreen.loadSessions (CalendarScreen.Stored l) startISO endISO
          (Some {| SessionFilters.status := statuses;
                   SessionFilters.clientId := Some cid |})
    <-> s ∈ l
        /\ startISO <= Session.startISO (Session.fields s) <= endISO
        /\ Session.clientId (Session.fields s) = cid.
Proof.
  intros l startISO endISO statuses cid s Hstatus Hcid.
  unfold CalendarScreen.loadSessions. cbn [mbind option_bind SessionFilters.status
    SessionFilters.clientId].
  replace (0 <? length (default [] statuses))%nat with false
    by (destruct Hstatus as [-> | ->]; reflexivity).
  replace (truthy (Some cid)) with true
    by (cbn; destruct (String.eqb_spec cid ""); [contradiction|reflexivity]).
  rewrite !list_elem_of_In, !filter_In, bool_decide_eq_true, andb_true_iff, !Z.leb_le.
  split.
  - intros [[Hin [H1 H2]] [= Hc]]. auto.
  - intros (Hin & [H1 H2] & Hc). subst cid. auto.
Qed.

(** X8 at one stored session of client [c1]. *)
Lemma X8_witness :
  Samples.booked0900
  ∈ CalendarScreen.loadSessions (CalendarScreen.Stored [Samples.booked0900])
      Samples.T0900 Samples.T1030
      (Some {| SessionFilters.status := None; SessionFilters.clientId := Some "c1"%string |})
  <-> Samples.booked0900 ∈ [Samples.booked0900]
      /\ Samples.T0900 <= Session.startISO (Session.fields Samples.booked0900)
         <= Samples.T1030
      /\ Session.clientId (Session.fields Samples.booked0900) = "c1"%string.
Proof.
  apply (X8_loadSessions_client_filter [Samples.booked0900] Samples.T0900 Samples.T1030
           None "c1" Samples.booked0900).
  - left. reflexivity.
  - discriminate.
Defined.

Lemma imap_lookup_session (newId : nat -> string) (l : list Session.data) i :
  imap (fun i d => {| Session.id := newId i; Session.fields := d |}) l !! i
  = (fun d => {| Session.id := newId i; Session.fields := d |}) <$> l !! i.
Proof. rewrite list_lookup_imap. reflexivity. Qed.

(** X9: the screen's [handleCreateSession] keeps every session it had, in
    place, and appends one session per element handed over, in order, with
    the generated id and otherwise unchanged fields; the new list is what is
    written, and when the write fails the handler rejects although the
    screen's list already holds the new sessions. *)
Theorem X9_screen_create_appends :
  forall (sessions : list Session.t) (newId : nat -> string) (writeOk : bool)
         (sessionData : CreateArg),
    let batch := match sessionData with Single d => [d] | Batch l => l end in
    let result := CalendarScreen.handleCreateSession sessions newId writeOk sessionData in
    let updated := result.1.1 in
    (forall i s, sessions !! i = Some s -> updated !! i = Some s)
    /\ length updated = (length sessions + length batch)%nat
    /\ (forall i d, batch !! i = Some d ->
          updated !! (length sessions + i)%nat
          = Some {| Session.id := newId i; Session.fields := d |})
    /\ result.1.2 = (if writeOk then Some updated else None)
    /\ result.2 = writeOk.
Proof.
  intros sessions newId writeOk sessionData batch result updated.
  subst updated result. unfold CalendarScreen.handleCreateSession. cbn [fst snd].
  fold batch. split; [|split; [|split; [|split]]].
  - intros i s Hs. by apply lookup_app_l_Some.
  - by rewrite length_app, length_imap.
  - intros i d Hd. rewrite lookup_app_r by lia.
    replace (length sessions + i - length sessions)%nat with i by lia.
    rewrite imap_lookup_session, Hd. reflexivity.
  - reflexivity.
  - reflexivity.
Qed.

(** X10: what [handleCreateSession] stores can be read back: a later
    [loadSessions] without filters returns, for every session handed over
    that starts inside the range, a stored session with those fields. *)
Theorem X10_screen_create_then_load :
  forall (sessions : list Session.t) (newId : nat -> string) (sessionData : CreateArg)
         (startISO endISO : Z) (d : Session.data),
    d ∈ (match sessionData with Single d => [d] | Batch l => l end) ->
    startISO <= Session.startISO d <= endISO ->
    exists written s,
      (CalendarScreen.handleCreateSession sessions newId true sessionData).1.2
      = Some written
      /\ s ∈ CalendarScreen.loadSessions (CalendarScreen.Stored written)
               startISO endISO None
      /\ Session.fields s = d.
Proof.
  intros sessions newId sessionData startISO endISO d Hd Hrange.
  unfold CalendarScreen.handleCreateSession. cbn [fst snd].
  set (batch := match sessionData with Single d => [d] | Batch l => l end) in *.
  apply list_elem_of_lookup in Hd as [i Hi].
  eexists. exists {| Session.id := newId i; Session.fields := d |}.
  split; [reflexivity|]. split; [|reflexivity].
  unfold CalendarScreen.loadSessions. cbn [mbind option_bind default length Nat.ltb Nat.leb truthy].
  apply list_elem_of_In, filter_In. split.
  - apply list_elem_of_In, elem_of_app. right.
    apply list_elem_of_lookup. exists i. rewrite imap_lookup_session, Hi. reflexivity.
  - cbn [Session.fields Session.startISO]. apply andb_true_iff.
    split; apply Z.leb_le; lia.
Qed.

(** X10 for one session stored into an empty list. *)
Lemma X10_witness :
  exists written s,
    (CalendarScreen.handleCreateSession [] pretty true
       (Single (Session.fields Samples.booked0900))).1.2 = Some written
    /\ s ∈ CalendarScreen.loadSessions (CalendarScreen.Stored written)
             Samples.T0900 Samples.T1030 None
    /\ Session.fields s = Session.fields Samples.booked0900.
Proof.
  apply (X10_screen_create_then_load [] pretty
           (Single (Session.fields Samples.booked0900)) Samples.T0900 Samples.T1030).
  - apply list_elem_of_singleton. reflexivity.
  - vm_compute. split; discriminate.
Defined.

(** X11: [handleEditSession] replaces, in place, every session that has
    the id of the edited one and touches no other; the list keeps its length,
    and when no session has that id the edit changes nothing (the edited
    session is not added). *)
Theorem X11_screen_edit_replaces_by_id :
  forall (sessions : list Session.t) (writeOk : bool) (updatedSession : Session.t),
    let updated := (CalendarScreen.handleEditSession sessions writeOk updatedSession).1.1 in
    length updated = length sessions
    /\ (forall i s, sessions !! i = Some s ->
          updated !! i
          = Some (if String.eqb (Session.id s) (Session.id updatedSession)
                  then updatedSession else s))
    /\ (Forall (fun s => Session.id s <> Session.id updatedSession) sessions ->
        updated = sessions)
    /\ (CalendarScreen.handleEditSession updated writeOk updatedSession).1.1 = updated.
Proof.
  intros sessions writeOk updatedSession updated. subst updated.
  unfold CalendarScreen.handleEditSession. cbn [fst snd].
  split; [apply length_fmap|]. split; [|split].
  - intros i s Hs. by rewrite list_lookup_fmap, Hs.
  - intros Hnone. induction Hnone as [|s l Hs _ IH]; [reflexivity|].
    cbn [fmap list_fmap]. fold (@fmap list _ _ _
      (fun s => if String.eqb (Session.id s) (Session.id updatedSession)
                then updatedSession else s) l).
    rewrite IH. destruct (String.eqb_spec (Session.id s) (Session.id updatedSession));
      [contradiction|reflexivity].
  - rewrite <- list_fmap_compose. apply list_fmap_ext. intros _ s _. cbn.
    destruct (String.eqb_spec (Session.id s) (Session.id updatedSession)) as [He|Hne].
    + by rewrite String.eqb_refl.
    + by destruct (String.eqb_spec (Session.id s) (Session.id updatedSession)).
Qed.

(** X12: after [handleDeleteSession] no session with the given id is
    left, every other session is kept in its order, a list without that id is
    returned unchanged, and deleting again changes nothing. *)
Theorem X12_screen_delete_removes_id :
  forall (sessions : list Session.t) (writeOk : bool) (sessionId : string),
    let updated := (CalendarScreen.handleDeleteSession sessions writeOk sessionId).1.1 in
    Forall (fun s => Session.id s <> sessionId) updated
    /\ sublist updated sessions
    /\ (forall s, s ∈ sessions -> Session.id s <> sessionId -> s ∈ updated)
    /\ (Forall (fun s => Session.id s <> sessionId) sessions -> updated = sessions)
    /\ (CalendarScreen.handleDeleteSession updated writeOk sessionId).1.1 = updated.
Proof.
  intros sessions writeOk sessionId updated. subst updated.
  unfold CalendarScreen.handleDeleteSession. cbn [fst snd].
  set (keep := fun s : Session.t => negb (String.eqb (Session.id s) sessionId)).
  assert (Hkeep : forall s, keep s = true <-> Session.id s <> sessionId).
  { intros s. subst keep. cbn. rewrite negb_true_iff.
    destruct (String.eqb_spec (Session.id s) sessionId); split; congruence. }
  assert (Hid : forall l, Forall (fun s => Session.id s <> sessionId) l ->
                  List.filter keep l = l).
  { intros l Hl. induction Hl as [|s l Hs _ IH]; [reflexivity|].
    cbn [List.filter]. apply Hkeep in Hs. rewrite Hs, IH. reflexivity. }
  assert (Hall : Forall (fun s => Session.id s <> sessionId) (List.filter keep sessions)).
  { apply Forall_forall. intros s Hs.
    apply list_elem_of_In, filter_In in Hs as [_ Hs]. by apply Hkeep. }
  split; [exact Hall|]. split; [apply sublist_filter|]. split; [|split].
  - intros s Hin Hne. apply list_elem_of_In, filter_In. split.
    + by apply list_elem_of_In.
    + by apply Hkeep.
  - apply Hid.
  - apply Hid. exact Hall.
Qed.

(** * The session tracking tab *)

Lemma is_space2_lead a b :
  Calendar.is_space2 a b = true -> nat_of_ascii a = 194%nat.
Proof.
  unfold Calendar.is_space2. rewrite andb_true_iff, !Nat.eqb_eq. tauto.
Qed.

Lemma is_space3_lead a b c :
  Calendar.is_space3 a b c = true -> (225 <= nat_of_ascii a)%nat.
Proof.
  unfold Calendar.is_space3. cbv zeta.
  repeat first [rewrite orb_true_iff | rewrite andb_true_iff].
  rewrite !Nat.eqb_eq. tauto || lia.
Qed.

Lemma is_space_of_lead a : (194 <= nat_of_ascii a)%nat -> Calendar.is_space a = false.
Proof.
  intros Ha. unfold Calendar.is_space. cbv zeta.
  rewrite orb_false_iff, andb_false_iff, !Nat.leb_gt, Nat.eqb_neq. lia.
Qed.

Lemma is_space2_of_lead a b : (225 <= nat_of_ascii a)%nat -> Calendar.is_space2 a b = false.
Proof.
  intros Ha. unfold Calendar.is_space2.
  rewrite andb_false_iff, !Nat.eqb_neq. lia.
Qed.

(** [trimStart] removes a prefix of white space. *)
Lemma ltrim_blank_app a r : blank a -> Calendar.ltrim (a +:+ r) = Calendar.ltrim r.
Proof.
  induction 1 as [|x a Hx _ IH|x y a Hxy _ IH|x y z a Hxyz _ IH]; [reflexivity|..].
  - change (String x a +:+ r) with (String x (a +:+ r)).
    cbn [Calendar.ltrim]. by rewrite Hx.
  - change (String x (String y a) +:+ r) with (String x (String y (a +:+ r))).
    cbn [Calendar.ltrim].
    rewrite (is_space_of_lead x) by (rewrite (is_space2_lead x y Hxy); lia).
    by rewrite Hxy.
  - change (String x (String y (String z a)) +:+ r)
      with (String x (String y (String z (a +:+ r)))).
    cbn [Calendar.ltrim]. pose proof (is_space3_lead x y z Hxyz) as Hlead.
    rewrite (is_space_of_lead x) by lia.
    rewrite (is_space2_of_lead x y) by lia.
    by rewrite Hxyz.
Qed.

Lemma append_empty_r s : (s +:+ "")%string = s.
Proof.
  induction s as [|c s IH]; [reflexivity|].
  change (String c s +:+ "")%string with (String c (s +:+ "")). by rewrite IH.
Qed.

Lemma trim_blank s : blank s -> Calendar.trim s = ""%string.
Proof.
  intros Hs. unfold Calendar.trim. rewrite <- (append_empty_r s).
  rewrite ltrim_blank_app by assumption. reflexivity.
Qed.

Lemma blank_app a b : blank a -> blank b -> blank (a +:+ b).
Proof.
  intros Ha Hb. induction Ha; [exact Hb|..]; cbn; by constructor.
Qed.

(** X13: [getFullName] never returns the empty text.  A display name
    that is not empty is shown as it is, also when it is white space only;
    without one, a client whose first and last name are missing, empty or
    white space only is shown as [Unnamed Client]. *)
Theorem X13_getFullName_never_empty :
  forall client : Client.t,
    SessionsTab.getFullName client <> ""%string
    /\ (forall name,
          Client.displayName client = Some name -> name <> ""%string ->
          SessionsTab.getFullName client = name)
    /\ (truthy (Client.displayName client) = false ->
        blank (or_else (Client.firstName client) "") ->
        blank (or_else (Client.lastName client) "") ->
        SessionsTab.getFullName client = "Unnamed Client"%string).
Proof.
  intros client. unfold SessionsTab.getFullName.
  set (first := or_else (Client.firstName client) "").
  set (last := or_else (Client.lastName client) "").
  split; [|split].
  - generalize (Calendar.trim (first +:+ " " +:+ last)). intros name.
    destruct (Client.displayName client) as [dn|]; cbn [truthy or_else].
    + destruct (String.eqb_spec dn "") as [->|Hne]; cbn [negb].
      * destruct (String.eqb_spec name ""); [discriminate|assumption].
      * assumption.
    + destruct (String.eqb_spec name ""); [discriminate|assumption].
  - intros name -> Hne. cbn [truthy or_else].
    destruct (String.eqb_spec name ""); [contradiction|reflexivity].
  - intros -> Hfirst Hlast.
    rewrite trim_blank; [reflexivity|].
    apply blank_app; [exact Hfirst|].
    apply (blank_1 " "%char); [reflexivity | exact Hlast].
Qed.

(** A first name that is a no-break space (U+00A0) is white space. *)
Example getFullName_no_break_space :
  SessionsTab.getFullName
    {| Client.id := "7"; Client.displayName := None;
       Client.firstName := Some (String (ascii_of_nat 194) (String (ascii_of_nat 160) ""));
       Client.lastName := None |}
  = "Unnamed Client"%string.
Proof. vm_compute. reflexivity. Qed.

(** * Further properties of the calendar component *)

Section SortFacts.
Context {A : Type} (key : A -> Z).

Lemma insertByKey_Permutation x l : Calendar.insertByKey key x l ≡ₚ x :: l.
Proof.
  induction l as [|y ys IH]; cbn [Calendar.insertByKey]; [reflexivity|].
  destruct (key x <=? key y); [reflexivity|].
  rewrite IH. apply Permutation_swap.
Qed.

Lemma sortByKey_Permutation l : Calendar.sortByKey key l ≡ₚ l.
Proof.
  induction l as [|x xs IH]; cbn [Calendar.sortByKey]; [reflexivity|].
  by rewrite insertByKey_Permutation, IH.
Qed.

Lemma insertByKey_sorted x l :
  StronglySorted (fun a b => key a <= key b) l ->
  StronglySorted (fun a b => key a <= key b) (Calendar.insertByKey key x l).
Proof.
  induction 1 as [|y ys Hs IH Hy]; cbn [Calendar.insertByKey].
  - repeat constructor.
  - destruct (Z.leb_spec (key x) (key y)) as [Hle|Hgt].
    + constructor; [by constructor|]. constructor; [exact Hle|].
      eapply Forall_impl; [exact Hy|]. cbn. intros z Hz. lia.
    + constructor; [exact IH|].
      rewrite insertByKey_Permutation. constructor; [lia | exact Hy].
Qed.

Lemma sortByKey_sorted l :
  StronglySorted (fun a b => key a <= key b) (Calendar.sortByKey key l).
Proof.
  induction l as [|x xs IH]; cbn [Calendar.sortByKey]; [constructor|].
  by apply insertByKey_sorted.
Qed.

(** Elements with one and the same key keep their order. *)
Lemma insertByKey_stable v x l :
  StronglySorted (fun a b => key a <= key b) l ->
  List.filter (fun a => key a =? v) (Calendar.insertByKey key x l)
  = List.filter (fun a => key a =? v) (x :: l).
Proof.
  induction 1 as [|y ys Hs IH Hy]; cbn [Calendar.insertByKey]; [reflexivity|].
  destruct (Z.leb_spec (key x) (key y)) as [Hle|Hgt]; [reflexivity|].
  cbn [List.filter] in *. rewrite IH.
  destruct (Z.eqb_spec (key x) v) as [Hx|Hx], (Z.eqb_spec (key y) v) as [Hy'|Hy'];
    try reflexivity. lia.
Qed.

Lemma sortByKey_stable v l :
  List.filter (fun a => key a =? v) (Calendar.sortByKey key l)
  = List.filter (fun a => key a =? v) l.
Proof.
  induction l as [|x xs IH]; cbn [Calendar.sortByKey]; [reflexivity|].
  rewrite insertByKey_stable by apply sortByKey_sorted.
  cbn [List.filter]. by rewrite IH.
Qed.
End SortFacts.

(** X14: the agenda of the selected day holds exactly the sessions of
    that day's bucket (none when no date is selected or the date has no
    bucket), in ascending order of their start, sessions with the same start
    in the order of the bucket. *)
Theorem X14_selectedSessions_sorted :
  forall (selectedDate : string) (byDate : gmap string (list Session.t)),
    let agenda := Calendar.selectedSessions selectedDate byDate in
    let source := if String.eqb selectedDate "" then [] else bucket byDate selectedDate in
    agenda ≡ₚ source
    /\ StronglySorted (fun a b => startOf a <= startOf b) agenda
    /\ (forall v, List.filter (fun a => startOf a =? v) agenda
                  = List.filter (fun a => startOf a =? v) source).
Proof.
  intros selectedDate byDate agenda source. subst agenda source.
  unfold Calendar.selectedSessions, bucket.
  destruct (String.eqb selectedDate "").
  - split; [reflexivity|]. split; [constructor|]. reflexivity.
  - split; [apply sortByKey_Permutation|].
    split; [apply (sortByKey_sorted startOf)|].
    intros v. apply (sortByKey_stable startOf).
Qed.

(** The dots of [markedDates]: after the loop over the buckets, a date
    with sessions carries the dot on top of what it carried before, and every
    other date is as it was. *)
Lemma markedDates_fold_lookup (init : gmap string Calendar.MarkedDate.t)
    (byDate : gmap string (list Session.t)) (key : string) :
  map_fold (fun date sessions (marked : gmap string Calendar.MarkedDate.t) =>
              if (0 <? length sessions)%nat then
                let old := default Calendar.MarkedDate.empty (marked !! date) in
                <[date :=
                    {| Calendar.MarkedDate.selected := Calendar.MarkedDate.selected old;
                       Calendar.MarkedDate.marked := Some true;
                       Calendar.MarkedDate.selectedColor := Calendar.MarkedDate.selectedColor old;
                       Calendar.MarkedDate.dotColor := Some "#4CAF50"%string;
                       Calendar.MarkedDate.today := Calendar.MarkedDate.today old |}]> marked
              else marked)
           init byDate !! key
  = match byDate !! key with
    | Some (_ :: _) =>
        let old := default Calendar.MarkedDate.empty (init !! key) in
        Some {| Calendar.MarkedDate.selected := Calendar.MarkedDate.selected old;
                Calendar.MarkedDate.marked := Some true;
                Calendar.MarkedDate.selectedColor := Calendar.MarkedDate.selectedColor old;
                Calendar.MarkedDate.dotColor := Some "#4CAF50"%string;
                Calendar.MarkedDate.today := Calendar.MarkedDate.today old |}
    | _ => init !! key
    end.
Proof.
  revert key.
  apply (map_fold_weak_ind (fun (r : gmap string Calendar.MarkedDate.t) m => forall key,
    r !! key = match m !! key with
               | Some (_ :: _) =>
                   let old := default Calendar.MarkedDate.empty (init !! key) in
                   Some {| Calendar.MarkedDate.selected := Calendar.MarkedDate.selected old;
                           Calendar.MarkedDate.marked := Some true;
                           Calendar.MarkedDate.selectedColor := Calendar.MarkedDate.selectedColor old;
                           Calendar.MarkedDate.dotColor := Some "#4CAF50"%string;
                           Calendar.MarkedDate.today := Calendar.MarkedDate.today old |}
               | _ => init !! key
               end)).
  - intros key. by rewrite lookup_empty.
  - intros i x m r Hi IH key.
    destruct (decide (i = key)) as [->|Hne].
    + rewrite lookup_insert_eq. pose proof (IH key) as Hr. rewrite Hi in Hr.
      destruct x as [|s l]; cbn [length Nat.ltb Nat.leb]; [exact Hr|].
      rewrite lookup_insert_eq, Hr. reflexivity.
    + rewrite (lookup_insert_ne m) by exact Hne.
      destruct (0 <? length x)%nat; [rewrite lookup_insert_ne by exact Hne|]; apply IH.
Qed.

(** X15: in [markedDates] the three marks are independent of each
    other: a date carries the dot exactly when its bucket holds a session, is
    marked selected exactly when it is the (non-empty) selected date, and is
    marked as today exactly when it is today; a date with none of the three
    has no entry. *)
Theorem X15_markedDates_flags :
  forall (today selectedDate : string) (byDate : gmap string (list Session.t))
         (key : string),
    let entry := Calendar.markedDates today selectedDate byDate !! key in
    (entry ≫= Calendar.MarkedDate.marked = Some true <-> bucket byDate key <> [])
    /\ (entry ≫= Calendar.MarkedDate.selected = Some true
        <-> selectedDate <> ""%string /\ key = selectedDate)
    /\ (entry ≫= Calendar.MarkedDate.today = Some true <-> key = today)
    /\ (entry = None
        <-> bucket byDate key = [] /\ key <> today
            /\ (selectedDate = ""%string \/ key <> selectedDate)).
Proof.
  intros today selectedDate byDate key entry. subst entry.
  unfold Calendar.markedDates. rewrite markedDates_fold_lookup. unfold bucket.
  set (todayMark := {| Calendar.MarkedDate.selected := None; Calendar.MarkedDate.marked := None;
                       Calendar.MarkedDate.selectedColor := None; Calendar.MarkedDate.dotColor := None;
                       Calendar.MarkedDate.today := Some true |}).
  assert (Hinit : forall k,
    (if String.eqb selectedDate "" then ({[today := todayMark]} : gmap string Calendar.MarkedDate.t)
     else <[selectedDate :=
              {| Calendar.MarkedDate.selected := Some true;
                 Calendar.MarkedDate.marked :=
                   Calendar.MarkedDate.marked
                     (default Calendar.MarkedDate.empty
                        (({[today := todayMark]} : gmap string Calendar.MarkedDate.t) !! selectedDate));
                 Calendar.MarkedDate.selectedColor := Some "#2196F3"%string;
                 Calendar.MarkedDate.dotColor :=
                   Calendar.MarkedDate.dotColor
                     (default Calendar.MarkedDate.empty
                        (({[today := todayMark]} : gmap string Calendar.MarkedDate.t) !! selectedDate));
                 Calendar.MarkedDate.today :=
                   Calendar.MarkedDate.today
                     (default Calendar.MarkedDate.empty
                        (({[today := todayMark]} : gmap string Calendar.MarkedDate.t) !! selectedDate))
              |}]> {[today := todayMark]}) !! k
    = if bool_decide (selectedDate <> ""%string /\ k = selectedDate) then
        Some {| Calendar.MarkedDate.selected := Some true; Calendar.MarkedDate.marked := None;
                Calendar.MarkedDate.selectedColor := Some "#2196F3"%string;
                Calendar.MarkedDate.dotColor := None;
                Calendar.MarkedDate.today := if bool_decide (k = today) then Some true else None |}
      else if bool_decide (k = today) then Some todayMark else None).
  { intros k. destruct (String.eqb_spec selectedDate "") as [Hs|Hs].
    - rewrite bool_decide_eq_false_2 by tauto.
      destruct (decide (k = today)) as [->|Hk].
      + rewrite lookup_singleton_eq. by rewrite bool_decide_eq_true_2.
      + rewrite lookup_singleton_ne by congruence. by rewrite bool_decide_eq_false_2.
    - destruct (decide (k = selectedDate)) as [->|Hk].
      + rewrite lookup_insert_eq, bool_decide_eq_true_2 by tauto. f_equal.
        destruct (decide (selectedDate = today)) as [->|Hne].
        * rewrite lookup_singleton_eq. by rewrite bool_decide_eq_true_2.
        * rewrite lookup_singleton_ne by congruence. by rewrite bool_decide_eq_false_2.
      + rewrite lookup_insert_ne by congruence.
        rewrite (bool_decide_eq_false_2 (_ /\ _)) by tauto.
        destruct (decide (k = today)) as [->|Hk'].
        * rewrite lookup_singleton_eq. by rewrite bool_decide_eq_true_2.
        * rewrite lookup_singleton_ne by congruence. by rewrite bool_decide_eq_false_2. }
  cbv zeta. fold todayMark. rewrite Hinit. clear Hinit.
  destruct (decide (selectedDate = ""%string)) as [Hsel|Hsel],
           (decide (key = selectedDate)) as [Hkey|Hkey];
    destruct (byDate !! key) as [[|s l]|]; cbn [default from_option id];
    repeat case_bool_decide; subst todayMark; cbn;
    repeat split; intros; try discriminate; try congruence; try tauto;
    try (exfalso; tauto);
    try (match goal with H : _ = [] /\ _ |- _ => destruct H as [H _]; discriminate H end).
Qed.

(** X16: [checkConflicts] reports exactly the sessions of the bucket of
    the candidate start's local day that overlap the candidate and do not
    carry the excluded id; sessions kept under any other date key are never
    reported, and with an invalid start or end nothing is reported. *)
Theorem X16_checkConflicts_scope :
  forall (tz : Z) (byDate : gmap string (list Session.t)) (startDate endDate : Z)
         (excludeId : option string) (s : Session.t),
    (s ∈ Calendar.checkConflicts tz byDate (Some startDate) (Some endDate) excludeId
     <-> s ∈ bucket byDate (dateKey tz (Some startDate))
         /\ Some (Session.id s) <> excludeId
         /\ startDate < Session.endISO (Session.fields s)
         /\ Session.startISO (Session.fields s) < endDate)
    /\ (forall other : JsDate,
          Calendar.checkConflicts tz byDate None other excludeId = []
          /\ Calendar.checkConflicts tz byDate other None excludeId = []).
Proof.
  intros tz byDate startDate endDate excludeId s. split.
  - unfold Calendar.checkConflicts, bucket, dateRangesOverlap, toLocal.
    rewrite !list_elem_of_In, filter_In. cbn [date_lt].
    case_bool_decide as Hex.
    + split; [intros [_ H]; discriminate H | tauto].
    + rewrite andb_true_iff, !Z.ltb_lt. tauto.
  - intros other.
    assert (Hnone : forall (f : Session.t -> bool) l,
              (forall x, f x = false) -> List.filter f l = []).
    { intros f l Hf. induction l as [|x l IH]; cbn [List.filter]; [reflexivity|].
      by rewrite Hf. }
    unfold Calendar.checkConflicts. split; apply Hnone; intros x;
      case_bool_decide; try reflexivity; unfold dateRangesOverlap, toLocal.
    destruct other; cbn [date_lt]; [apply andb_false_r | reflexivity].
Qed.

Lemma filter_all_false {A} (f : A -> bool) (l : list A) :
  (forall x, f x = false) -> List.filter f l = [].
Proof.
  intros Hf. induction l as [|x l IH]; cbn [List.filter]; [reflexivity|].
  by rewrite Hf.
Qed.

Lemma checkConflicts_invalid tz byDate (startDate endDate : JsDate) excludeId :
  startDate = None \/ endDate = None ->
  Calendar.checkConflicts tz byDate startDate endDate excludeId = [].
Proof.
  intros Hinv. unfold Calendar.checkConflicts. apply filter_all_false. intros x.
  case_bool_decide; [reflexivity|]. unfold dateRangesOverlap, toLocal.
  destruct Hinv as [-> | ->]; [reflexivity|].
  destruct startDate; cbn [date_lt]; [apply andb_false_r | reflexivity].
Qed.

(** X17: a form whose date or time text cannot be read passes the two
    validations (no comparison with an invalid date holds), finds no
    conflict, and ends in the alert that creating the session failed; no
    [onCreateSession] call follows from it. *)
Theorem X17_unreadable_text_fails_late :
  forall (tz : Z) (parseDate : string -> JsDate) (parseTime : string -> option (Z * Z))
         (form : Calendar.CreateSessionFormData.t) (clients : list Client.t)
         (byDate : gmap string (list Session.t)) (readOnly : bool) (now : Z),
    Calendar.CreateSessionFormData.clientId form <> ""%string ->
    Calendar.startDateOf tz parseDate parseTime form = None
    \/ Calendar.endDateOf tz parseDate parseTime form = None ->
    let outcome :=
      Calendar.handleCreateSession tz parseDate parseTime true form clients byDate
        readOnly now in
    let failed := Calendar.ShowAlert "Error" "Failed to create session" [] in
    Calendar.proceedWithCreate tz parseDate parseTime form clients byDate = failed
    /\ (outcome = failed
        \/ outcome = Calendar.ShowAlert "Warning" "This session is in the past. Continue?"
                       [Calendar.button "Cancel" Calendar.Returns;
                        Calendar.button "Continue" failed])
    /\ Calendar.creates outcome = [].
Proof.
  intros tz parseDate parseTime form clients byDate readOnly now Hclient Hinv
    outcome failed.
  assert (Hcreate : Calendar.createSessions tz parseDate parseTime form clients = failed).
  { unfold Calendar.createSessions, toUTCISO.
    destruct Hinv as [-> | ->]; [reflexivity|].
    destruct (Calendar.startDateOf tz parseDate parseTime form); reflexivity. }
  assert (Hproceed :
    Calendar.proceedWithCreate tz parseDate parseTime form clients byDate = failed).
  { unfold Calendar.proceedWithCreate.
    rewrite checkConflicts_invalid by exact Hinv. exact Hcreate. }
  assert (Hge : date_ge (Calendar.startDateOf tz parseDate parseTime form)
                  (Calendar.endDateOf tz parseDate parseTime form) = false).
  { destruct Hinv as [-> | ->]; [reflexivity|].
    destruct (Calendar.startDateOf tz parseDate parseTime form); reflexivity. }
  split; [exact Hproceed|].
  subst outcome. unfold Calendar.handleCreateSession. cbn [negb].
  destruct (String.eqb_spec (Calendar.CreateSessionFormData.clientId form) "");
    [contradiction|].
  rewrite Hge, Hproceed.
  destruct (isPast now _ && negb readOnly); split; auto.
Qed.

(** X17 at a form whose date text is no date. *)
Lemma X17_witness :
  let form := Samples.mkForm "c1" "next monday" "09:30" "10:30" false 1 in
  Calendar.creates
    (Calendar.handleCreateSession 0 SampleHost.parseDate SampleHost.parseTime true
       form [] ∅ false 0) = [].
Proof.
  apply (X17_unreadable_text_fails_late 0 SampleHost.parseDate SampleHost.parseTime
           (Samples.mkForm "c1" "next monday" "09:30" "10:30" false 1) [] ∅ false 0).
  - discriminate.
  - left. vm_compute. reflexivity.
Defined.

(** On a host whose offset never changes, one hour later the local clock
    shows the next hour, or 0 after 23, and the same minute. *)
Lemma clock_after_an_hour LocalTZA tz d :
  (forall t isUTC, LocalTZA t isUTC = tz) ->
  HostDate.getHours LocalTZA (d + 3600000) = (HostDate.getHours LocalTZA d + 1) mod 24
  /\ HostDate.getMinutes LocalTZA (d + 3600000) = HostDate.getMinutes LocalTZA d.
Proof.
  intros Hfix. unfold HostDate.getHours, HostDate.getMinutes.
  rewrite !(LocalTime_fixed LocalTZA tz Hfix).
  unfold HourFromTime, MinFromTime, msPerMinute, msPerHour.
  replace (d + 3600000 + tz) with (d + tz + 3600000) by lia.
  generalize (d + tz). intros T. split; Z.div_mod_to_equations; lia.
Qed.

Lemma setHours_local tz t h m :
  setHours tz t h m 0 0
  = Day (LocalTime tz t) * msPerDay + h * msPerHour + m * msPerMinute - tz.
Proof. unfold setHours, UTC, MakeDate, MakeTime. lia. Qed.

(** X18: on a host whose offset from UTC never changes, with the clock
    more than two hours inside the range of time values, the form that
    [resetCreateForm] fills in, once a client is picked and its texts are
    read back as the numbers they print, describes a session of exactly one
    hour when the rounded start hour is before 23; when that hour is 23 the
    end text names an hour after midnight of the same date, and saving is
    refused with the alert that the end must be after the start. *)
Theorem X18_default_form_wraps_at_23 :
  forall (LocalTZA : Z -> bool -> Z) (tz : Z)
         (parseDate : string -> JsDate) (parseTime : string -> option (Z * Z))
         (now : Z) (selectedDate cid : string) (clients : list Client.t)
         (byDate : gmap string (list Session.t)) (readOnly : bool) (clock t rounded : Z),
    let form :=
      Calendar.pickClient (Calendar.resetCreateForm LocalTZA now selectedDate) cid in
    let hour := HostDate.getHours LocalTZA rounded in
    let minute := HostDate.getMinutes LocalTZA rounded in
    (forall t isUTC, LocalTZA t isUTC = tz) ->
    Z.abs now + 2 * msPerHour <= HostDate.maxTime ->
    HostDate.nearestHalfHour LocalTZA (Some now) = Some rounded ->
    cid <> ""%string ->
    parseDate selectedDate = Some t ->
    parseTime (Calendar.clockText hour minute) = Some (hour, minute) ->
    parseTime (Calendar.clockText ((hour + 1) mod 24) minute)
    = Some ((hour + 1) mod 24, minute) ->
    (hour < 23 ->
       exists s, Calendar.startDateOf tz parseDate parseTime form = Some s
                 /\ Calendar.endDateOf tz parseDate parseTime form = Some (s + 3600000))
    /\ (hour = 23 ->
          Calendar.handleCreateSession tz parseDate parseTime true form clients byDate
            readOnly clock
          = Calendar.ShowAlert "Error" "End time must be after start time" []).
Proof.
  intros LocalTZA tz parseDate parseTime now selectedDate cid clients byDate readOnly
    clock t rounded form hour minute Hfix Hnow Hround Hcid Hdate Hstart Hend.
  unfold msPerHour, HostDate.maxTime in Hnow.
  assert (Hnear : -900000 < rounded - now <= 900000).
  { rewrite (nearestHalfHour_fixed_offset LocalTZA tz Hfix) in Hround
      by (unfold msPerHour, HostDate.maxTime; lia).
    injection Hround as <-.
    assert (-900000 < (now + tz + 900000) / 1800000 * 1800000 - (now + tz) <= 900000);
      [|lia].
    generalize (now + tz). intros T. Z.div_mod_to_equations; lia. }
  assert (Hlater : HostDate.addMinutes LocalTZA (Some rounded) 60 = Some (rounded + 3600000)).
  { rewrite (addMinutes_fixed LocalTZA tz Hfix). unfold msPerMinute.
    apply TimeClip_Some. unfold HostDate.maxTime. lia. }
  destruct (clock_after_an_hour LocalTZA tz rounded Hfix) as [Hh Hm].
  fold hour in Hh. fold minute in Hm.
  assert (Hs : Calendar.startDateOf tz parseDate parseTime form
               = Some (setHours tz t hour minute 0 0)).
  { unfold Calendar.startDateOf. subst form.
    cbn [Calendar.pickClient Calendar.resetCreateForm
         Calendar.CreateSessionFormData.date Calendar.CreateSessionFormData.startTime].
    rewrite Hround. cbn [Calendar.clockOf]. fold hour minute.
    rewrite Hdate, Hstart. reflexivity. }
  assert (He : Calendar.endDateOf tz parseDate parseTime form
               = Some (setHours tz t ((hour + 1) mod 24) minute 0 0)).
  { unfold Calendar.endDateOf. subst form.
    cbn [Calendar.pickClient Calendar.resetCreateForm
         Calendar.CreateSessionFormData.date Calendar.CreateSessionFormData.endTime].
    rewrite Hround, Hlater. cbn [Calendar.clockOf].
    rewrite Hh, Hm, Hdate, Hend. reflexivity. }
  assert (Hbound : 0 <= hour < 24).
  { subst hour. unfold HostDate.getHours, HourFromTime. apply Z.mod_pos_bound. lia. }
  split.
  - intros Hlt. eexists. split; [exact Hs|]. rewrite He. f_equal.
    rewrite !setHours_local. rewrite Z.mod_small by lia. unfold msPerHour. lia.
  - intros H23. unfold Calendar.handleCreateSession. cbn [negb].
    replace (Calendar.CreateSessionFormData.clientId form) with cid by reflexivity.
    destruct (String.eqb_spec cid ""); [contradiction|].
    rewrite Hs, He. cbn [date_ge]. rewrite !setHours_local, H23.
    change ((23 + 1) mod 24) with 0.
    replace (_ <=? _) with true; [reflexivity|].
    symmetry. apply Z.leb_le. unfold msPerHour. lia.
Qed.

(** X18 on a UTC host with the clock at 23:20 on 2024-03-04. *)
Lemma X18_witness :
  let now := Samples.T0900 + 14 * 3600000 + 20 * 60000 in
  let form :=
    Calendar.pickClient (Calendar.resetCreateForm (fixedOffset 0) now "2024-03-04") "c1" in
  Calendar.handleCreateSession 0 SampleHost.parseDate SampleHost.parseTime true form []
    ∅ false now
  = Calendar.ShowAlert "Error" "End time must be after start time" [].
Proof.
  pose proof (X18_default_form_wraps_at_23 (fixedOffset 0) 0
                SampleHost.parseDate SampleHost.parseTime
                (Samples.T0900 + 14 * 3600000 + 20 * 60000) "2024-03-04" "c1" [] ∅ false
                (Samples.T0900 + 14 * 3600000 + 20 * 60000) 1709510400000
                (Samples.T0900 + 14 * 3600000 + 30 * 60000)) as H.
  destruct H as [_ H].
  - intros t isUTC. reflexivity.
  - vm_compute. discriminate.
  - vm_compute. reflexivity.
  - discriminate.
  - vm_compute. reflexivity.
  - vm_compute. reflexivity.
  - vm_compute. reflexivity.
  - apply H. vm_compute. reflexivity.
Defined.

(** Before the start of daylight saving the form's end lies two hours
    after its start on the clock: in New York at 01:20 on 2024-03-10
    (06:20Z) the rounded start is 01:30 and the end, 60 minutes later, is
    03:30. *)
Example default_form_across_spring_forward :
  let form := Calendar.resetCreateForm Samples.newYork2024 1710051600000 "2024-03-10" in
  Calendar.CreateSessionFormData.startTime form = "01:30"%string
  /\ Calendar.CreateSessionFormData.endTime form = "03:30"%string.
Proof. vm_compute. split; reflexivity. Qed.

Section MoreFetchFacts.
Variable tz : Z.
Implicit Types (loadSessions : Calendar.Loader) (st : Calendar.CalendarState).
Implicit Types (year month : Z) (withPadding : bool).

Lemma fetchMonth_visibleMonth loadSessions year month withPadding st :
  Calendar.visibleMonth (Calendar.fetchMonth tz loadSessions year month withPadding st).1
  = Calendar.visibleMonth st.
Proof.
  unfold Calendar.fetchMonth.
  generalize (getMonthRange tz year month (if withPadding then 2 else 0)).
  generalize (Calendar.monthKey year month). intros key range.
  case_bool_decide; [reflexivity|].
  destruct (loadSessions _ _ _); reflexivity.
Qed.

(** A fetch leaves the error as it is, or sets the load failure. *)
Lemma fetchMonth_error loadSessions year month withPadding st :
  Calendar.error (Calendar.fetchMonth tz loadSessions year month withPadding st).1
  = Calendar.error st
  \/ (Calendar.error (Calendar.fetchMonth tz loadSessions year month withPadding st).1
      = Some "Failed to load sessions"%string
      /\ exists a b f, loadSessions a b f = None).
Proof.
  unfold Calendar.fetchMonth.
  generalize (getMonthRange tz year month (if withPadding then 2 else 0)).
  generalize (Calendar.monthKey year month). intros key range.
  case_bool_decide; [left; reflexivity|].
  destruct (loadSessions _ _ _) eqn:E; [left; reflexivity|].
  right. split; [reflexivity|]. eauto.
Qed.

(** After a fetch that hits the cache three times nothing has changed. *)
Lemma monthEffect_all_hits loadSessions st :
  Calendar.isLoading st = false ->
  Calendar.monthKey (Calendar.visibleMonth st).1 (Calendar.visibleMonth st).2
  ∈ Calendar.cachedMonths st ->
  Calendar.monthKey (Calendar.visibleMonth st).1 ((Calendar.visibleMonth st).2 - 1)
  ∈ Calendar.cachedMonths st ->
  Calendar.monthKey (Calendar.visibleMonth st).1 ((Calendar.visibleMonth st).2 + 1)
  ∈ Calendar.cachedMonths st ->
  Calendar.monthEffect tz loadSessions st = (st, []).
Proof.
  unfold Calendar.monthEffect. destruct (Calendar.visibleMonth st) as [year month] eqn:Hvm.
  cbn [fst snd]. intros Hload H1 H2 H3.
  rewrite !fetchMonth_hit by assumption. cbn [app]. f_equal.
  destruct st. cbn in *. subst. reflexivity.
Qed.
End MoreFetchFacts.

(** X19: after a create, [refreshAfterCreate] always asks the
    repository for the visible month with padding, whether or not the month
    was marked before; the month ends up marked exactly when that load
    resolves; the marks of all other months are left as they were, and the
    modal is closed. *)
Theorem X19_refresh_reloads_visible_month_only :
  forall (tz : Z) (loadSessions : Calendar.Loader) (st : Calendar.CalendarState),
    let key := Calendar.monthKey (Calendar.visibleMonth st).1 (Calendar.visibleMonth st).2 in
    let range := getMonthRange tz (Calendar.visibleMonth st).1 (Calendar.visibleMonth st).2 2 in
    let result := Calendar.refreshAfterCreate tz loadSessions st in
    (exists rest,
       result.2 = Calendar.LoadSessions range.1 range.2 (Calendar.filters st) :: rest)
    /\ (key ∈ Calendar.cachedMonths result.1
        <-> loadSessions range.1 range.2 (Calendar.filters st) <> None)
    /\ (forall other, other <> key ->
          (other ∈ Calendar.cachedMonths result.1 <-> other ∈ Calendar.cachedMonths st))
    /\ Calendar.showCreateModal result.1 = false.
Proof.
  intros tz loadSessions st key range result. subst result key range.
  unfold Calendar.refreshAfterCreate.
  destruct (Calendar.visibleMonth st) as [year month]. cbn [fst snd].
  set (st1 := Calendar.with_fetch st _ _ _).
  assert (Hmiss : Calendar.monthKey year month ∉ Calendar.cachedMonths st1).
  { subst st1. cbn [Calendar.cachedMonths Calendar.with_fetch].
    generalize (Calendar.monthKey year month). intros key.
    rewrite elem_of_difference, elem_of_singleton. tauto. }
  assert (Hfilters : Calendar.filters st1 = Calendar.filters st) by reflexivity.
  assert (Hcached : Calendar.cachedMonths st1
                    = Calendar.cachedMonths st ∖ {[Calendar.monthKey year month]})
    by reflexivity.
  destruct (loadSessions (getMonthRange tz year month 2).1
              (getMonthRange tz year month 2).2 (Calendar.filters st)) as [l|] eqn:E.
  - rewrite (fetchMonth_success tz loadSessions year month true st1 l Hmiss)
      by (rewrite Hfilters; exact E).
    cbn [fst snd Calendar.cachedMonths Calendar.with_fetch Calendar.with_modal
         Calendar.showCreateModal].
    rewrite Hfilters, Hcached.
    clear Hmiss Hfilters Hcached. clearbody st1.
    generalize (Calendar.monthKey year month). intros key.
    split; [eauto|]. split; [|split; [|reflexivity]].
    + rewrite elem_of_union, elem_of_singleton. split; [discriminate | auto].
    + intros other Hne.
      rewrite elem_of_union, elem_of_singleton, elem_of_difference, elem_of_singleton.
      tauto.
  - rewrite (fetchMonth_failure tz loadSessions year month true st1 Hmiss)
      by (rewrite Hfilters; exact E).
    cbn [fst snd Calendar.cachedMonths Calendar.with_fetch Calendar.with_modal
         Calendar.showCreateModal].
    rewrite Hfilters, Hcached.
    clear Hmiss Hfilters Hcached. clearbody st1.
    generalize (Calendar.monthKey year month). intros key.
    split; [eauto|]. split; [|split; [|reflexivity]].
    + rewrite elem_of_difference, elem_of_singleton. split; [tauto | congruence].
    + intros other Hne. rewrite elem_of_difference, elem_of_singleton. tauto.
Qed.

(** X20: once the effect has run for a month with a repository that
    resolves every load, running it again for the same month calls the
    repository no more and leaves the whole state as it is. *)
Theorem X20_month_revisit_is_silent :
  forall (tz : Z) (loadSessions again : Calendar.Loader) (st : Calendar.CalendarState),
    (forall a b f, loadSessions a b f <> None) ->
    let visited := (Calendar.monthEffect tz loadSessions st).1 in
    Calendar.monthEffect tz again visited = (visited, []).
Proof.
  intros tz loadSessions again st Hok visited. subst visited.
  apply monthEffect_all_hits; unfold Calendar.monthEffect;
    destruct (Calendar.visibleMonth st) as [year month] eqn:Hvm.
  - destruct (Calendar.fetchMonth tz loadSessions year month true _) as [st1 e1].
    destruct (Calendar.fetchMonth tz loadSessions year (month - 1) false st1) as [st2 e2].
    destruct (Calendar.fetchMonth tz loadSessions year (month + 1) false st2) as [st3 e3].
    reflexivity.
  - pose proof (fetchMonth_cached_success tz loadSessions year month true
                  (Calendar.with_loading st true) Hok) as H1.
    pose proof (fetchMonth_visibleMonth tz loadSessions year month true
                  (Calendar.with_loading st true)) as V1.
    destruct (Calendar.fetchMonth tz loadSessions year month true _) as [st1 e1].
    pose proof (fetchMonth_cached_bounds tz loadSessions year (month - 1) false st1) as [B2 _].
    pose proof (fetchMonth_visibleMonth tz loadSessions year (month - 1) false st1) as V2.
    destruct (Calendar.fetchMonth tz loadSessions year (month - 1) false st1) as [st2 e2].
    pose proof (fetchMonth_cached_bounds tz loadSessions year (month + 1) false st2) as [B3 _].
    pose proof (fetchMonth_visibleMonth tz loadSessions year (month + 1) false st2) as V3.
    destruct (Calendar.fetchMonth tz loadSessions year (month + 1) false st2) as [st3 e3].
    cbn [fst snd Calendar.cachedMonths Calendar.visibleMonth Calendar.with_loading] in *.
    rewrite V3, V2, V1, Hvm. cbn [fst snd]. apply B3, B2, H1.
  - pose proof (fetchMonth_visibleMonth tz loadSessions year month true
                  (Calendar.with_loading st true)) as V1.
    destruct (Calendar.fetchMonth tz loadSessions year month true _) as [st1 e1].
    pose proof (fetchMonth_cached_success tz loadSessions year (month - 1) false st1 Hok)
      as H2.
    pose proof (fetchMonth_visibleMonth tz loadSessions year (month - 1) false st1) as V2.
    destruct (Calendar.fetchMonth tz loadSessions year (month - 1) false st1) as [st2 e2].
    pose proof (fetchMonth_cached_bounds tz loadSessions year (month + 1) false st2) as [B3 _].
    pose proof (fetchMonth_visibleMonth tz loadSessions year (month + 1) false st2) as V3.
    destruct (Calendar.fetchMonth tz loadSessions year (month + 1) false st2) as [st3 e3].
    cbn [fst snd Calendar.cachedMonths Calendar.visibleMonth Calendar.with_loading] in *.
    rewrite V3, V2, V1, Hvm. cbn [fst snd]. apply B3, H2.
  - pose proof (fetchMonth_visibleMonth tz loadSessions year month true
                  (Calendar.with_loading st true)) as V1.
    destruct (Calendar.fetchMonth tz loadSessions year month true _) as [st1 e1].
    pose proof (fetchMonth_visibleMonth tz loadSessions year (month - 1) false st1) as V2.
    destruct (Calendar.fetchMonth tz loadSessions year (month - 1) false st1) as [st2 e2].
    pose proof (fetchMonth_cached_success tz loadSessions year (month + 1) false st2 Hok)
      as H3.
    pose proof (fetchMonth_visibleMonth tz loadSessions year (month + 1) false st2) as V3.
    destruct (Calendar.fetchMonth tz loadSessions year (month + 1) false st2) as [st3 e3].
    cbn [fst snd Calendar.cachedMonths Calendar.visibleMonth Calendar.with_loading] in *.
    rewrite V3, V2, V1, Hvm. cbn [fst snd]. exact H3.
Qed.

(** X20 for a fresh component and a repository without sessions. *)
Lemma X20_witness :
  let visited := (Calendar.monthEffect 0 Samples.emptyLoader (Samples.mounted 2024 3)).1 in
  Calendar.monthEffect 0 Samples.failingLoader visited = (visited, []).
Proof.
  apply (X20_month_revisit_is_silent 0 Samples.emptyLoader Samples.failingLoader
           (Samples.mounted 2024 3)).
  intros a b f. discriminate.
Defined.

(** X21: the effect never clears the error: once an error is set it is
    still set after any later run, and after a run whose loads all resolve
    it is the very same message. *)
Theorem X21_error_is_never_cleared :
  forall (tz : Z) (loadSessions : Calendar.Loader) (st : Calendar.CalendarState)
         (message : string),
    Calendar.error st = Some message ->
    let after := (Calendar.monthEffect tz loadSessions st).1 in
    Calendar.error after <> None
    /\ ((forall a b f, loadSessions a b f <> None) ->
        Calendar.error after = Some message).
Proof.
  intros tz loadSessions st message Herr after. subst after.
  unfold Calendar.monthEffect. destruct (Calendar.visibleMonth st) as [year month].
  pose proof (fetchMonth_error tz loadSessions year month true
                (Calendar.with_loading st true)) as E1.
  destruct (Calendar.fetchMonth tz loadSessions year month true _) as [st1 e1].
  pose proof (fetchMonth_error tz loadSessions year (month - 1) false st1) as E2.
  destruct (Calendar.fetchMonth tz loadSessions year (month - 1) false st1) as [st2 e2].
  pose proof (fetchMonth_error tz loadSessions year (month + 1) false st2) as E3.
  destruct (Calendar.fetchMonth tz loadSessions year (month + 1) false st2) as [st3 e3].
  cbn [fst snd Calendar.error Calendar.with_loading] in *.
  split.
  - destruct E3 as [E3|[E3 _]], E2 as [E2|[E2 _]], E1 as [E1|[E1 _]]; congruence.
  - intros Hok.
    destruct E3 as [E3|[_ (a & b & f & E3)]]; [|by apply Hok in E3].
    destruct E2 as [E2|[_ (a & b & f & E2)]]; [|by apply Hok in E2].
    destruct E1 as [E1|[_ (a & b & f & E1)]]; [|by apply Hok in E1].
    congruence.
Qed.

(** X21 at a component that carries an error and whose loads resolve. *)
Lemma X21_witness :
  let st := Calendar.with_fetch (Samples.mounted 2024 3) ∅ ∅
              (Some "Failed to load sessions"%string) in
  Calendar.error (Calendar.monthEffect 0 Samples.emptyLoader st).1 <> None.
Proof.
  apply (X21_error_is_never_cleared 0 Samples.emptyLoader
           (Calendar.with_fetch (Samples.mounted 2024 3) ∅ ∅
              (Some "Failed to load sessions"%string))
           "Failed to load sessions").
  reflexivity.
Defined.

Lemma merge_grouped_nil (prev : gmap string (list Session.t)) :
  Calendar.merge prev (Calendar.grouped []) = prev.
Proof.
  apply map_eq. intros key. rewrite merge_lookup, grouped_lookup. reflexivity.
Qed.

Lemma loadSessions_nothing_stored stored a b filters :
  stored = CalendarScreen.Unreadable \/ stored = CalendarScreen.Absent ->
  CalendarScreen.loadSessions stored a b filters = [].
Proof.
  intros [->| ->]; [reflexivity|].
  unfold CalendarScreen.loadSessions. cbn [List.filter].
  destruct (0 <? length _)%nat; [reflexivity|].
  destruct (truthy _); reflexivity.
Qed.

(** X22: with the screen's [loadSessions] as the loader, a fetch of a
    month never sets the error and always leaves the month marked as fetched;
    when the stored item cannot be read, or is absent, the day buckets are
    left as they were, so a failed read of the storage is taken for a month
    without sessions and is not tried again. *)
Theorem X22_storage_failure_is_cached_as_empty :
  forall (tz : Z) (stored : CalendarScreen.StoredItem) (year month : Z)
         (withPadding : bool) (st : Calendar.CalendarState),
    let fetched item :=
      (Calendar.fetchMonth tz (screenLoader item) year month withPadding st).1 in
    Calendar.error (fetched stored) = Calendar.error st
    /\ Calendar.monthKey year month ∈ Calendar.cachedMonths (fetched stored)
    /\ Calendar.sessionsByDate (fetched CalendarScreen.Unreadable)
       = Calendar.sessionsByDate st
    /\ Calendar.sessionsByDate (fetched CalendarScreen.Absent)
       = Calendar.sessionsByDate st.
Proof.
  intros tz stored year month withPadding st fetched. subst fetched. cbn beta.
  assert (Hok : forall item a b f, screenLoader item a b f <> None) by discriminate.
  split; [|split; [|split]].
  - destruct (fetchMonth_error tz (screenLoader stored) year month withPadding st)
      as [H|[_ (a & b & f & H)]]; [exact H | discriminate H].
  - apply fetchMonth_cached_success. apply Hok.
  - destruct (decide (Calendar.monthKey year month ∈ Calendar.cachedMonths st)) as [Hin|Hout].
    + by rewrite fetchMonth_hit.
    + rewrite (fetchMonth_success tz _ year month withPadding st [] Hout)
        by (unfold screenLoader; f_equal; apply loadSessions_nothing_stored; auto).
      cbn [fst Calendar.sessionsByDate Calendar.with_fetch]. apply merge_grouped_nil.
  - destruct (decide (Calendar.monthKey year month ∈ Calendar.cachedMonths st)) as [Hin|Hout].
    + by rewrite fetchMonth_hit.
    + rewrite (fetchMonth_success tz _ year month withPadding st [] Hout)
        by (unfold screenLoader; f_equal; apply loadSessions_nothing_stored; auto).
      cbn [fst Calendar.sessionsByDate Calendar.with_fetch]. apply merge_grouped_nil.
Qed.

Lemma elem_of_sessionsOn (s : Session.t) (sessions : list Session.t) :
  s ∈ sessions -> s ∈ sessionsOn (Session.date (Session.fields s)) sessions.
Proof.
  intros Hin. unfold sessionsOn. apply list_elem_of_In, filter_In.
  split; [by apply list_elem_of_In | apply String.eqb_refl].
Qed.

(** X23: after a fetch of a month that was not marked, every session the
    loader returned is in the agenda bucket of the day its [date] field
    names, whatever its start is, and that bucket holds exactly the returned
    sessions with that [date], in the order of the loader. *)
Theorem X23_fetched_session_lands_on_its_date :
  forall (tz : Z) (loadSessions : Calendar.Loader) (year month : Z) (withPadding : bool)
         (st : Calendar.CalendarState) (sessions : list Session.t) (s : Session.t),
    Calendar.monthKey year month ∉ Calendar.cachedMonths st ->
    loadSessions (getMonthRange tz year month (if withPadding then 2 else 0)).1
                 (getMonthRange tz year month (if withPadding then 2 else 0)).2
                 (Calendar.filters st) = Some sessions ->
    s ∈ sessions ->
    let after :=
      Calendar.sessionsByDate
        (Calendar.fetchMonth tz loadSessions year month withPadding st).1 in
    s ∈ bucket after (Session.date (Session.fields s))
    /\ bucket after (Session.date (Session.fields s))
       = sessionsOn (Session.date (Session.fields s)) sessions.
Proof.
  intros tz loadSessions year month withPadding st sessions s Hmiss Hload Hin after.
  subst after. rewrite (fetchMonth_success tz _ _ _ _ _ sessions Hmiss Hload).
  cbn [fst Calendar.sessionsByDate Calendar.with_fetch].
  assert (Hb : bucket (Calendar.merge (Calendar.sessionsByDate st)
                         (Calendar.grouped sessions))
                 (Session.date (Session.fields s))
               = sessionsOn (Session.date (Session.fields s)) sessions).
  { unfold bucket. rewrite merge_lookup, grouped_lookup.
    pose proof (elem_of_sessionsOn s sessions Hin) as Hs.
    destruct (sessionsOn _ sessions); [|reflexivity].
    by apply not_elem_of_nil in Hs. }
  split; [|exact Hb]. rewrite Hb. by apply elem_of_sessionsOn.
Qed.

(** X23 for a stored session of 2024-03-04 and the first fetch of March
    2024 through the screen's loader. *)
Lemma X23_witness :
  let after :=
    Calendar.sessionsByDate
      (Calendar.fetchMonth 0 (screenLoader (CalendarScreen.Stored [Samples.booked0900]))
         2024 3 true (Samples.mounted 2024 3)).1 in
  Samples.booked0900 ∈ bucket after (Session.date (Session.fields Samples.booked0900))
  /\ bucket after (Session.date (Session.fields Samples.booked0900))
     = sessionsOn (Session.date (Session.fields Samples.booked0900)) [Samples.booked0900].
Proof.
  apply (X23_fetched_session_lands_on_its_date 0
           (screenLoader (CalendarScreen.Stored [Samples.booked0900])) 2024 3 true
           (Samples.mounted 2024 3) [Samples.booked0900] Samples.booked0900).
  - apply not_elem_of_empty.
  - vm_compute. reflexivity.
  - apply list_elem_of_singleton. reflexivity.
Defined.

(** X24: with the repeat switch off, or with a repeat of zero or fewer
    weeks, a request with a valid start and end hands over one single
    session: it carries the form's date text, the start and the end, and no
    recurring mark; the screen then stores exactly one more session. *)
Theorem X24_single_session_without_repeat :
  forall (tz : Z) (parseDate : string -> JsDate) (parseTime : string -> option (Z * Z))
         (form : Calendar.CreateSessionFormData.t) (clients : list Client.t)
         (s e : Z) (stored : list Session.t) (newId : nat -> string),
    Calendar.CreateSessionFormData.repeatWeekly form = false
    \/ Calendar.CreateSessionFormData.repeatWeeks form <= 0 ->
    Calendar.startDateOf tz parseDate parseTime form = Some s ->
    Calendar.endDateOf tz parseDate parseTime form = Some e ->
    exists base,
      Calendar.createSessions tz parseDate parseTime form clients
      = Calendar.CallOnCreateSession (Single base)
      /\ Session.date base = Calendar.CreateSessionFormData.date form
      /\ Session.startISO base = s
      /\ Session.endISO base = e
      /\ Session.recurring base = None
      /\ (CalendarScreen.handleCreateSession stored newId true (Single base)).1.1
         = stored ++ [{| Session.id := newId 0%nat; Session.fields := base |}].
Proof.
  intros tz parseDate parseTime form clients s e stored newId Hsingle Hs He.
  unfold Calendar.createSessions. rewrite Hs, He. unfold toUTCISO.
  unfold Calendar.startDateOf in Hs. unfold Calendar.endDateOf in He.
  apply atTime_Some in Hs as (t & sh & sm & _ & -> & _).
  apply atTime_Some in He as (t' & eh & em & _ & -> & _).
  replace (Calendar.CreateSessionFormData.repeatWeekly form
           && (0 <? Calendar.CreateSessionFormData.repeatWeeks form)) with false.
  - eexists. split; [reflexivity|]. repeat split; reflexivity.
  - symmetry. destruct Hsingle as [->|Hle]; [reflexivity|].
    apply andb_false_iff. right. apply Z.ltb_ge. exact Hle.
Qed.

(** X24 for a weekly repeat of 0 weeks on 2024-03-04, 09:30 to 10:30. *)
Lemma X24_witness :
  exists base,
    Calendar.createSessions 0 SampleHost.parseDate SampleHost.parseTime
      (Samples.mkForm "c1" "2024-03-04" "09:30" "10:30" true 0) []
    = Calendar.CallOnCreateSession (Single base)
    /\ Session.date base
       = Calendar.CreateSessionFormData.date
           (Samples.mkForm "c1" "2024-03-04" "09:30" "10:30" true 0)
    /\ Session.startISO base = Samples.T0930
    /\ Session.endISO base = Samples.T1030
    /\ Session.recurring base = None
    /\ (CalendarScreen.handleCreateSession [] pretty true (Single base)).1.1
       = [] ++ [{| Session.id := pretty 0%nat; Session.fields := base |}].
Proof.
  apply (X24_single_session_without_repeat 0 SampleHost.parseDate SampleHost.parseTime
           (Samples.mkForm "c1" "2024-03-04" "09:30" "10:30" true 0) []
           Samples.T0930 Samples.T1030 [] pretty).
  - right. vm_compute. discriminate.
  - vm_compute. reflexivity.
  - vm_compute. reflexivity.
Defined.

Lemma pad2_length_clock n : 0 <= n <= 59 -> String.length (pad2 n) = 2%nat.
Proof.
  intros Hn.
  apply (small_range_ind (fun n => String.length (pad2 n) = 2%nat) 0 60); [|lia].
  vm_compute. repeat constructor.
Qed.

(** X25: [formatTime] prints a 12-hour clock for every instant: the hour
    shown lies between 1 and 12 (local hours 0 and 12 both show 12), the
    minute is always printed with two digits, the suffix is AM exactly for
    the local hours before 12, and hour shown and suffix together give the
    local hour back. *)
Theorem X25_formatTime_twelve_hour_clock :
  forall (tz d : Z),
    let h := getHours tz d in
    let m := getMinutes tz d in
    exists shown : Z,
      formatTime tz d
      = pretty shown +:+ ":" +:+ pad2 m +:+ " " +:+ (if h <? 12 then "AM" else "PM")
      /\ 1 <= shown <= 12
      /\ h = shown mod 12 + (if h <? 12 then 0 else 12)
      /\ 0 <= m <= 59
      /\ String.length (pad2 m) = 2%nat.
Proof.
  intros tz d h m.
  assert (Hh : 0 <= h <= 23).
  { subst h. unfold getHours, HourFromTime. generalize (LocalTime tz d / msPerHour).
    intros q. Z.div_mod_to_equations; lia. }
  assert (Hm : 0 <= m <= 59).
  { subst m. unfold getMinutes, MinFromTime. generalize (LocalTime tz d / msPerMinute).
    intros q. Z.div_mod_to_equations; lia. }
  exists (if h mod 12 =? 0 then 12 else h mod 12).
  split; [|split; [|split; [|split]]].
  - unfold formatTime, pad2. fold h. fold m.
    destruct (Z.leb_spec 12 h), (Z.ltb_spec h 12); try lia; reflexivity.
  - destruct (Z.eqb_spec (h mod 12) 0); [lia|]. Z.div_mod_to_equations; lia.
  - destruct (Z.eqb_spec (h mod 12) 0) as [E|E], (Z.ltb_spec h 12);
      Z.div_mod_to_equations; lia.
  - exact Hm.
  - by apply pad2_length_clock.
Qed.

Section RequestFacts.
Variable tz : Z.
Variable parseDate : string -> JsDate.
Variable parseTime : string -> option (Z * Z).

(** Past the two validations the handler depends on the clock and the
    read-only flag alone. *)
Lemma handleCreateSession_valid form clients byDate readOnly now s e :
  Calendar.CreateSessionFormData.clientId form <> ""%string ->
  Calendar.startDateOf tz parseDate parseTime form = Some s ->
  Calendar.endDateOf tz parseDate parseTime form = Some e ->
  s < e ->
  Calendar.handleCreateSession tz parseDate parseTime true form clients byDate readOnly now
  = if (s <? now) && negb readOnly then
      Calendar.ShowAlert "Warning" "This session is in the past. Continue?"
        [Calendar.button "Cancel" Calendar.Returns;
         Calendar.button "Continue"
           (Calendar.proceedWithCreate tz parseDate parseTime form clients byDate)]
    else Calendar.proceedWithCreate tz parseDate parseTime form clients byDate.
Proof.
  intros Hclient Hs He Hlt. unfold Calendar.handleCreateSession.
  generalize (Calendar.proceedWithCreate tz parseDate parseTime form clients byDate).
  intros k. rewrite Hs, He. cbn [negb date_ge isPast date_lt].
  destruct (String.eqb_spec (Calendar.CreateSessionFormData.clientId form) "");
    [contradiction|].
  replace (e <=? s) with false by (symmetry; apply Z.leb_gt; exact Hlt).
  reflexivity.
Qed.

(** Without an overlapping session in the bucket of the start's day the
    conflict alert is skipped. *)
Lemma proceedWithCreate_free form clients byDate s e :
  Calendar.startDateOf tz parseDate parseTime form = Some s ->
  Calendar.endDateOf tz parseDate parseTime form = Some e ->
  (forall x, x ∈ bucket byDate (dateKey tz (Some s)) ->
     Session.endISO (Session.fields x) <= s \/ e <= Session.startISO (Session.fields x)) ->
  Calendar.proceedWithCreate tz parseDate parseTime form clients byDate
  = Calendar.createSessions tz parseDate parseTime form clients.
Proof.
  intros Hs He Hfree. unfold Calendar.proceedWithCreate.
  generalize (Calendar.createSessions tz parseDate parseTime form clients). intros k.
  rewrite Hs, He.
  assert (Hnone : Calendar.checkConflicts tz byDate (Some s) (Some e) None = []).
  { unfold Calendar.checkConflicts. fold (bucket byDate (dateKey tz (Some s))).
    revert Hfree. generalize (bucket byDate (dateKey tz (Some s))). intros l Hfree.
    induction l as [|x l IH]; cbn [List.filter]; [reflexivity|].
    rewrite bool_decide_eq_false_2 by discriminate.
    unfold dateRangesOverlap, toLocal. cbn [date_lt].
    replace ((s <? Session.endISO (Session.fields x))
             && (Session.startISO (Session.fields x) <? e)) with false.
    - apply IH. intros y Hy. apply Hfree. by right.
    - symmetry. apply andb_false_iff.
      destruct (Hfree x) as [H|H]; [by left | left | right]; by apply Z.ltb_ge. }
  rewrite Hnone. reflexivity.
Qed.
End RequestFacts.

(** X26: a request that passes the validations and starts before the
    clock read is answered by the past warning, and no [onCreateSession]
    call is reached unless the button Continue is pressed; in read-only mode
    the same request is taken on without the warning. *)
Theorem X26_past_start_needs_confirmation :
  forall (tz : Z) (parseDate : string -> JsDate) (parseTime : string -> option (Z * Z))
         (form : Calendar.CreateSessionFormData.t) (clients : list Client.t)
         (byDate : gmap string (list Session.t)) (now s e : Z),
    Calendar.CreateSessionFormData.clientId form <> ""%string ->
    Calendar.startDateOf tz parseDate parseTime form = Some s ->
    Calendar.endDateOf tz parseDate parseTime form = Some e ->
    s < e ->
    s < now ->
    Calendar.handleCreateSession tz parseDate parseTime true form clients byDate false now
    = Calendar.ShowAlert "Warning" "This session is in the past. Continue?"
        [Calendar.button "Cancel" Calendar.Returns;
         Calendar.button "Continue"
           (Calendar.proceedWithCreate tz parseDate parseTime form clients byDate)]
    /\ Calendar.createsAvoiding "Continue"
         (Calendar.handleCreateSession tz parseDate parseTime true form clients byDate
            false now) = []
    /\ Calendar.handleCreateSession tz parseDate parseTime true form clients byDate true now
       = Calendar.proceedWithCreate tz parseDate parseTime form clients byDate.
Proof.
  intros tz parseDate parseTime form clients byDate now s e Hclient Hs He Hlt Hpast.
  rewrite !(handleCreateSession_valid tz parseDate parseTime form clients byDate _ now s e)
    by assumption.
  generalize (Calendar.proceedWithCreate tz parseDate parseTime form clients byDate).
  intros k.
  replace (s <? now) with true by (symmetry; apply Z.ltb_lt; exact Hpast).
  cbn [andb negb]. repeat split; reflexivity.
Qed.

(** X26 for a request of 2024-03-04, 09:30 to 10:30, read one second
    after its start. *)
Lemma X26_witness :
  Calendar.createsAvoiding "Continue"
    (Calendar.handleCreateSession 0 SampleHost.parseDate SampleHost.parseTime true
       (Samples.mkForm "c1" "2024-03-04" "09:30" "10:30" false 1) [] ∅
       false (Samples.T0930 + 1000)) = [].
Proof.
  apply (X26_past_start_needs_confirmation 0 SampleHost.parseDate SampleHost.parseTime
           (Samples.mkForm "c1" "2024-03-04" "09:30" "10:30" false 1) [] ∅
           (Samples.T0930 + 1000) Samples.T0930 Samples.T1030).
  - discriminate.
  - vm_compute. reflexivity.
  - vm_compute. reflexivity.
  - reflexivity.
  - reflexivity.
Defined.

(** X27: a request that passes the validations, does not start in the
    past, and whose time touches or lies apart from every session in the
    bucket of its start's local day goes to [createSessions] without any
    alert; a session that ends exactly when the request starts, or starts
    exactly when it ends, does not stand in its way. *)
Theorem X27_free_slot_goes_straight_to_create :
  forall (tz : Z) (parseDate : string -> JsDate) (parseTime : string -> option (Z * Z))
         (form : Calendar.CreateSessionFormData.t) (clients : list Client.t)
         (byDate : gmap string (list Session.t)) (readOnly : bool) (now s e : Z),
    Calendar.CreateSessionFormData.clientId form <> ""%string ->
    Calendar.startDateOf tz parseDate parseTime form = Some s ->
    Calendar.endDateOf tz parseDate parseTime form = Some e ->
    s < e ->
    now <= s ->
    (forall x, x ∈ bucket byDate (dateKey tz (Some s)) ->
       Session.endISO (Session.fields x) <= s \/ e <= Session.startISO (Session.fields x)) ->
    Calendar.handleCreateSession tz parseDate parseTime true form clients byDate
      readOnly now
    = Calendar.createSessions tz parseDate parseTime form clients.
Proof.
  intros tz parseDate parseTime form clients byDate readOnly now s e
    Hclient Hs He Hlt Hnow Hfree.
  rewrite (handleCreateSession_valid tz parseDate parseTime form clients byDate
             readOnly now s e) by assumption.
  rewrite (proceedWithCreate_free tz parseDate parseTime form clients byDate s e)
    by assumption.
  replace (s <? now) with false by (symmetry; apply Z.ltb_ge; exact Hnow).
  reflexivity.
Qed.

(** X27 for a request of 10:00 to 11:00 on 2024-03-04, right after the
    booked session of 09:00 to 10:00. *)
Lemma X27_witness :
  Calendar.handleCreateSession 0 SampleHost.parseDate SampleHost.parseTime true
    (Samples.mkForm "c1" "2024-03-04" "10:00" "11:00" false 1) []
    {[ "2024-03-04"%string := [Samples.booked0900] ]} false 0
  = Calendar.createSessions 0 SampleHost.parseDate SampleHost.parseTime
      (Samples.mkForm "c1" "2024-03-04" "10:00" "11:00" false 1) [].
Proof.
  apply (X27_free_slot_goes_straight_to_create 0 SampleHost.parseDate SampleHost.parseTime
           (Samples.mkForm "c1" "2024-03-04" "10:00" "11:00" false 1) []
           {[ "2024-03-04"%string := [Samples.booked0900] ]} false 0
           Samples.T1000 (Samples.T1000 + 3600000)).
  - discriminate.
  - vm_compute. reflexivity.
  - vm_compute. reflexivity.
  - reflexivity.
  - discriminate.
  - intros x Hx.
    assert (Hkey : dateKey 0 (Some Samples.T1000) = "2024-03-04"%string)
      by (vm_compute; reflexivity).
    rewrite Hkey in Hx. unfold bucket in Hx. rewrite lookup_singleton_eq in Hx.
    apply list_elem_of_singleton in Hx. subst x. left. discriminate.
Defined.
